(** * rtla timerlat top: per-CPU timer latency summary

    A shallow embedding of [tools/tracing/rtla/src/timerlat_top.c]: the
    per-CPU statistics table, the aggregator that folds timerlat events
    into it, the renderer and the monitor loop of [timerlat_top_main],
    followed by the properties of the tool's specification.

    Conventions.
    - [unsigned long long] values are integers in [0, 2^64); arithmetic
      on them wraps ([wrap_u64]).
    - [int] values are integers in [-2^31, 2^31).  Overflow of a signed
      counter is undefined in C; the model takes the two's complement
      wrap-around of the compiled code ([wrap_int]).
    - An access outside the per-CPU table is undefined in C; the model
      has a result for it, [None] in the pure functions and [Fault] in
      the monitor loop. *)

From Stdlib Require Import ZArith String Lia.
From stdpp Require Import base list strings pretty.

Open Scope Z_scope.

(** ** Machine integers *)

Module CInt.

Definition U64_MODULUS : Z := 2 ^ 64.
Definition INT_MODULUS : Z := 2 ^ 32.
Definition INT_MAX : Z := 2 ^ 31 - 1.

(** Reduction of an integer to [unsigned long long]; also the
    conversion of an [int] operand in mixed arithmetic. *)
Definition wrap_u64 (z : Z) : Z := z mod U64_MODULUS.

(** Reduction of an integer to [int]. *)
Definition wrap_int (z : Z) : Z := (z + 2 ^ 31) mod INT_MODULUS - 2 ^ 31.

Definition is_u64 (z : Z) : Prop := 0 <= z < U64_MODULUS.

(** The expression [~0]: an [int] with all bits set, converted to
    [unsigned long long] by the assignment. *)
Definition all_ones : Z := wrap_u64 (Z.lnot 0).

End CInt.
Import CInt.

(** ** Data model *)

(** [struct timerlat_top_cpu] *)
Record timerlat_top_cpu : Type := mk_cpu {
  irq_count : Z;
  thread_count : Z;
  cur_irq : Z;
  min_irq : Z;
  sum_irq : Z;
  max_irq : Z;
  cur_thread : Z;
  min_thread : Z;
  sum_thread : Z;
  max_thread : Z
}.

(** [struct timerlat_top_data] *)
Record timerlat_top_data : Type := mk_data {
  cpu_data : list timerlat_top_cpu;
  nr_cpus : Z
}.

(** The fields of a timerlat event that the handler reads:
    [record->cpu] (an [int]) and the fields "context" and
    "timer_latency" fetched by [tep_get_field_val] (each an
    [unsigned long long]). *)
Record tep_record : Type := mk_record {
  rec_cpu : Z;
  rec_context : Z;
  rec_timer_latency : Z
}.

(** ** StatsStore and Aggregator *)

(** Modelled from the spec: [update_min] of rtla's [utils.h], which is
    not part of the sources at hand; "min = min(min, latency)". *)
Definition update_min (a b : Z) : Z := Z.min a b.

(** Modelled from the spec: [update_max] of rtla's [utils.h], which is
    not part of the sources at hand; "max = max(max, latency)". *)
Definition update_max (a b : Z) : Z := Z.max a b.

(** Modelled from the spec: [update_sum] of rtla's [utils.h], which is
    not part of the sources at hand; "sum += latency", on the
    [unsigned long long] field of the struct. *)
Definition update_sum (a b : Z) : Z := wrap_u64 (a + b).

(** What [calloc] hands out: every field zero. *)
Definition zeroed_cpu : timerlat_top_cpu := mk_cpu 0 0 0 0 0 0 0 0 0 0.

(** One step of the loop "set the min to max" of [timerlat_alloc_top]. *)
Definition set_min_to_max (c : timerlat_top_cpu) : timerlat_top_cpu :=
  mk_cpu (irq_count c) (thread_count c)
         (cur_irq c) all_ones (sum_irq c) (max_irq c)
         (cur_thread c) all_ones (sum_thread c) (max_thread c).

(** [for (cpu = from; cpu < nr_cpus; cpu++)], with [todo] iterations
    left. *)
Fixpoint alloc_loop (tbl : list timerlat_top_cpu) (from todo : nat)
  : list timerlat_top_cpu :=
  match todo with
  | O => tbl
  | S todo' =>
      match tbl !! from with
      | Some c => alloc_loop (<[from := set_min_to_max c]> tbl) (S from) todo'
      | None => tbl
      end
  end.

(** [timerlat_alloc_top].  The two booleans say whether the first and
    the second [calloc] succeed; [None] is the [NULL] result. *)
Definition timerlat_alloc_top (calloc_data calloc_table : bool) (n : Z)
  : option timerlat_top_data :=
  if negb calloc_data then None
  else if negb calloc_table then None
  else
    let tbl := replicate (Z.to_nat n) zeroed_cpu in
    Some (mk_data (alloc_loop tbl 0 (Z.to_nat n)) n).

(** The body of [timerlat_top_update] once [cpu_data] points at the
    entry of the CPU. *)
Definition update_cpu (c : timerlat_top_cpu) (thread latency : Z)
  : timerlat_top_cpu :=
  if thread =? 0 then
    mk_cpu (wrap_int (irq_count c + 1)) (thread_count c)
           latency
           (update_min (min_irq c) latency)
           (update_sum (sum_irq c) latency)
           (update_max (max_irq c) latency)
           (cur_thread c) (min_thread c) (sum_thread c) (max_thread c)
  else
    mk_cpu (irq_count c) (wrap_int (thread_count c + 1))
           (cur_irq c) (min_irq c) (sum_irq c) (max_irq c)
           latency
           (update_min (min_thread c) latency)
           (update_sum (sum_thread c) latency)
           (update_max (max_thread c) latency).

(** The entry [data->cpu_data[cpu]]; [None] when [cpu] lies outside
    the table. *)
Definition cpu_entry (data : timerlat_top_data) (cpu : Z)
  : option timerlat_top_cpu :=
  if cpu <? 0 then None else cpu_data data !! Z.to_nat cpu.

(** [timerlat_top_update]: no test of [cpu] against [nr_cpus]. *)
Definition timerlat_top_update (data : timerlat_top_data)
    (cpu thread latency : Z) : option timerlat_top_data :=
  match cpu_entry data cpu with
  | None => None
  | Some c =>
      Some (mk_data (<[Z.to_nat cpu := update_cpu c thread latency]> (cpu_data data))
                    (nr_cpus data))
  end.

(** [timerlat_top_handler]: the handler of the timerlat tracer events. *)
Definition timerlat_top_handler (data : timerlat_top_data) (r : tep_record)
  : option timerlat_top_data :=
  let cpu := rec_cpu r in
  let thread := rec_context r in
  let latency := rec_timer_latency r in
  timerlat_top_update data cpu thread latency.

(** The events of one poll, handed to the handler in arrival order. *)
Fixpoint handle_events (data : timerlat_top_data) (rs : list tep_record)
  : option timerlat_top_data :=
  match rs with
  | [] => Some data
  | r :: rs' =>
      match timerlat_top_handler data r with
      | None => None
      | Some data' => handle_events data' rs'
      end
  end.

(** *** Views used by the statements *)

(** The two contexts of a sample. *)
Inductive context : Type := Irq | Thread.

Definition context_of (thread : Z) : context :=
  if thread =? 0 then Irq else Thread.

Definition count_of (k : context) (c : timerlat_top_cpu) : Z :=
  match k with Irq => irq_count c | Thread => thread_count c end.
Definition cur_of (k : context) (c : timerlat_top_cpu) : Z :=
  match k with Irq => cur_irq c | Thread => cur_thread c end.
Definition min_of (k : context) (c : timerlat_top_cpu) : Z :=
  match k with Irq => min_irq c | Thread => min_thread c end.
Definition sum_of (k : context) (c : timerlat_top_cpu) : Z :=
  match k with Irq => sum_irq c | Thread => sum_thread c end.
Definition max_of (k : context) (c : timerlat_top_cpu) : Z :=
  match k with Irq => max_irq c | Thread => max_thread c end.

Definition context_eqb (a b : context) : bool :=
  match a, b with
  | Irq, Irq | Thread, Thread => true
  | _, _ => false
  end.

(** Does the record belong to CPU [cpu] and context [k]? *)
Definition matches (cpu : Z) (k : context) (r : tep_record) : bool :=
  (rec_cpu r =? cpu) && context_eqb (context_of (rec_context r)) k.

(** The latencies of the records of CPU [cpu] and context [k], in
    arrival order. *)
Fixpoint seen (cpu : Z) (k : context) (rs : list tep_record) : list Z :=
  match rs with
  | [] => []
  | r :: rs' =>
      if matches cpu k r then rec_timer_latency r :: seen cpu k rs'
      else seen cpu k rs'
  end.

(** The average as [timerlat_top_print] computes it:
    [sum / count], the [int] count converted to [unsigned long long]. *)
Definition avg_of (k : context) (c : timerlat_top_cpu) : Z :=
  sum_of k c / wrap_u64 (count_of k c).

(** ** Renderer *)

(** [struct timerlat_top_params], without [runtime] and [sched_param],
    which the modelled code only hands on.  A [char *] that may be
    [NULL] is an [option]; [monitored_cpus] is the byte array filled by
    [parse_cpu_list]. *)
Record timerlat_top_params : Type := mk_params {
  cpus : option string;
  monitored_cpus : list Z;
  trace_output : option string;
  stop_us : Z;
  stop_total_us : Z;
  timerlat_period_us : Z;
  print_stack : Z;
  sleep_time : Z;
  output_divisor : Z;
  duration : Z;
  quiet : Z;
  set_sched : Z
}.

Module Fmt.

Definition ESC : string := String (Ascii.ascii_of_nat 27) EmptyString.
Definition NL : string := String (Ascii.ascii_of_nat 10) EmptyString.

Fixpoint spaces (n : nat) : string :=
  match n with
  | O => EmptyString
  | S n' => String (Ascii.ascii_of_nat 32) (spaces n')
  end.

(** A conversion with a minimum field width, right-justified. *)
Definition pad_left (width : nat) (s : string) : string :=
  spaces (width - String.length s) +:+ s.

(** A conversion with the [-] flag: left-justified. *)
Definition pad_right (width : nat) (s : string) : string :=
  s +:+ spaces (width - String.length s).

(** ["%3d"], ["%-9d"], ["%9llu"] and ["%-6s"]. *)
Definition d3 (z : Z) : string := pad_left 3 (pretty z).
Definition d9_left (z : Z) : string := pad_right 9 (pretty z).
Definition llu9 (z : Z) : string := pad_left 9 (pretty z).
Definition s6_left (s : string) : string := pad_right 6 s.

Fixpoint concat (ss : list string) : string :=
  match ss with
  | [] => EmptyString
  | s :: ss' => s +:+ concat ss'
  end.

End Fmt.

(** [timerlat_top_header]; [duration_text] is what [get_duration]
    writes for [top->start_time]. *)
Definition timerlat_top_header (params : timerlat_top_params)
    (duration_text : string) : string :=
  let unit := if output_divisor params =? 1 then "ns" else "us" in
  Fmt.concat [
    Fmt.ESC +:+ "[2;37;40m";
    "                                     Timer Latency                                              ";
    Fmt.ESC +:+ "[0;0;0m";
    Fmt.NL;
    Fmt.s6_left duration_text +:+ "   |          IRQ Timer Latency (" +:+ unit
      +:+ ")        |         Thread Timer Latency (" +:+ unit +:+ ")" +:+ Fmt.NL;
    Fmt.ESC +:+ "[2;30;47m";
    "CPU COUNT      |      cur       min       avg       max |      cur       min       avg       max";
    Fmt.ESC +:+ "[0;0;0m";
    Fmt.NL
  ].

(** The four columns of one context in [timerlat_top_print]; [last] is
    what closes the group.  An [int] operand of a division by an
    [unsigned long long] is converted first. *)
Definition print_group (count cur mn sm mx divisor : Z) (last : string)
  : string :=
  if count =? 0 then
    Fmt.concat ["        - "; "        - "; "        - "; "        -" +:+ last]
  else
    Fmt.concat [
      Fmt.llu9 (cur / wrap_u64 divisor) +:+ " ";
      Fmt.llu9 (mn / wrap_u64 divisor) +:+ " ";
      Fmt.llu9 ((sm / wrap_u64 count) / wrap_u64 divisor) +:+ " ";
      Fmt.llu9 (mx / wrap_u64 divisor) +:+ last
    ].

(** [timerlat_top_print]: the text appended to the sequence buffer for
    one CPU; [None] when the entry read lies outside the table.  The
    test of the divisor comes before any read of the entry. *)
Definition timerlat_top_print (params : timerlat_top_params)
    (data : timerlat_top_data) (cpu : Z) : option string :=
  let divisor := output_divisor params in
  if divisor =? 0 then Some EmptyString
  else
    match cpu_entry data cpu with
    | None => None
    | Some c =>
        if (irq_count c =? 0) && (thread_count c =? 0) then Some EmptyString
        else
          Some (Fmt.concat [
            Fmt.d3 cpu +:+ " #" +:+ Fmt.d9_left (irq_count c) +:+ " |";
            print_group (irq_count c) (cur_irq c) (min_irq c) (sum_irq c)
                        (max_irq c) divisor " |";
            print_group (thread_count c) (cur_thread c) (min_thread c)
                        (sum_thread c) (max_thread c) divisor Fmt.NL
          ])
    end.

(** [clear_terminal] *)
Definition clear_terminal (config_debug : bool) : string :=
  if negb config_debug then Fmt.ESC +:+ "c" else EmptyString.

(** Is CPU [i] left out by [params->cpus && !params->monitored_cpus[i]]?
    [None] when the byte read lies outside [monitored_cpus]. *)
Definition cpu_filtered (params : timerlat_top_params) (i : Z) : option bool :=
  match cpus params with
  | None => Some false
  | Some _ =>
      if i <? 0 then None
      else
        match monitored_cpus params !! Z.to_nat i with
        | None => None
        | Some b => Some (b =? 0)
        end
  end.

(** [for (i = from; i < nr_cpus; i++)] of [timerlat_print_stats], with
    [todo] iterations left. *)
Fixpoint print_cpus (params : timerlat_top_params) (data : timerlat_top_data)
    (from : Z) (todo : nat) : option string :=
  match todo with
  | O => Some EmptyString
  | S todo' =>
      match cpu_filtered params from with
      | None => None
      | Some true => print_cpus params data (from + 1) todo'
      | Some false =>
          match timerlat_top_print params data from with
          | None => None
          | Some row =>
              match print_cpus params data (from + 1) todo' with
              | None => None
              | Some rest => Some (row +:+ rest)
              end
          end
      end
  end.

(** [timerlat_print_stats]: the text that [trace_seq_do_printf] writes
    before [trace_seq_reset] empties the buffer again.  [n] is the
    cached [sysconf(_SC_NPROCESSORS_CONF)]. *)
Definition timerlat_print_stats (n : Z) (config_debug : bool)
    (duration_text : string) (params : timerlat_top_params)
    (data : timerlat_top_data) : option string :=
  let clear := if quiet params =? 0 then clear_terminal config_debug
               else EmptyString in
  match print_cpus params data 0 (Z.to_nat n) with
  | None => None
  | Some rows =>
      Some (clear +:+ timerlat_top_header params duration_text +:+ rows)
  end.

(** ** Monitor loop *)

(** Results of code that may loop or touch memory outside the table. *)
Inductive res (A : Type) : Type :=
| Ret (a : A)
| OutOfFuel
| Fault.
Arguments Ret {A} a.
Arguments OutOfFuel {A}.
Arguments Fault {A}.

#[global] Instance res_ret : MRet res := fun A a => Ret a.
#[global] Instance res_bind : MBind res := fun A B f m =>
  match m with
  | Ret a => f a
  | OutOfFuel => OutOfFuel
  | Fault => Fault
  end.

Definition of_option {A : Type} (o : option A) : res A :=
  match o with
  | Some a => Ret a
  | None => Fault
  end.

(** The tool a pointer of [timerlat_top_main] refers to; [record] is
    not initialised before [osnoise_init_trace_tool] has run, and
    [NULL] when that call failed. *)
Inductive tool_ptr : Type := TopTool | RecordTool | NullTool | Uninitialised.

(** What the program does to its surroundings, in program order. *)
Inductive event : Type :=
| err_msg (msg : string)
| printf (text : string)
| trace_instance_start (t : tool_ptr)
| signal (name : string)
| alarm (seconds : Z)
| sleep (seconds : Z)
| print_stats (text : string)
| save_trace_to_file (file : string)
| timerlat_free_top
| osnoise_destroy_tool (t : tool_ptr)
| free_params.

(** What the surroundings answer.  The functions of a [nat] are asked
    once per iteration of the monitor loop, with the number of the
    iteration, counted from 0. *)
Record world : Type := mk_world {
  nprocessors_conf : Z;
  config_debug : bool;
  init_tool_ok : bool;
  calloc_data_ok : bool;
  calloc_table_ok : bool;
  set_cpus_rc : Z;
  set_stop_us_rc : Z;
  set_stop_total_us_rc : Z;
  set_timerlat_period_us_rc : Z;
  set_print_stack_rc : Z;
  enable_timerlat_rc : Z;
  set_comm_sched_attr_rc : Z;
  init_trace_tool_ok : bool;
  (** the value of [stop_tracing] read by the loop condition *)
  stop_tracing_at : nat -> bool;
  (** the records [tracefs_iterate_raw_events] hands to the handler,
      and its return value *)
  iterate_raw_events : nat -> list tep_record * Z;
  (** [get_duration] and [tracefs_trace_is_on] inside the loop *)
  duration_in_loop : nat -> string;
  trace_is_on_in_loop : nat -> bool;
  (** [get_duration] and [tracefs_trace_is_on] after the loop *)
  duration_after_loop : string;
  trace_is_on_after_loop : bool
}.

(** How control left the [while] loop. *)
Inductive loop_exit : Type :=
| StopRequested    (** the loop condition read [stop_tracing] set *)
| TracerInactive   (** [break]: the tracer reported tracing off *)
| IngestError.     (** [goto out_top]: the iteration of events failed *)

Record loop_result : Type := mk_loop {
  lr_events : list event;
  lr_exit : loop_exit;
  lr_data : timerlat_top_data
}.

Definition prepend (evs : list event) (r : loop_result) : loop_result :=
  mk_loop (evs ++ lr_events r) (lr_exit r) (lr_data r).

(** The label [cleanup] of [timerlat_alloc_top]: when the first
    [calloc] succeeded and the second did not, the block allocated
    first is released by [timerlat_free_top] before [NULL] is
    returned. *)
Definition alloc_cleanup (calloc_data calloc_table : bool) : list event :=
  if calloc_data && negb calloc_table then [timerlat_free_top] else [].

(** [timerlat_init_top]: the events of the failure path and the
    statistics of the tool, [None] for a [NULL] tool. *)
Definition timerlat_init_top (w : world)
  : list event * option timerlat_top_data :=
  let n := nprocessors_conf w in
  if negb (init_tool_ok w) then ([], None)
  else
    match timerlat_alloc_top (calloc_data_ok w) (calloc_table_ok w) n with
    | None =>
        (alloc_cleanup (calloc_data_ok w) (calloc_table_ok w)
         ++ [osnoise_destroy_tool TopTool], None)
    | Some data => ([], Some data)
    end.

(** [timerlat_top_apply_config]: the parameters, with the default
    sleep time filled in, the messages and the return value. *)
Definition timerlat_top_apply_config (w : world) (params : timerlat_top_params)
  : timerlat_top_params * list event * Z :=
  let params :=
    if sleep_time params =? 0 then
      mk_params (cpus params) (monitored_cpus params) (trace_output params)
                (stop_us params) (stop_total_us params)
                (timerlat_period_us params) (print_stack params)
                1 (output_divisor params) (duration params) (quiet params)
                (set_sched params)
    else params in
  if bool_decide (cpus params <> None) && negb (set_cpus_rc w =? 0) then
    (params, [err_msg ("Failed to apply CPUs config" +:+ Fmt.NL)], -1)
  else if negb (stop_us params =? 0) && negb (set_stop_us_rc w =? 0) then
    (params, [err_msg ("Failed to set stop us" +:+ Fmt.NL)], -1)
  else if negb (stop_total_us params =? 0)
          && negb (set_stop_total_us_rc w =? 0) then
    (params, [err_msg ("Failed to set stop total us" +:+ Fmt.NL)], -1)
  else if negb (timerlat_period_us params =? 0)
          && negb (set_timerlat_period_us_rc w =? 0) then
    (params, [err_msg ("Failed to set timerlat period" +:+ Fmt.NL)], -1)
  else if negb (print_stack params =? 0)
          && negb (set_print_stack_rc w =? 0) then
    (params, [err_msg ("Failed to set print stack" +:+ Fmt.NL)], -1)
  else (params, [], 0).

(** [timerlat_top_set_signals] *)
Definition timerlat_top_set_signals (params : timerlat_top_params)
  : list event :=
  signal "SIGINT" ::
  (if duration params =? 0 then []
   else [signal "SIGALRM"; alarm (duration params)]).

(** The [while (!stop_tracing)] loop of [timerlat_top_main], from its
    iteration number [k] on. *)
Fixpoint monitor_loop (fuel : nat) (w : world) (params : timerlat_top_params)
    (k : nat) (data : timerlat_top_data) : res loop_result :=
  match fuel with
  | O => OutOfFuel
  | S fuel' =>
      if stop_tracing_at w k then Ret (mk_loop [] StopRequested data)
      else
        let '(records, retval) := iterate_raw_events w k in
        data' ← of_option (handle_events data records);
        if retval <? 0 then
          Ret (mk_loop [sleep (sleep_time params);
                        err_msg ("Error iterating on events" +:+ Fmt.NL)]
                       IngestError data')
        else
          shown ← (if quiet params =? 0 then
                     text ← of_option
                       (timerlat_print_stats (nprocessors_conf w)
                          (config_debug w) (duration_in_loop w k) params data');
                     Ret [print_stats text]
                   else Ret []);
          if negb (trace_is_on_in_loop w k) then
            Ret (mk_loop (sleep (sleep_time params) :: shown)
                         TracerInactive data')
          else
            r ← monitor_loop fuel' w params (S k) data';
            Ret (prepend (sleep (sleep_time params) :: shown) r)
  end.

(** The statements between the loop and the label [out_top]. *)
Definition after_loop (w : world) (params : timerlat_top_params)
    (data : timerlat_top_data) : res (list event) :=
  text ← of_option
    (timerlat_print_stats (nprocessors_conf w) (config_debug w)
       (duration_after_loop w) params data);
  Ret (print_stats text ::
       (if negb (trace_is_on_after_loop w) then
          printf ("rtla timelat hit stop tracing" +:+ Fmt.NL) ::
          match trace_output params with
          | Some file =>
              [printf ("  Saving trace to " +:+ file +:+ Fmt.NL);
               save_trace_to_file file]
          | None => []
          end
        else [])).

(** The statements from the label [out_top] to the label [out_exit]. *)
Definition out_top (params : timerlat_top_params) (record : tool_ptr)
  : list event :=
  [timerlat_free_top; osnoise_destroy_tool TopTool]
  ++ (match trace_output params with
      | Some _ => [osnoise_destroy_tool record]
      | None => []
      end)
  ++ [free_params].

(** One execution of [timerlat_top_main], by the states of the monitor:
    what happened before the loop, inside it, between the loop and
    [out_top], and from [out_top] on, with the argument of [exit]. *)
Record run : Type := mk_run {
  init_events : list event;
  running_events : list event;
  left_loop : option loop_exit;
  draining_events : list event;
  stopped_events : list event;
  exit_status : Z
}.

Definition trace_of (r : run) : list event :=
  init_events r ++ running_events r ++ draining_events r ++ stopped_events r.

(** [timerlat_top_main], from the call of [timerlat_init_top] on: the
    parameters are those [timerlat_top_parse_args] returned. *)
Definition timerlat_top_main (fuel : nat) (w : world)
    (params0 : timerlat_top_params) : res run :=
  match timerlat_init_top w with
  | (evs, None) =>
      Ret (mk_run (evs ++ [err_msg ("Could not init osnoise top" +:+ Fmt.NL)])
                  [] None [] [] 1)
  | (evs, Some data) =>
      let '(params, msgs, retval) := timerlat_top_apply_config w params0 in
      if negb (retval =? 0) then
        Ret (mk_run (evs ++ msgs ++ [err_msg ("Could not apply config" +:+ Fmt.NL)])
                    [] None [] (out_top params Uninitialised) 1)
      else if negb (enable_timerlat_rc w =? 0) then
        Ret (mk_run (evs ++ msgs ++ [err_msg ("Failed to enable timerlat tracer" +:+ Fmt.NL)])
                    [] None [] (out_top params Uninitialised) 1)
      else if negb (set_sched params =? 0)
              && negb (set_comm_sched_attr_rc w =? 0) then
        Ret (mk_run (evs ++ msgs ++ [err_msg ("Failed to set sched parameters" +:+ Fmt.NL)])
                    [] None [] (out_top params Uninitialised) 1)
      else if bool_decide (trace_output params <> None)
              && negb (init_trace_tool_ok w) then
        Ret (mk_run (evs ++ msgs ++ [trace_instance_start TopTool;
                       err_msg ("Failed to enable the trace instance" +:+ Fmt.NL)])
                    [] None [] (out_top params NullTool) 1)
      else
        let started :=
          trace_instance_start TopTool ::
          match trace_output params with
          | Some _ => [trace_instance_start RecordTool]
          | None => []
          end in
        let init := evs ++ msgs ++ started ++ timerlat_top_set_signals params in
        r ← monitor_loop fuel w params 0 data;
        match lr_exit r with
        | IngestError =>
            Ret (mk_run init (lr_events r) (Some IngestError) []
                        (out_top params RecordTool) 1)
        | how =>
            drained ← after_loop w params (lr_data r);
            Ret (mk_run init (lr_events r) (Some how) drained
                        (out_top params RecordTool) 0)
        end
  end.

(** The calls of [timerlat_print_stats] among some events. *)
Fixpoint renders (evs : list event) : nat :=
  match evs with
  | [] => O
  | print_stats _ :: evs' => S (renders evs')
  | _ :: evs' => renders evs'
  end.

(** The calls of the external recorder among some events. *)
Fixpoint recorder_calls (evs : list event) : nat :=
  match evs with
  | [] => O
  | save_trace_to_file _ :: evs' => S (recorder_calls evs')
  | _ :: evs' => recorder_calls evs'
  end.

(** ** Closed forms of the aggregates *)

(** A counter after [n] increments. *)
Fixpoint count_after (n : nat) (count : Z) : Z :=
  match n with
  | O => count
  | S n' => count_after n' (wrap_int (count + 1))
  end.

(** The last of some latencies, [cur] when there is none. *)
Fixpoint last_or (cur : Z) (ls : list Z) : Z :=
  match ls with
  | [] => cur
  | l :: ls' => last_or l ls'
  end.

(** The sum of some latencies, as a mathematical integer. *)
Fixpoint total (ls : list Z) : Z :=
  match ls with
  | [] => 0
  | l :: ls' => l + total ls'
  end.

(** The entry of a CPU right after [timerlat_alloc_top]. *)
Definition fresh_cpu : timerlat_top_cpu := set_min_to_max zeroed_cpu.

(** The aggregates that do not depend on the order of arrival. *)
Definition same_aggregates (k : context) (a b : timerlat_top_cpu) : Prop :=
  count_of k a = count_of k b /\ min_of k a = min_of k b
  /\ max_of k a = max_of k b /\ sum_of k a = sum_of k b.

(** ** Well-formed surroundings *)

(** Every record the tracer delivers names one of the configured
    CPUs. *)
Definition records_in_table (w : world) : Prop :=
  forall k, Forall (fun r => 0 <= rec_cpu r < nprocessors_conf w)
                   (fst (iterate_raw_events w k)).

(** [parse_cpu_list] filled one byte per configured CPU. *)
Definition cpu_list_fits (w : world) (params : timerlat_top_params) : Prop :=
  cpus params = None
  \/ nprocessors_conf w <= Z.of_nat (length (monitored_cpus params)).

(** Turn number [i] of the loop runs to its end and the loop goes on:
    the stop flag is clear, the poll reports no error and the tracer is
    still on. *)
Definition turn_continues (w : world) (i : nat) : Prop :=
  stop_tracing_at w i = false
  /\ 0 <= snd (iterate_raw_events w i)
  /\ trace_is_on_in_loop w i = true.

(** Every step of [timerlat_top_main] before the loop succeeds. *)
Definition reaches_loop (w : world) (params : timerlat_top_params) : Prop :=
  init_tool_ok w = true /\ calloc_data_ok w = true /\ calloc_table_ok w = true
  /\ snd (timerlat_top_apply_config w params) = 0
  /\ enable_timerlat_rc w = 0
  /\ (set_sched params = 0 \/ set_comm_sched_attr_rc w = 0)
  /\ (trace_output params = None \/ init_trace_tool_ok w = true).

(** ** Example inputs *)

(** The samples of the specification's example: two interrupt samples
    and one thread sample on CPU 0. *)
Definition ex_samples : list tep_record :=
  [mk_record 0 0 100; mk_record 0 0 50; mk_record 0 1 200].

(** The entry of CPU 0 after [ex_samples]. *)
Definition ex_cpu0 : timerlat_top_cpu :=
  mk_cpu 2 1 50 50 150 100 200 200 200 200.

(** The entry of CPU 0 after the first two of [ex_samples]. *)
Definition ex_cpu0_irq_only : timerlat_top_cpu :=
  mk_cpu 2 0 50 50 150 100 0 all_ones 0 0.

(** Two interrupt samples of [2^63] ns each on CPU 0. *)
Definition ex_wrapping_samples : list tep_record :=
  [mk_record 0 0 (2 ^ 63); mk_record 0 0 (2 ^ 63)].

(** A thread sample on CPU 0, and the table of two CPUs after it. *)
Definition ex_thread_first : list tep_record := [mk_record 0 1 200].
Definition ex_cpu0_thread_only : timerlat_top_cpu :=
  mk_cpu 0 1 0 all_ones 0 0 200 200 200 200.
Definition ex_table_thread_only : timerlat_top_data :=
  mk_data [ex_cpu0_thread_only; fresh_cpu] 2.

(** A freshly allocated table of two CPUs. *)
Definition ex_fresh_table : timerlat_top_data := mk_data [fresh_cpu; fresh_cpu] 2.

(** The parameters [timerlat_top_parse_args] returns without options,
    with [-q], with [-t], and parameters whose divisor is 0. *)
Definition ex_params : timerlat_top_params :=
  mk_params None [] None 0 0 0 0 0 1000 0 0 0.
Definition ex_quiet_params : timerlat_top_params :=
  mk_params None [] None 0 0 0 0 0 1000 0 1 0.
Definition ex_trace_params : timerlat_top_params :=
  mk_params None [] (Some "timerlat_trace.txt") 0 0 0 0 0 1000 0 0 0.
Definition ex_zero_divisor_params : timerlat_top_params :=
  mk_params None [] None 0 0 0 0 0 0 0 1 0.

(** Two CPUs; the first poll delivers [ex_samples]; the stop flag is
    found set by the second test of the loop condition; the tracer is
    on when asked inside the loop and [still_on] when asked after it. *)
Definition ex_world (still_on : bool) : world :=
  mk_world 2 false true true true 0 0 0 0 0 0 0 true
    (fun k => (1 <=? k)%nat)
    (fun k => match k with O => (ex_samples, 0) | _ => ([], 0) end)
    (fun _ => "0 00:00:01")
    (fun _ => true)
    "0 00:00:02"
    still_on.

(** The stop flag is set before any sample arrives. *)
Definition ex_idle_world : world :=
  mk_world 2 false true true true 0 0 0 0 0 0 0 true
    (fun _ => true)
    (fun _ => ([], 0))
    (fun _ => "0 00:00:01")
    (fun _ => true)
    "0 00:00:01"
    true.

(** As [ex_world], but the second poll fails and the stop flag is never
    set. *)
Definition ex_failing_world : world :=
  mk_world 2 false true true true 0 0 0 0 0 0 0 true
    (fun _ => false)
    (fun k => match k with O => (ex_samples, 0) | _ => ([], -1) end)
    (fun _ => "0 00:00:01")
    (fun _ => true)
    "0 00:00:02"
    true.

(** ** Command line *)

(** What [getopt_long] returns for the option string
    ["c:d:Dhi:np:P:qs:t::T:"] and the table of long options: the option
    with its argument, which is there for the options marked [:],
    may be missing for [t::], and is the text after the [=] sign
    included for the short form [-t=file].  [opt_unknown] is the
    character [?]; [opt_other] is any value without a [case] of its
    own. *)
Inductive getopt_result : Type :=
| opt_cpus (optarg : string)
| opt_debug
| opt_duration (optarg : string)
| opt_help
| opt_unknown
| opt_irq (optarg : string)
| opt_nano
| opt_period (optarg : string)
| opt_priority (optarg : string)
| opt_quiet
| opt_stack (optarg : string)
| opt_thread (optarg : string)
| opt_trace (optarg : option string)
| opt_other (c : Z).

(** The helpers of rtla's [utils.c] that read option arguments,
    [geteuid], and the text that lies in memory right after the
    terminator of an empty option argument, which is where
    [&optarg[1]] then points. *)
Record arg_readers : Type := mk_readers {
  (** the return value and the bytes stored in [monitored_cpus] *)
  parse_cpu_list : string -> Z * list Z;
  parse_seconds_duration : string -> Z;
  get_llong_from_str : string -> Z;
  parse_prio : string -> Z;
  geteuid : Z;
  after_terminator : string
}.

(** How [timerlat_top_parse_args] ends: it returns the parameters, or
    the process exits because [calloc] failed, or inside
    [timerlat_top_usage] with the message given, or for lack of root
    permission. *)
Inductive parse_result : Type :=
| parsed (params : timerlat_top_params) (debug : bool)
| calloc_exit (status : Z)
| usage_exit (usage : option string) (status : Z)
| root_exit (msg : string) (status : Z).

(** The text at [&optarg[1]]: the argument without its first
    character, "skip =", or what follows the terminator when the
    argument is empty. *)
Definition skip_first (x : arg_readers) (optarg : string) : string :=
  match optarg with
  | String _ file => file
  | EmptyString => after_terminator x
  end.

(** The parameters right after [calloc] and the default divisor:
    "display data in microseconds". *)
Definition initial_params : timerlat_top_params :=
  mk_params None [] None 0 0 0 0 0 1000 0 0 0.

(** One pass through the [switch] of [timerlat_top_parse_args]: the
    parameters and [config_debug] after it, or the way the process
    exits. *)
Definition parse_option (x : arg_readers) (params : timerlat_top_params)
    (debug : bool) (c : getopt_result)
  : timerlat_top_params * bool + parse_result :=
  let keep p := inl (p, debug) in
  match c with
  | opt_cpus optarg =>
      let '(retval, bytes) := parse_cpu_list x optarg in
      if negb (retval =? 0) then
        inr (usage_exit (Some (Fmt.NL +:+ "Invalid -c cpu list" +:+ Fmt.NL)) 1)
      else
        keep (mk_params (Some optarg) bytes (trace_output params)
                (stop_us params) (stop_total_us params)
                (timerlat_period_us params) (print_stack params)
                (sleep_time params) (output_divisor params) (duration params)
                (quiet params) (set_sched params))
  | opt_debug => inl (params, true)
  | opt_duration optarg =>
      let d := wrap_int (parse_seconds_duration x optarg) in
      if d =? 0 then
        inr (usage_exit (Some ("Invalid -D duration" +:+ Fmt.NL)) 1)
      else
        keep (mk_params (cpus params) (monitored_cpus params)
                (trace_output params) (stop_us params) (stop_total_us params)
                (timerlat_period_us params) (print_stack params)
                (sleep_time params) (output_divisor params) d
                (quiet params) (set_sched params))
  | opt_help | opt_unknown => inr (usage_exit None 1)
  | opt_irq optarg =>
      keep (mk_params (cpus params) (monitored_cpus params)
              (trace_output params) (get_llong_from_str x optarg)
              (stop_total_us params) (timerlat_period_us params)
              (print_stack params) (sleep_time params) (output_divisor params)
              (duration params) (quiet params) (set_sched params))
  | opt_nano =>
      keep (mk_params (cpus params) (monitored_cpus params)
              (trace_output params) (stop_us params) (stop_total_us params)
              (timerlat_period_us params) (print_stack params)
              (sleep_time params) 1 (duration params) (quiet params)
              (set_sched params))
  | opt_period optarg =>
      let period := get_llong_from_str x optarg in
      if 1000000 <? period then
        inr (usage_exit (Some ("Period longer than 1 s" +:+ Fmt.NL)) 1)
      else
        keep (mk_params (cpus params) (monitored_cpus params)
                (trace_output params) (stop_us params) (stop_total_us params)
                period (print_stack params) (sleep_time params)
                (output_divisor params) (duration params) (quiet params)
                (set_sched params))
  | opt_priority optarg =>
      if parse_prio x optarg =? -1 then
        inr (usage_exit (Some "Invalid -P priority") 1)
      else
        keep (mk_params (cpus params) (monitored_cpus params)
                (trace_output params) (stop_us params) (stop_total_us params)
                (timerlat_period_us params) (print_stack params)
                (sleep_time params) (output_divisor params) (duration params)
                (quiet params) 1)
  | opt_quiet =>
      keep (mk_params (cpus params) (monitored_cpus params)
              (trace_output params) (stop_us params) (stop_total_us params)
              (timerlat_period_us params) (print_stack params)
              (sleep_time params) (output_divisor params) (duration params)
              1 (set_sched params))
  | opt_stack optarg =>
      keep (mk_params (cpus params) (monitored_cpus params)
              (trace_output params) (stop_us params) (stop_total_us params)
              (timerlat_period_us params) (get_llong_from_str x optarg)
              (sleep_time params) (output_divisor params) (duration params)
              (quiet params) (set_sched params))
  | opt_thread optarg =>
      keep (mk_params (cpus params) (monitored_cpus params)
              (trace_output params) (stop_us params)
              (get_llong_from_str x optarg) (timerlat_period_us params)
              (print_stack params) (sleep_time params) (output_divisor params)
              (duration params) (quiet params) (set_sched params))
  | opt_trace optarg =>
      match optarg with
      | Some optarg =>
          keep (mk_params (cpus params) (monitored_cpus params)
                  (Some (skip_first x optarg))
                  (stop_us params) (stop_total_us params)
                  (timerlat_period_us params) (print_stack params)
                  (sleep_time params) (output_divisor params)
                  (duration params) (quiet params) (set_sched params))
      | None =>
          keep (mk_params (cpus params) (monitored_cpus params)
                  (Some "timerlat_trace.txt")
                  (stop_us params) (stop_total_us params)
                  (timerlat_period_us params) (print_stack params)
                  (sleep_time params) (output_divisor params)
                  (duration params) (quiet params) (set_sched params))
      end
  | opt_other _ => inr (usage_exit (Some "Invalid option") 1)
  end.

(** The [while (1)] loop over the values [getopt_long] returns, the
    last of them, [-1], being the end of the list. *)
Fixpoint parse_options (x : arg_readers) (params : timerlat_top_params)
    (debug : bool) (cs : list getopt_result)
  : timerlat_top_params * bool + parse_result :=
  match cs with
  | [] => inl (params, debug)
  | c :: cs' =>
      match parse_option x params debug c with
      | inl (params', debug') => parse_options x params' debug' cs'
      | inr exit => inr exit
      end
  end.

(** [timerlat_top_parse_args]; [calloc_ok] says whether the parameters
    could be allocated, [debug] is [config_debug] on entry. *)
Definition timerlat_top_parse_args (calloc_ok : bool) (x : arg_readers)
    (debug : bool) (cs : list getopt_result) : parse_result :=
  if negb calloc_ok then calloc_exit 1
  else
    match parse_options x initial_params debug cs with
    | inr exit => exit
    | inl (params, debug') =>
        if negb (geteuid x =? 0) then
          root_exit ("rtla needs root permission" +:+ Fmt.NL) 1
        else parsed params debug'
    end.

(** Is the option [-d]? *)
Definition is_duration (c : getopt_result) : bool :=
  match c with opt_duration _ => true | _ => false end.

(** Is the option [-n]? *)
Definition is_nano (c : getopt_result) : bool :=
  match c with opt_nano => true | _ => false end.

(** ** Counting events *)

Fixpoint count_events (f : event -> bool) (evs : list event) : nat :=
  match evs with
  | [] => O
  | e :: evs' => if f e then S (count_events f evs') else count_events f evs'
  end.

Definition is_sleep (e : event) : bool :=
  match e with sleep _ => true | _ => false end.
Definition is_free_top (e : event) : bool :=
  match e with timerlat_free_top => true | _ => false end.
Definition is_free_params (e : event) : bool :=
  match e with free_params => true | _ => false end.
Definition is_destroy_top (e : event) : bool :=
  match e with osnoise_destroy_tool TopTool => true | _ => false end.
Definition is_destroy_record (e : event) : bool :=
  match e with osnoise_destroy_tool RecordTool => true | _ => false end.
Definition is_start_record (e : event) : bool :=
  match e with trace_instance_start RecordTool => true | _ => false end.
Definition is_destroy_unassigned (e : event) : bool :=
  match e with osnoise_destroy_tool Uninitialised => true | _ => false end.

(** The events of the loop and of the statements after it: messages,
    sleeps, renders and the recorder. *)
Definition is_io (e : event) : bool :=
  match e with
  | err_msg _ | printf _ | sleep _ | print_stats _ | save_trace_to_file _ => true
  | _ => false
  end.

(** The records of the polls number [k] to [k + m - 1], in arrival
    order. *)
Fixpoint polled (w : world) (k m : nat) : list tep_record :=
  match m with
  | O => []
  | S m' => fst (iterate_raw_events w k) ++ polled w (S k) m'
  end.

(** The parameters with another quiet flag. *)
Definition with_quiet (q : Z) (params : timerlat_top_params)
  : timerlat_top_params :=
  mk_params (cpus params) (monitored_cpus params) (trace_output params)
            (stop_us params) (stop_total_us params)
            (timerlat_period_us params) (print_stack params)
            (sleep_time params) (output_divisor params) (duration params)
            q (set_sched params).

(** ** More example inputs *)

(** Readers that accept every argument, for a process run by root. *)
Definition ex_readers : arg_readers :=
  mk_readers (fun _ => (0, [1; 1])) (fun _ => 5) (fun _ => 100) (fun _ => 0) 0
             "HOME=/root".

(** The options of [rtla timerlat top -n -q -d 5 -t]. *)
Definition ex_options : list getopt_result :=
  [opt_nano; opt_quiet; opt_duration "5"; opt_trace None].

(** The parameters parsed from [ex_options]. *)
Definition ex_parsed_params : timerlat_top_params :=
  mk_params None [] (Some "timerlat_trace.txt") 0 0 0 0 0 1 5 1 0.

(** As [ex_world], but the timerlat tracer cannot be enabled. *)
Definition ex_enable_failing_world : world :=
  mk_world 2 false true true true 0 0 0 0 0 (-1) 0 true
    (fun k => (1 <=? k)%nat)
    (fun k => match k with O => (ex_samples, 0) | _ => ([], 0) end)
    (fun _ => "0 00:00:01")
    (fun _ => true)
    "0 00:00:02"
    true.

(** As [ex_world], but the table of [timerlat_alloc_top] cannot be
    allocated. *)
Definition ex_alloc_failing_world : world :=
  mk_world 2 false true true false 0 0 0 0 0 0 0 true
    (fun k => (1 <=? k)%nat)
    (fun k => match k with O => (ex_samples, 0) | _ => ([], 0) end)
    (fun _ => "0 00:00:01")
    (fun _ => true)
    "0 00:00:02"
    true.

(** The options of [rtla timerlat top --trace= -q]: the argument of the
    long option is empty. *)
Definition ex_empty_trace_options : list getopt_result :=
  [opt_trace (Some EmptyString); opt_quiet].

(** The parameters parsed from [ex_empty_trace_options] with
    [ex_readers]. *)
Definition ex_empty_trace_params : timerlat_top_params :=
  mk_params None [] (Some "HOME=/root") 0 0 0 0 0 1000 0 1 0.

(** Parameters that ask for a stop threshold and a CPU list of two
    CPUs of which the second is left out. *)
Definition ex_cpu_list_params : timerlat_top_params :=
  mk_params (Some "0") [1; 0] None 20 0 0 0 0 1000 0 0 0.

(** The table of two CPUs after [ex_samples] and a thread sample on
    CPU 1. *)
Definition ex_table_both : timerlat_top_data :=
  mk_data [ex_cpu0; mk_cpu 0 1 0 all_ones 0 0 7 7 7 7] 2.

(** * Properties *)

(** ** Machine integers *)

Section CIntFacts.

Lemma all_ones_value : all_ones = 2 ^ 64 - 1.
Proof. reflexivity. Qed.

Lemma wrap_u64_small (z : Z) : is_u64 z -> wrap_u64 z = z.
Proof. intros Hz. unfold wrap_u64. apply Z.mod_small. exact Hz. Qed.

Lemma wrap_int_small (z : Z) : - 2 ^ 31 <= z <= INT_MAX -> wrap_int z = z.
Proof.
  intros Hz. unfold wrap_int, INT_MODULUS, INT_MAX in *.
  rewrite Z.mod_small; lia.
Qed.

Lemma update_sum_swap (a x y : Z) :
  update_sum (update_sum a x) y = update_sum (update_sum a y) x.
Proof.
  unfold update_sum, wrap_u64.
  rewrite !Zplus_mod_idemp_l. f_equal. lia.
Qed.

Lemma count_after_small (n : nat) (count : Z) :
  0 <= count -> count + Z.of_nat n <= INT_MAX ->
  count_after n count = count + Z.of_nat n.
Proof.
  revert count. induction n as [|n IH]; intros count H0 Hmax; simpl.
  - lia.
  - rewrite wrap_int_small by (unfold INT_MAX in *; lia).
    rewrite IH by lia. lia.
Qed.

End CIntFacts.

(** ** Folds over latencies *)

Section Folds.

Lemma foldl_min_le_init (ls : list Z) (m : Z) : foldl update_min m ls <= m.
Proof.
  revert m. induction ls as [|l ls IH]; intros m; simpl; [lia|].
  specialize (IH (update_min m l)). unfold update_min in *. lia.
Qed.

Lemma foldl_min_le (ls : list Z) (m L : Z) :
  L ∈ ls -> foldl update_min m ls <= L.
Proof.
  revert m. induction ls as [|l ls IH]; intros m HL.
  - inversion HL.
  - apply elem_of_cons in HL as [->|HL]; simpl.
    + pose proof (foldl_min_le_init ls (update_min m l)).
      unfold update_min in *. lia.
    + apply IH. exact HL.
Qed.

Lemma foldl_max_ge_init (ls : list Z) (m : Z) : m <= foldl update_max m ls.
Proof.
  revert m. induction ls as [|l ls IH]; intros m; simpl; [lia|].
  specialize (IH (update_max m l)). unfold update_max in *. lia.
Qed.

Lemma foldl_max_ge (ls : list Z) (m L : Z) :
  L ∈ ls -> L <= foldl update_max m ls.
Proof.
  revert m. induction ls as [|l ls IH]; intros m HL.
  - inversion HL.
  - apply elem_of_cons in HL as [->|HL]; simpl.
    + pose proof (foldl_max_ge_init ls (update_max m l)).
      unfold update_max in *. lia.
    + apply IH. exact HL.
Qed.

Lemma total_nonneg (ls : list Z) : Forall (fun l => 0 <= l) ls -> 0 <= total ls.
Proof. induction 1; simpl; lia. Qed.

(** Without wrap-around the accumulator holds the true sum. *)
Lemma foldl_sum_exact (ls : list Z) (s : Z) :
  0 <= s -> Forall (fun l => 0 <= l) ls -> s + total ls < U64_MODULUS ->
  foldl update_sum s ls = s + total ls.
Proof.
  revert s. induction ls as [|l ls IH]; intros s Hs Hall Hlt; simpl in *.
  - lia.
  - inversion Hall; subst.
    pose proof (total_nonneg ls ltac:(assumption)).
    unfold update_sum at 2. rewrite wrap_u64_small by (unfold is_u64; lia).
    rewrite IH; [lia | lia | assumption | lia].
Qed.

(** [len * lo <= total <= len * hi] when every latency lies in
    [lo, hi]. *)
Lemma total_bounds (ls : list Z) (lo hi : Z) :
  Forall (fun l => lo <= l <= hi) ls ->
  Z.of_nat (length ls) * lo <= total ls <= Z.of_nat (length ls) * hi.
Proof.
  induction 1 as [|l ls Hl Hall IH]; simpl length; simpl total; [lia|].
  rewrite Nat2Z.inj_succ. lia.
Qed.

(** A fold with an operation whose steps commute does not depend on
    the order of the list. *)
Lemma foldl_commute_perm {A B : Type} (f : A -> B -> A) :
  (forall a x y, f (f a x) y = f (f a y) x) ->
  forall l l', l ≡ₚ l' -> forall a, foldl f a l = foldl f a l'.
Proof.
  intros Hf l l' Hp.
  induction Hp as [|x l l' Hp IH|x y l|l l' l'' Hp1 IH1 Hp2 IH2];
    intros a; simpl.
  - reflexivity.
  - apply IH.
  - rewrite Hf. reflexivity.
  - rewrite IH1. apply IH2.
Qed.

Lemma update_min_swap (a x y : Z) :
  update_min (update_min a x) y = update_min (update_min a y) x.
Proof. unfold update_min. lia. Qed.

Lemma update_max_swap (a x y : Z) :
  update_max (update_max a x) y = update_max (update_max a y) x.
Proof. unfold update_max. lia. Qed.

Lemma count_after_pos (n : nat) : 0 < count_after n 0 -> (0 < n)%nat.
Proof. destruct n; simpl; lia. Qed.

Lemma last_or_snoc (ls : list Z) (cur l : Z) : last_or cur (ls ++ [l]) = l.
Proof. revert cur. induction ls as [|x ls IH]; intros cur; simpl; auto. Qed.

End Folds.

(** ** The table *)

Section Store.

Lemma alloc_loop_replicate (done todo : nat) :
  alloc_loop (replicate done fresh_cpu ++ replicate todo zeroed_cpu) done todo
  = replicate (done + todo) fresh_cpu.
Proof.
  revert done. induction todo as [|todo IH]; intros done; simpl.
  - rewrite app_nil_r. f_equal. lia.
  - rewrite lookup_app_r by (rewrite length_replicate; lia).
    rewrite length_replicate, Nat.sub_diag. simpl.
    rewrite insert_app_r_alt by (rewrite length_replicate; lia).
    rewrite length_replicate, Nat.sub_diag. simpl.
    replace (replicate done fresh_cpu ++ set_min_to_max zeroed_cpu
               :: replicate todo zeroed_cpu)
      with (replicate (S done) fresh_cpu ++ replicate todo zeroed_cpu).
    + rewrite IH. f_equal. lia.
    + rewrite replicate_S_end, <- app_assoc. reflexivity.
Qed.

(** After allocation every entry is [fresh_cpu] and the table has
    [n] entries. *)
Lemma timerlat_alloc_top_table (n : Z) (data : timerlat_top_data) :
  timerlat_alloc_top true true n = Some data ->
  cpu_data data = replicate (Z.to_nat n) fresh_cpu /\ nr_cpus data = n.
Proof.
  unfold timerlat_alloc_top. simpl. intros [= <-]. simpl. split; [|reflexivity].
  apply (alloc_loop_replicate 0 (Z.to_nat n)).
Qed.

Lemma cpu_entry_bounds (data : timerlat_top_data) (cpu : Z) :
  is_Some (cpu_entry data cpu)
  <-> 0 <= cpu < Z.of_nat (length (cpu_data data)).
Proof.
  unfold cpu_entry. destruct (Z.ltb_spec cpu 0) as [Hneg|Hpos].
  - split; [intros [c Hc]; discriminate | lia].
  - rewrite lookup_lt_is_Some. lia.
Qed.

Lemma cpu_entry_fresh (n : Z) (data : timerlat_top_data) (cpu : Z)
    (c : timerlat_top_cpu) :
  timerlat_alloc_top true true n = Some data ->
  cpu_entry data cpu = Some c -> c = fresh_cpu.
Proof.
  intros Halloc Hc. apply timerlat_alloc_top_table in Halloc as [Htbl _].
  unfold cpu_entry in Hc. destruct (cpu <? 0); [discriminate|].
  rewrite Htbl in Hc. apply lookup_replicate in Hc as [-> _]. reflexivity.
Qed.

(** One update: the entry of its CPU is updated, the others stay. *)
Lemma timerlat_top_update_entry (data data' : timerlat_top_data)
    (cpu thread latency other : Z) :
  timerlat_top_update data cpu thread latency = Some data' ->
  cpu_entry data' other =
    if other =? cpu
    then (fun c => update_cpu c thread latency) <$> cpu_entry data other
    else cpu_entry data other.
Proof.
  unfold timerlat_top_update. destruct (cpu_entry data cpu) as [c|] eqn:Hc;
    [|discriminate].
  intros [= <-]. unfold cpu_entry in *. simpl.
  destruct (Z.ltb_spec cpu 0) as [|Hcpu]; [discriminate|].
  destruct (Z.eqb_spec other cpu) as [->|Hne].
  - destruct (Z.ltb_spec cpu 0); [lia|].
    rewrite Hc. simpl. apply list_lookup_insert_eq.
    apply lookup_lt_Some in Hc. exact Hc.
  - destruct (Z.ltb_spec other 0); [reflexivity|].
    apply list_lookup_insert_ne. lia.
Qed.

Lemma timerlat_top_update_shape (data data' : timerlat_top_data)
    (cpu thread latency : Z) :
  timerlat_top_update data cpu thread latency = Some data' ->
  length (cpu_data data') = length (cpu_data data)
  /\ nr_cpus data' = nr_cpus data.
Proof.
  unfold timerlat_top_update. destruct (cpu_entry data cpu); [|discriminate].
  intros [= <-]. simpl. rewrite length_insert. auto.
Qed.

(** The table is never resized by the sample path. *)
Lemma handle_events_shape (rs : list tep_record)
    (data data' : timerlat_top_data) :
  handle_events data rs = Some data' ->
  length (cpu_data data') = length (cpu_data data)
  /\ nr_cpus data' = nr_cpus data.
Proof.
  revert data. induction rs as [|r rs IH]; intros data; simpl.
  - intros [= <-]. auto.
  - unfold timerlat_top_handler.
    destruct (timerlat_top_update data _ _ _) as [d1|] eqn:Hup; [|discriminate].
    intros H. apply IH in H as [Hl Hn].
    apply timerlat_top_update_shape in Hup as [Hl1 Hn1]. split; congruence.
Qed.

(** The events of a poll are all handled exactly when each of them
    names a CPU of the table. *)
Lemma handle_events_defined (rs : list tep_record) (data : timerlat_top_data) :
  is_Some (handle_events data rs)
  <-> Forall (fun r => 0 <= rec_cpu r < Z.of_nat (length (cpu_data data))) rs.
Proof.
  revert data. induction rs as [|r rs IH]; intros data; simpl.
  - split; [constructor | eauto].
  - unfold timerlat_top_handler.
    destruct (timerlat_top_update data _ _ _) as [d1|] eqn:Hup.
    + rewrite IH. destruct (timerlat_top_update_shape _ _ _ _ _ Hup) as [-> _].
      split.
      * intros Hall. constructor; [|exact Hall].
        apply cpu_entry_bounds. unfold timerlat_top_update in Hup.
        destruct (cpu_entry data (rec_cpu r)); [eauto | discriminate].
      * intros Hall. inversion Hall; assumption.
    + split; [intros [? ?]; discriminate|].
      intros Hall. inversion Hall as [|? ? Hr _]; subst.
      apply cpu_entry_bounds in Hr as [c Hc].
      unfold timerlat_top_update in Hup. rewrite Hc in Hup. discriminate.
Qed.

Lemma update_cpu_of (c : timerlat_top_cpu) (thread latency : Z) (k : context) :
  let c' := update_cpu c thread latency in
  if context_eqb (context_of thread) k then
    count_of k c' = wrap_int (count_of k c + 1)
    /\ cur_of k c' = latency
    /\ min_of k c' = update_min (min_of k c) latency
    /\ sum_of k c' = update_sum (sum_of k c) latency
    /\ max_of k c' = update_max (max_of k c) latency
  else
    count_of k c' = count_of k c /\ cur_of k c' = cur_of k c
    /\ min_of k c' = min_of k c /\ sum_of k c' = sum_of k c
    /\ max_of k c' = max_of k c.
Proof.
  unfold update_cpu, context_of.
  destruct (thread =? 0), k; simpl; auto.
Qed.

(** The aggregates of one CPU and one context after a sequence of
    events, from the latencies of that CPU and context alone. *)
Lemma handle_events_aggregates (rs : list tep_record)
    (data data' : timerlat_top_data) (cpu : Z) (c : timerlat_top_cpu) :
  handle_events data rs = Some data' ->
  cpu_entry data cpu = Some c ->
  exists c', cpu_entry data' cpu = Some c' /\
    forall k,
      count_of k c' = count_after (length (seen cpu k rs)) (count_of k c)
      /\ cur_of k c' = last_or (cur_of k c) (seen cpu k rs)
      /\ min_of k c' = foldl update_min (min_of k c) (seen cpu k rs)
      /\ sum_of k c' = foldl update_sum (sum_of k c) (seen cpu k rs)
      /\ max_of k c' = foldl update_max (max_of k c) (seen cpu k rs).
Proof.
  revert data c. induction rs as [|r rs IH]; intros data c; simpl.
  - intros [= <-] Hc. exists c. split; [exact Hc|]. intros k. auto.
  - unfold timerlat_top_handler.
    destruct (timerlat_top_update data _ _ _) as [d1|] eqn:Hup; [|discriminate].
    intros Hrun Hc.
    pose proof (timerlat_top_update_entry _ _ _ _ _ cpu Hup) as Hent.
    rewrite Hc in Hent. simpl in Hent.
    unfold matches.
    destruct (Z.eqb_spec cpu (rec_cpu r)) as [Heq|Hne].
    + destruct (IH _ _ Hrun Hent) as (c' & Hc' & Hagg).
      exists c'. split; [exact Hc'|]. intros k.
      specialize (Hagg k).
      pose proof (update_cpu_of c (rec_context r) (rec_timer_latency r) k) as Hk.
      simpl in Hk. rewrite Heq, Z.eqb_refl. simpl.
      rewrite Heq in Hagg.
      destruct (context_eqb (context_of (rec_context r)) k); simpl.
      * destruct Hk as (-> & -> & -> & -> & ->) in Hagg. exact Hagg.
      * destruct Hk as (-> & -> & -> & -> & ->) in Hagg. exact Hagg.
    + destruct (IH _ _ Hrun Hent) as (c' & Hc' & Hagg).
      exists c'. split; [exact Hc'|]. intros k.
      destruct (Z.eqb_spec (rec_cpu r) cpu) as [Heq|_]; [congruence|].
      simpl. apply Hagg.
Qed.

Lemma seen_perm (cpu : Z) (k : context) (rs rs' : list tep_record) :
  rs ≡ₚ rs' -> seen cpu k rs ≡ₚ seen cpu k rs'.
Proof.
  induction 1 as [|r rs rs' Hp IH|r1 r2 rs|rs rs' rs'' Hp1 IH1 Hp2 IH2]; simpl.
  - reflexivity.
  - destruct (matches cpu k r); [constructor|]; exact IH.
  - destruct (matches cpu k r1), (matches cpu k r2);
      try reflexivity. apply perm_swap.
  - etransitivity; eassumption.
Qed.

End Store.

(** ** The aggregator *)

Section Aggregator.

(** The aggregates of a CPU of a freshly allocated table after the
    events [rs]. *)
Lemma aggregates_from_fresh (n : Z) (d0 d : timerlat_top_data)
    (rs : list tep_record) (cpu : Z) (c : timerlat_top_cpu) :
  timerlat_alloc_top true true n = Some d0 ->
  handle_events d0 rs = Some d ->
  cpu_entry d cpu = Some c ->
  forall k,
    count_of k c = count_after (length (seen cpu k rs)) 0
    /\ cur_of k c = last_or 0 (seen cpu k rs)
    /\ min_of k c = foldl update_min all_ones (seen cpu k rs)
    /\ sum_of k c = foldl update_sum 0 (seen cpu k rs)
    /\ max_of k c = foldl update_max 0 (seen cpu k rs).
Proof.
  intros Halloc Hrun Hc k.
  assert (is_Some (cpu_entry d0 cpu)) as [c0 Hc0].
  { apply cpu_entry_bounds.
    destruct (handle_events_shape _ _ _ Hrun) as [<- _].
    apply cpu_entry_bounds. eauto. }
  pose proof (cpu_entry_fresh _ _ _ _ Halloc Hc0) as ->.
  destruct (handle_events_aggregates _ _ _ _ _ Hrun Hc0) as (c' & Hc' & Hagg).
  rewrite Hc in Hc'. injection Hc' as <-.
  specialize (Hagg k). destruct k; exact Hagg.
Qed.

(** C1, monotonic extremes: after any number [i] of the events [rs]
    has been applied to a freshly allocated table, the stored minimum
    of a CPU and context is at most every latency seen so far there,
    every such latency is at most the stored maximum, and whenever
    the count of the context is positive, [min <= max]. *)
Theorem monotonic_extremes (n : Z) (d0 d : timerlat_top_data)
    (rs : list tep_record) (i : nat) (cpu : Z) (k : context)
    (c : timerlat_top_cpu) :
  timerlat_alloc_top true true n = Some d0 ->
  handle_events d0 (take i rs) = Some d ->
  cpu_entry d cpu = Some c ->
  (forall L, L ∈ seen cpu k (take i rs) -> min_of k c <= L <= max_of k c)
  /\ (0 < count_of k c -> min_of k c <= max_of k c).
Proof.
  intros Halloc Hrun Hc.
  destruct (aggregates_from_fresh _ _ _ _ _ _ Halloc Hrun Hc k)
    as (Hcount & _ & Hmin & _ & Hmax).
  assert (forall L, L ∈ seen cpu k (take i rs) ->
                    min_of k c <= L <= max_of k c) as Hall.
  { intros L HL. rewrite Hmin, Hmax. split.
    - apply foldl_min_le. exact HL.
    - apply foldl_max_ge. exact HL. }
  split; [exact Hall|].
  intros Hpos. rewrite Hcount in Hpos. apply count_after_pos in Hpos.
  destruct (seen cpu k (take i rs)) as [|L ls] eqn:Hseen; [simpl in Hpos; lia|].
  specialize (Hall L ltac:(left)). lia.
Qed.

(** The amended C2, average bound: as long as the 64-bit sum has not
    wrapped around and the count has not overflowed, that is, the
    latencies seen in the context add up to less than [2^64] and
    are at most [INT_MAX] many, a positive count gives
    [min <= sum / count <= max]. *)
Theorem average_bound_without_overflow (n : Z) (d0 d : timerlat_top_data)
    (rs : list tep_record) (cpu : Z) (k : context) (c : timerlat_top_cpu) :
  timerlat_alloc_top true true n = Some d0 ->
  handle_events d0 rs = Some d ->
  cpu_entry d cpu = Some c ->
  Forall (fun L => 0 <= L) (seen cpu k rs) ->
  total (seen cpu k rs) < U64_MODULUS ->
  Z.of_nat (length (seen cpu k rs)) <= INT_MAX ->
  0 < count_of k c ->
  min_of k c <= avg_of k c <= max_of k c.
Proof.
  intros Halloc Hrun Hc Hnonneg Htotal Hlen Hpos.
  destruct (aggregates_from_fresh _ _ _ _ _ _ Halloc Hrun Hc k)
    as (Hcount & _ & Hmin & Hsum & Hmax).
  set (ls := seen cpu k rs) in *.
  rewrite count_after_small in Hcount by lia.
  rewrite foldl_sum_exact in Hsum by (try assumption; lia).
  simpl in Hcount, Hsum.
  assert (Forall (fun l => min_of k c <= l <= max_of k c) ls) as Hbounds.
  { apply Forall_forall. intros L HL. rewrite Hmin, Hmax. split.
    - apply foldl_min_le. exact HL.
    - apply foldl_max_ge. exact HL. }
  apply total_bounds in Hbounds.
  unfold avg_of. rewrite Hsum, Hcount in *.
  rewrite wrap_u64_small
    by (unfold is_u64, U64_MODULUS, INT_MAX in *; lia).
  split.
  - apply Z.div_le_lower_bound; lia.
  - apply Z.div_le_upper_bound; lia.
Qed.

(** C5, unset-to-set transition: in a freshly allocated table, as
    long as no event of a context has arrived for a CPU, the count of
    the context is 0 and its minimum holds the sentinel [~0]; the
    first event of the context, of latency [L], leaves
    [min = max = cur = L]. *)
Theorem unset_to_set (n : Z) (d0 d1 : timerlat_top_data)
    (before : list tep_record) (r : tep_record) (k : context)
    (c1 : timerlat_top_cpu) :
  timerlat_alloc_top true true n = Some d0 ->
  handle_events d0 before = Some d1 ->
  seen (rec_cpu r) k before = [] ->
  cpu_entry d1 (rec_cpu r) = Some c1 ->
  context_of (rec_context r) = k ->
  is_u64 (rec_timer_latency r) ->
  (count_of k c1 = 0 /\ min_of k c1 = all_ones)
  /\ exists d2 c2,
       timerlat_top_handler d1 r = Some d2
       /\ cpu_entry d2 (rec_cpu r) = Some c2
       /\ min_of k c2 = rec_timer_latency r
       /\ max_of k c2 = rec_timer_latency r
       /\ cur_of k c2 = rec_timer_latency r.
Proof.
  intros Halloc Hrun Hnone Hc1 Hk HL.
  destruct (aggregates_from_fresh _ _ _ _ _ _ Halloc Hrun Hc1 k)
    as (Hcount & _ & Hmin & _ & Hmax).
  rewrite Hnone in *. simpl in *.
  split; [auto|].
  unfold timerlat_top_handler, timerlat_top_update. rewrite Hc1.
  eexists. eexists. split; [reflexivity|].
  unfold cpu_entry in *. simpl.
  destruct (rec_cpu r <? 0); [discriminate|].
  rewrite list_lookup_insert_eq by (eapply lookup_lt_Some; eassumption).
  split; [reflexivity|].
  pose proof (update_cpu_of c1 (rec_context r) (rec_timer_latency r) k) as Hup.
  simpl in Hup. rewrite Hk in Hup.
  replace (context_eqb k k) with true in Hup by (destruct k; reflexivity).
  destruct Hup as (_ & -> & -> & _ & ->).
  rewrite Hmin, Hmax, all_ones_value.
  unfold update_min, update_max, is_u64, U64_MODULUS in *. lia.
Qed.

(** C6, order independence: applying a permutation of a sequence of
    events yields, for every CPU and context, the same count,
    minimum, maximum and sum; [cur] is the latency of the event of
    the CPU and context that was applied last.  That [cur] does
    depend on the order is [cur_depends_on_order] below. *)
Theorem order_independence (d d1 : timerlat_top_data)
    (rs rs' : list tep_record) :
  rs ≡ₚ rs' ->
  handle_events d rs = Some d1 ->
  exists d2,
    handle_events d rs' = Some d2
    /\ forall cpu k c1, cpu_entry d1 cpu = Some c1 ->
         (exists c2, cpu_entry d2 cpu = Some c2 /\ same_aggregates k c1 c2)
         /\ (forall ls L, seen cpu k rs = ls ++ [L] -> cur_of k c1 = L).
Proof.
  intros Hperm Hrun.
  assert (is_Some (handle_events d rs')) as [d2 Hrun'].
  { apply handle_events_defined. rewrite <- Hperm.
    apply handle_events_defined. eauto. }
  exists d2. split; [exact Hrun'|].
  intros cpu k c1 Hc1.
  assert (is_Some (cpu_entry d cpu)) as [c Hc].
  { apply cpu_entry_bounds.
    destruct (handle_events_shape _ _ _ Hrun) as [<- _].
    apply cpu_entry_bounds. eauto. }
  destruct (handle_events_aggregates _ _ _ _ _ Hrun Hc) as (c1' & Hc1' & Hagg1).
  destruct (handle_events_aggregates _ _ _ _ _ Hrun' Hc) as (c2 & Hc2 & Hagg2).
  rewrite Hc1 in Hc1'. injection Hc1' as <-.
  specialize (Hagg1 k) as (Hn1 & Hcur1 & Hmin1 & Hsum1 & Hmax1).
  specialize (Hagg2 k) as (Hn2 & _ & Hmin2 & Hsum2 & Hmax2).
  pose proof (seen_perm cpu k _ _ Hperm) as Hseen.
  split.
  - exists c2. split; [exact Hc2|]. unfold same_aggregates.
    rewrite Hn1, Hn2, Hmin1, Hmin2, Hmax1, Hmax2, Hsum1, Hsum2.
    rewrite (Permutation_length Hseen).
    rewrite (foldl_commute_perm _ update_min_swap _ _ Hseen).
    rewrite (foldl_commute_perm _ update_max_swap _ _ Hseen).
    rewrite (foldl_commute_perm _ update_sum_swap _ _ Hseen).
    auto.
  - intros ls L Hlast. rewrite Hcur1, Hlast. apply last_or_snoc.
Qed.

(** C10, unchecked index: the handler hands the CPU of the record to
    the aggregator as it is, and on a table allocated for [n] CPUs,
    whose size no event changes, the access stays inside the table
    exactly when [0 <= cpu < nr_cpus]; for every other CPU the
    out-of-bounds result is reached. *)
Theorem handler_index_unchecked (n : Z) (d0 d : timerlat_top_data)
    (rs : list tep_record) (r : tep_record) :
  timerlat_alloc_top true true n = Some d0 ->
  handle_events d0 rs = Some d ->
  timerlat_top_handler d r
    = timerlat_top_update d (rec_cpu r) (rec_context r) (rec_timer_latency r)
  /\ nr_cpus d = n
  /\ length (cpu_data d) = Z.to_nat n
  /\ (timerlat_top_handler d r <> None <-> 0 <= rec_cpu r < nr_cpus d).
Proof.
  intros Halloc Hrun.
  destruct (handle_events_shape _ _ _ Hrun) as [Hlen Hnr].
  destruct (timerlat_alloc_top_table _ _ Halloc) as [Htbl Hn].
  rewrite Htbl, length_replicate in Hlen.
  split; [reflexivity|]. split; [congruence|]. split; [exact Hlen|].
  unfold timerlat_top_handler, timerlat_top_update.
  pose proof (cpu_entry_bounds d (rec_cpu r)) as Hb.
  rewrite Hlen in Hb. rewrite Hnr, Hn.
  destruct (cpu_entry d (rec_cpu r)) as [c|].
  - split; [|discriminate]. intros _.
    assert (0 <= rec_cpu r < Z.of_nat (Z.to_nat n)) by (apply Hb; eauto). lia.
  - split; [congruence|]. intros Hin.
    assert (is_Some (@None timerlat_top_cpu)) as [? ?] by (apply Hb; lia).
    discriminate.
Qed.

End Aggregator.

(** ** The renderer *)

Section Renderer.

Lemma append_empty_r (s : string) : s +:+ EmptyString = s.
Proof.
  induction s as [|a s IH]; [reflexivity|].
  change (String a (s +:+ EmptyString) = String a s). rewrite IH. reflexivity.
Qed.

Lemma print_cpus_zero_divisor (params : timerlat_top_params)
    (data : timerlat_top_data) (todo : nat) (from : Z) (rows : string) :
  output_divisor params = 0 ->
  print_cpus params data from todo = Some rows -> rows = EmptyString.
Proof.
  intros Hdiv. revert from rows.
  induction todo as [|todo IH]; intros from rows; simpl.
  - intros [= <-]. reflexivity.
  - destruct (cpu_filtered params from) as [[|]|]; [apply IH| |discriminate].
    unfold timerlat_top_print. rewrite Hdiv. simpl.
    destruct (print_cpus params data (from + 1) todo) as [rest|] eqn:Hrest;
      [|discriminate].
    intros [= <-]. apply (IH _ _ Hrest).
Qed.

(** The amended C4, zero divisor: with a divisor of 0 no CPU gets a
    row, whatever the table holds and whatever index is asked for,
    and nothing is divided; a call of [timerlat_print_stats] still
    writes the header, after the screen-clear directive unless quiet
    is set, and nothing else. *)
Theorem zero_divisor_prints_no_row (params : timerlat_top_params)
    (data : timerlat_top_data) :
  output_divisor params = 0 ->
  (forall cpu, timerlat_top_print params data cpu = Some EmptyString)
  /\ (forall n debug duration_text text,
        timerlat_print_stats n debug duration_text params data = Some text ->
        text = (if quiet params =? 0 then clear_terminal debug else EmptyString)
               +:+ timerlat_top_header params duration_text).
Proof.
  intros Hdiv. split.
  - intros cpu. unfold timerlat_top_print. rewrite Hdiv. reflexivity.
  - intros n debug duration_text text. unfold timerlat_print_stats.
    destruct (print_cpus params data 0 (Z.to_nat n)) as [rows|] eqn:Hrows;
      [|discriminate].
    apply print_cpus_zero_divisor in Hrows as ->; [|exact Hdiv].
    intros [= <-]. rewrite append_empty_r. reflexivity.
Qed.

(** C9, omission rule: for a positive divisor, a CPU whose irq count
    and thread count are both 0 gets no text at all. *)
Theorem idle_cpu_prints_nothing (params : timerlat_top_params)
    (data : timerlat_top_data) (cpu : Z) (c : timerlat_top_cpu) :
  0 < output_divisor params ->
  cpu_entry data cpu = Some c ->
  irq_count c = 0 ->
  thread_count c = 0 ->
  timerlat_top_print params data cpu = Some EmptyString.
Proof.
  intros Hdiv Hc Hirq Hthread. unfold timerlat_top_print.
  destruct (Z.eqb_spec (output_divisor params) 0) as [H0|_]; [lia|].
  rewrite Hc, Hirq, Hthread. reflexivity.
Qed.

Lemma cpu_filtered_defined (params : timerlat_top_params) (i : Z) :
  cpus params = None \/ i < Z.of_nat (length (monitored_cpus params)) ->
  0 <= i -> is_Some (cpu_filtered params i).
Proof.
  intros Hfit Hi. unfold cpu_filtered.
  destruct (cpus params); [|eauto].
  destruct Hfit as [|Hlt]; [discriminate|].
  destruct (Z.ltb_spec i 0); [lia|].
  destruct (lookup_lt_is_Some_2 (monitored_cpus params) (Z.to_nat i)) as [b ->];
    [lia | eauto].
Qed.

Lemma timerlat_top_print_defined (params : timerlat_top_params)
    (data : timerlat_top_data) (cpu : Z) :
  0 <= cpu < Z.of_nat (length (cpu_data data)) ->
  is_Some (timerlat_top_print params data cpu).
Proof.
  intros Hcpu. unfold timerlat_top_print.
  destruct (output_divisor params =? 0); [eauto|].
  apply cpu_entry_bounds in Hcpu as [c ->].
  destruct ((irq_count c =? 0) && (thread_count c =? 0)); eauto.
Qed.

Lemma print_cpus_defined (params : timerlat_top_params)
    (data : timerlat_top_data) (todo : nat) (from : Z) :
  0 <= from ->
  from + Z.of_nat todo <= Z.of_nat (length (cpu_data data)) ->
  cpus params = None
    \/ from + Z.of_nat todo <= Z.of_nat (length (monitored_cpus params)) ->
  is_Some (print_cpus params data from todo).
Proof.
  revert from. induction todo as [|todo IH]; intros from Hfrom Hlen Hfit; simpl.
  - eauto.
  - destruct (cpu_filtered_defined params from) as [b ->];
      [destruct Hfit; [left; assumption | right; lia] | lia |].
    assert (is_Some (print_cpus params data (from + 1) todo)) as [rest Hrest]
      by (apply IH; [lia | lia | destruct Hfit; [left; assumption | right; lia]]).
    rewrite Hrest. destruct b; [eauto|].
    destruct (timerlat_top_print_defined params data from) as [row ->];
      [lia | eauto].
Qed.

(** A table of [n] entries and a CPU list of at least [n] bytes are
    read inside their bounds. *)
Lemma timerlat_print_stats_defined (n : Z) (debug : bool)
    (duration_text : string) (params : timerlat_top_params)
    (data : timerlat_top_data) :
  length (cpu_data data) = Z.to_nat n ->
  cpus params = None \/ n <= Z.of_nat (length (monitored_cpus params)) ->
  is_Some (timerlat_print_stats n debug duration_text params data).
Proof.
  intros Hlen Hfit. unfold timerlat_print_stats.
  destruct (print_cpus_defined params data (Z.to_nat n) 0) as [rows ->];
    [lia | lia | destruct Hfit; [left; assumption | right; lia] | eauto].
Qed.

End Renderer.

(** ** The monitor loop *)

Section MonitorLoop.

Lemma renders_app (a b : list event) :
  renders (a ++ b) = (renders a + renders b)%nat.
Proof.
  induction a as [|e a IH]; simpl; [reflexivity|].
  destruct e; simpl; rewrite ?IH; reflexivity.
Qed.

Lemma recorder_calls_app (a b : list event) :
  recorder_calls (a ++ b) = (recorder_calls a + recorder_calls b)%nat.
Proof.
  induction a as [|e a IH]; simpl; [reflexivity|].
  destruct e; simpl; rewrite ?IH; reflexivity.
Qed.

Lemma out_top_quiet (params : timerlat_top_params) (t : tool_ptr) :
  renders (out_top params t) = 0%nat
  /\ recorder_calls (out_top params t) = 0%nat.
Proof. unfold out_top. destruct (trace_output params); simpl; auto. Qed.

(** What [timerlat_top_apply_config] leaves as it was. *)
Lemma timerlat_top_apply_config_keeps (w : world)
    (params : timerlat_top_params) :
  let params' := fst (fst (timerlat_top_apply_config w params)) in
  quiet params' = quiet params
  /\ trace_output params' = trace_output params
  /\ cpus params' = cpus params
  /\ monitored_cpus params' = monitored_cpus params
  /\ output_divisor params' = output_divisor params.
Proof.
  unfold timerlat_top_apply_config.
  destruct (sleep_time params =? 0);
    repeat match goal with
           | |- context [if ?b then _ else _] => destruct b
           end; simpl; auto.
Qed.

(** Inside the loop: no recorder call; no render when quiet is set;
    after a failed iteration of events nothing more happens. *)
Lemma monitor_loop_events (fuel : nat) (w : world)
    (params : timerlat_top_params) (k : nat) (data : timerlat_top_data)
    (r : loop_result) :
  monitor_loop fuel w params k data = Ret r ->
  recorder_calls (lr_events r) = 0%nat
  /\ (quiet params <> 0 -> renders (lr_events r) = 0%nat)
  /\ (lr_exit r = IngestError ->
      exists evs, lr_events r =
        evs ++ [sleep (sleep_time params);
                err_msg ("Error iterating on events" +:+ Fmt.NL)]).
Proof.
  revert k data r. induction fuel as [|fuel IH]; intros k data r; simpl;
    [discriminate|].
  destruct (stop_tracing_at w k).
  { intros [= <-]. simpl. repeat split; auto. discriminate. }
  destruct (iterate_raw_events w k) as [records retval].
  destruct (handle_events data records) as [data'|]; simpl; [|discriminate].
  destruct (retval <? 0).
  { intros [= <-]. simpl. repeat split; auto. intros _. exists []. reflexivity. }
  destruct (Z.eqb_spec (quiet params) 0) as [Hq|Hq].
  - destruct (timerlat_print_stats _ _ _ params data') as [text|]; simpl;
      [|discriminate].
    destruct (trace_is_on_in_loop w k); simpl.
    + destruct (monitor_loop fuel w params (S k) data') as [r'| |] eqn:Hloop;
        simpl; try discriminate.
      intros [= <-]. destruct (IH _ _ _ Hloop) as (Hrec & _ & Hlast).
      simpl. repeat split; [exact Hrec | intros; contradiction |].
      intros Hexit. destruct (Hlast Hexit) as [evs ->].
      exists (sleep (sleep_time params) :: print_stats text :: evs). reflexivity.
    + intros [= <-]. simpl. repeat split; [intros; contradiction | discriminate].
  - simpl. destruct (trace_is_on_in_loop w k); simpl.
    + destruct (monitor_loop fuel w params (S k) data') as [r'| |] eqn:Hloop;
        simpl; try discriminate.
      intros [= <-]. destruct (IH _ _ _ Hloop) as (Hrec & Hquiet & Hlast).
      simpl. repeat split; [exact Hrec | intros _; apply Hquiet, Hq |].
      intros Hexit. destruct (Hlast Hexit) as [evs ->].
      exists (sleep (sleep_time params) :: evs). reflexivity.
    + intros [= <-]. simpl. repeat split; [discriminate].
Qed.

(** Between the loop and [out_top]: one render, and a recorder call
    exactly when the tracer is off by then and a file is set. *)
Lemma after_loop_events (w : world) (params : timerlat_top_params)
    (data : timerlat_top_data) (evs : list event) :
  after_loop w params data = Ret evs ->
  renders evs = 1%nat
  /\ recorder_calls evs =
       (if trace_is_on_after_loop w then 0%nat
        else match trace_output params with Some _ => 1%nat | None => 0%nat end).
Proof.
  unfold after_loop.
  destruct (timerlat_print_stats _ _ _ params data) as [text|]; simpl;
    [|discriminate].
  intros [= <-].
  destruct (trace_is_on_after_loop w), (trace_output params); simpl; auto.
Qed.

Lemma timerlat_init_top_quiet (w : world) :
  renders (fst (timerlat_init_top w)) = 0%nat
  /\ recorder_calls (fst (timerlat_init_top w)) = 0%nat.
Proof.
  unfold timerlat_init_top, alloc_cleanup.
  destruct (negb (init_tool_ok w)); [auto|].
  destruct (timerlat_alloc_top _ _ _); [auto|].
  destruct (calloc_data_ok w && negb (calloc_table_ok w)); auto.
Qed.

Lemma timerlat_top_apply_config_quiet (w : world)
    (params : timerlat_top_params) :
  let msgs := snd (fst (timerlat_top_apply_config w params)) in
  renders msgs = 0%nat /\ recorder_calls msgs = 0%nat
  /\ (snd (timerlat_top_apply_config w params) = 0 -> msgs = []).
Proof.
  unfold timerlat_top_apply_config.
  repeat match goal with
         | |- context [if ?b then _ else _] => destruct b
         end; simpl; repeat split; auto; discriminate.
Qed.

Lemma timerlat_top_set_signals_quiet (params : timerlat_top_params) :
  renders (timerlat_top_set_signals params) = 0%nat
  /\ recorder_calls (timerlat_top_set_signals params) = 0%nat.
Proof.
  unfold timerlat_top_set_signals. destruct (duration params =? 0); auto.
Qed.

(** The shape of a finished run: either the loop was never entered,
    the status is 1 and nothing was rendered or recorded, or the run
    is the loop followed by the statements after it. *)
Lemma timerlat_top_main_inv (fuel : nat) (w : world)
    (params0 : timerlat_top_params) (r : run) :
  timerlat_top_main fuel w params0 = Ret r ->
  (left_loop r = None /\ running_events r = [] /\ draining_events r = []
   /\ exit_status r = 1
   /\ renders (trace_of r) = 0%nat /\ recorder_calls (trace_of r) = 0%nat)
  \/ exists data lr,
       let params := fst (fst (timerlat_top_apply_config w params0)) in
       monitor_loop fuel w params 0 data = Ret lr
       /\ running_events r = lr_events lr
       /\ left_loop r = Some (lr_exit lr)
       /\ stopped_events r = out_top params RecordTool
       /\ renders (init_events r) = 0%nat
       /\ recorder_calls (init_events r) = 0%nat
       /\ (lr_exit lr = IngestError ->
           draining_events r = [] /\ exit_status r = 1)
       /\ (lr_exit lr <> IngestError ->
           after_loop w params (lr_data lr) = Ret (draining_events r)
           /\ exit_status r = 0).
Proof.
  unfold timerlat_top_main.
  destruct (timerlat_init_top_quiet w) as [Hevs1 Hevs2].
  destruct (timerlat_top_apply_config_quiet w params0) as (Hmsgs1 & Hmsgs2 & _).
  destruct (timerlat_init_top w) as [evs data].
  destruct (timerlat_top_apply_config w params0) as [[params msgs] retval].
  simpl in Hevs1, Hevs2, Hmsgs1, Hmsgs2. simpl fst.
  destruct (out_top_quiet params Uninitialised) as [Hu1 Hu2].
  destruct (out_top_quiet params NullTool) as [Hn1 Hn2].
  destruct (out_top_quiet params RecordTool) as [Hr1 Hr2].
  destruct (timerlat_top_set_signals_quiet params) as [Hsig1 Hsig2].
  assert (forall init stopped,
             renders init = 0%nat -> recorder_calls init = 0%nat ->
             renders stopped = 0%nat -> recorder_calls stopped = 0%nat ->
             let r := mk_run init [] None [] stopped 1 in
             left_loop r = None /\ running_events r = []
             /\ draining_events r = [] /\ exit_status r = 1
             /\ renders (trace_of r) = 0%nat
             /\ recorder_calls (trace_of r) = 0%nat) as Hearly.
  { intros init stopped Hi1 Hi2 Hs1 Hs2. unfold trace_of. simpl.
    rewrite renders_app, recorder_calls_app, Hi1, Hi2, Hs1, Hs2.
    repeat split; reflexivity. }
  destruct data as [data|];
    [|intros [= <-]; left; apply Hearly;
      rewrite ?renders_app, ?recorder_calls_app, ?Hevs1, ?Hevs2; reflexivity].
  repeat match goal with
         | |- context [if negb ?b then _ else _] => destruct b; simpl negb; cbv iota
         | |- context [if ?b && ?c then _ else _] => destruct (b && c)
         end;
    try (intros [= <-]; left; apply Hearly;
         rewrite ?renders_app, ?recorder_calls_app, ?Hevs1, ?Hevs2,
           ?Hmsgs1, ?Hmsgs2; auto).
  all: destruct (monitor_loop fuel w params 0 data) as [lr| |] eqn:Hloop; simpl;
    try discriminate.
  all: destruct (lr_exit lr) eqn:Hexit;
    try (destruct (after_loop w params (lr_data lr)) as [drained| |] eqn:Hafter;
         simpl; try discriminate);
    intros [= <-]; right; exists data, lr;
    cbn [running_events left_loop stopped_events init_events draining_events
         exit_status fst];
    rewrite !renders_app, !recorder_calls_app;
    cbn [renders recorder_calls];
    rewrite !renders_app, !recorder_calls_app, Hsig1, Hsig2, Hevs1, Hevs2,
      Hmsgs1, Hmsgs2;
    destruct (trace_output params); simpl;
    repeat split; auto; try discriminate; intros; congruence.
Qed.

End MonitorLoop.

(** ** Runs of the monitor *)

Section Runs.

(** C3, final render guarantee: in a run that leaves the loop by the
    stop flag or by the tracer reporting tracing off, exactly one
    call of [timerlat_print_stats] follows the loop, whatever the
    quiet flag; and with quiet set no call happens inside the loop. *)
Theorem final_render_exactly_once (fuel : nat) (w : world)
    (params : timerlat_top_params) (r : run) :
  timerlat_top_main fuel w params = Ret r ->
  left_loop r = Some StopRequested \/ left_loop r = Some TracerInactive ->
  renders (draining_events r ++ stopped_events r) = 1%nat
  /\ (quiet params <> 0 -> renders (running_events r) = 0%nat).
Proof.
  intros Hmain Hleft.
  destruct (timerlat_top_main_inv _ _ _ _ Hmain)
    as [(Hnone & _)|(data & lr & Hloop & Hrun & Hl & Hstop & _ & _ & _ & Hok)].
  { rewrite Hnone in Hleft. destruct Hleft; discriminate. }
  simpl in *.
  pose proof (timerlat_top_apply_config_keeps w params) as (Hq & _).
  simpl in Hq.
  destruct (monitor_loop_events _ _ _ _ _ _ Hloop) as (_ & Hquiet & _).
  assert (lr_exit lr <> IngestError) as Hne.
  { rewrite Hl in Hleft. destruct Hleft as [[= ->]|[= ->]]; discriminate. }
  destruct (Hok Hne) as [Hafter _].
  apply after_loop_events in Hafter as [Hone _].
  rewrite renders_app, Hone, Hstop.
  destruct (out_top_quiet (fst (fst (timerlat_top_apply_config w params)))
              RecordTool) as [-> _].
  split; [reflexivity|].
  intros Hset. rewrite Hrun. apply Hquiet. rewrite Hq. exact Hset.
Qed.

(** The amended C7, snapshot persistence: in a finished run the
    external recorder is called, and then once, exactly when the loop
    was left by the stop flag or by the tracer reporting tracing off,
    the query [tracefs_trace_is_on] made after the final render
    reports tracing off, and an output file was configured; which of
    the two ended the loop plays no part. *)
Theorem recorder_called_iff (fuel : nat) (w : world)
    (params : timerlat_top_params) (r : run) :
  timerlat_top_main fuel w params = Ret r ->
  (recorder_calls (trace_of r) = 1%nat
   <-> (left_loop r = Some StopRequested \/ left_loop r = Some TracerInactive)
       /\ trace_is_on_after_loop w = false
       /\ trace_output params <> None)
  /\ (recorder_calls (trace_of r) = 0%nat \/ recorder_calls (trace_of r) = 1%nat).
Proof.
  intros Hmain. unfold trace_of.
  destruct (timerlat_top_main_inv _ _ _ _ Hmain)
    as [(Hnone & _ & _ & _ & _ & Hzero)
       |(data & lr & Hloop & Hrun & Hl & Hstop & _ & Hinit & Herr & Hok)].
  { unfold trace_of in Hzero. rewrite Hzero, Hnone.
    split; [|auto]. split; [discriminate|].
    intros ([|] & _); discriminate. }
  simpl in *.
  pose proof (timerlat_top_apply_config_keeps w params) as (_ & Hto & _).
  simpl in Hto.
  destruct (monitor_loop_events _ _ _ _ _ _ Hloop) as (Hrec & _ & _).
  rewrite !recorder_calls_app, Hinit, Hrun, Hrec, Hstop, Hl.
  destruct (out_top_quiet (fst (fst (timerlat_top_apply_config w params)))
              RecordTool) as [_ ->].
  destruct (lr_exit lr) eqn:Hexit.
  - destruct Hok as [Hafter _]; [discriminate|].
    apply after_loop_events in Hafter as [_ ->]. rewrite Hto.
    destruct (trace_is_on_after_loop w), (trace_output params); simpl;
      (split; [split; [try discriminate; auto; intros _; repeat split; auto; discriminate
                      | intros (_ & ? & ?); congruence]
              | auto]).
  - destruct Hok as [Hafter _]; [discriminate|].
    apply after_loop_events in Hafter as [_ ->]. rewrite Hto.
    destruct (trace_is_on_after_loop w), (trace_output params); simpl;
      (split; [split; [try discriminate; auto; intros _; repeat split; auto; discriminate
                      | intros (_ & ? & ?); congruence]
              | auto]).
  - destruct Herr as [-> _]; [reflexivity|]. simpl.
    split; [|auto]. split; [discriminate|].
    intros ([|] & _); discriminate.
Qed.

End Runs.

(** ** Termination of the monitor *)

Section Termination.

Lemma timerlat_alloc_top_length (b1 b2 : bool) (n : Z)
    (data : timerlat_top_data) :
  timerlat_alloc_top b1 b2 n = Some data ->
  length (cpu_data data) = Z.to_nat n.
Proof.
  destruct b1, b2; try discriminate. intros Halloc.
  apply timerlat_alloc_top_table in Halloc as [-> _].
  apply length_replicate.
Qed.

(** Once the stop flag is set, the loop has ended: fuel beyond the
    number of the test that reads it set is never used up, and
    well-formed surroundings cause no fault. *)
Lemma monitor_loop_returns (w : world) (params : timerlat_top_params) :
  records_in_table w ->
  cpu_list_fits w params ->
  forall (j k fuel : nat) (data : timerlat_top_data),
    length (cpu_data data) = Z.to_nat (nprocessors_conf w) ->
    stop_tracing_at w (k + j) = true ->
    (j < fuel)%nat ->
    exists r, monitor_loop fuel w params k data = Ret r
              /\ length (cpu_data (lr_data r)) = length (cpu_data data).
Proof.
  intros Hrec Hfit. induction j as [|j IH]; intros k fuel data Hlen Hstop Hfuel;
    (destruct fuel as [|fuel]; [lia|]); simpl.
  - rewrite Nat.add_0_r in Hstop. rewrite Hstop. eauto.
  - destruct (stop_tracing_at w k); [eauto|].
    specialize (Hrec k).
    destruct (iterate_raw_events w k) as [records retval]. simpl in Hrec.
    assert (is_Some (handle_events data records)) as [data' Hdata'].
    { apply handle_events_defined. eapply Forall_impl; [exact Hrec|].
      simpl. intros r Hr. rewrite Hlen. lia. }
    rewrite Hdata'. simpl.
    destruct (handle_events_shape _ _ _ Hdata') as [Hlen' _].
    destruct (retval <? 0); [eexists; split; [reflexivity | exact Hlen']|].
    assert (exists shown,
               (if quiet params =? 0
                then text ← of_option
                       (timerlat_print_stats (nprocessors_conf w)
                          (config_debug w) (duration_in_loop w k) params data');
                     Ret [print_stats text]
                else Ret []) = Ret shown) as [shown ->].
    { destruct (quiet params =? 0); [|eauto].
      destruct (timerlat_print_stats_defined (nprocessors_conf w)
                  (config_debug w) (duration_in_loop w k) params data')
        as [text ->]; [congruence | exact Hfit | simpl; eauto]. }
    simpl. destruct (trace_is_on_in_loop w k); simpl;
      [|eexists; split; [reflexivity | exact Hlen']].
    destruct (IH (S k) fuel data') as (r & -> & Hr);
      [congruence | rewrite <- Hstop; f_equal; lia | lia |].
    simpl. eexists. split; [reflexivity|]. simpl. congruence.
Qed.

(** [timerlat_top_main] returns whenever the stop flag is eventually
    found set and the surroundings are well-formed. *)
Lemma timerlat_top_main_returns (w : world) (params : timerlat_top_params)
    (j fuel : nat) :
  records_in_table w ->
  cpu_list_fits w params ->
  stop_tracing_at w j = true ->
  (j < fuel)%nat ->
  exists r, timerlat_top_main fuel w params = Ret r.
Proof.
  intros Hrec Hfit Hstop Hfuel. unfold timerlat_top_main.
  pose proof (timerlat_top_apply_config_keeps w params)
    as (_ & _ & Hcpus & Hmon & _).
  destruct (timerlat_init_top w) as [evs [data|]] eqn:Hinit; [|eauto].
  destruct (timerlat_top_apply_config w params) as [[params' msgs] retval].
  simpl in Hcpus, Hmon.
  assert (cpu_list_fits w params') as Hfit'.
  { unfold cpu_list_fits in *. rewrite Hcpus, Hmon. exact Hfit. }
  assert (length (cpu_data data) = Z.to_nat (nprocessors_conf w)) as Hlen.
  { unfold timerlat_init_top in Hinit.
    destruct (negb (init_tool_ok w)); [discriminate|].
    destruct (timerlat_alloc_top _ _ _) as [d|] eqn:Halloc; [|discriminate].
    injection Hinit as _ <-.
    eapply timerlat_alloc_top_length. exact Halloc. }
  repeat match goal with
         | |- context [if ?b then _ else _] =>
             destruct b; [eexists; reflexivity|]
         end.
  destruct (monitor_loop_returns w params' Hrec Hfit' j 0%nat fuel data Hlen
              Hstop Hfuel) as (r & -> & Hr).
  simpl.
  destruct (timerlat_print_stats_defined (nprocessors_conf w) (config_debug w)
              (duration_after_loop w) params' (lr_data r))
    as [text Htext]; [congruence | exact Hfit' |].
  unfold after_loop. rewrite Htext. simpl.
  destruct (lr_exit r); simpl; eauto.
Qed.

End Termination.

(** ** The examples of the specification, and instances *)

Section Instances.

(** Samples [(cpu0, irq, 100), (cpu0, irq, 50), (cpu0, thread, 200)]
    give [irqCount = 2], [minIrq = 50], [maxIrq = 100], an average of
    75, and [threadCount = 1], [minThread = maxThread = curThread =
    200]. *)
Example spec_example_aggregates :
  handle_events ex_fresh_table ex_samples
    = Some (mk_data [ex_cpu0; fresh_cpu] 2)
  /\ avg_of Irq ex_cpu0 = 75.
Proof. split; reflexivity. Qed.

(** Divisor 1000 and a current irq latency of 75000 ns render as 75. *)
Example spec_example_divisor :
  print_group 1 75000 75000 75000 75000 1000 " |"
  = "       75        75        75        75 |".
Proof. vm_compute. reflexivity. Qed.

Example spec_example_row :
  timerlat_top_print ex_params (mk_data [ex_cpu0; fresh_cpu] 2) 0
  = Some ("  0 #2         |        0         0         0         0 |"
          +:+ "        0         0         0         0" +:+ Fmt.NL).
Proof. vm_compute. reflexivity. Qed.

(** A duration that expires before any sample arrives: the loop body
    never runs, one final render shows the header and no CPU, and the
    status is 0. *)
Example spec_example_idle_run :
  exists r,
    timerlat_top_main 1 ex_idle_world ex_params = Ret r
    /\ running_events r = []
    /\ draining_events r =
         [print_stats (clear_terminal false
                       +:+ timerlat_top_header ex_params "0 00:00:01")]
    /\ exit_status r = 0.
Proof. eexists. split; [vm_compute; reflexivity|]. repeat split. Qed.

(** [cur] is the one aggregate that depends on the order: the same
    two samples in the two orders. *)
Example cur_depends_on_order :
  (cur_irq <$> (handle_events ex_fresh_table
                  [mk_record 0 0 100; mk_record 0 0 50]
                ≫= fun d => cpu_entry d 0)) = Some 50
  /\ (cur_irq <$> (handle_events ex_fresh_table
                     [mk_record 0 0 50; mk_record 0 0 100]
                   ≫= fun d => cpu_entry d 0)) = Some 100.
Proof. split; reflexivity. Qed.

Lemma monotonic_extremes_witness :
  (forall L, L ∈ seen 0 Irq (take 2 ex_samples) ->
             min_of Irq ex_cpu0_irq_only <= L <= max_of Irq ex_cpu0_irq_only)
  /\ (0 < count_of Irq ex_cpu0_irq_only ->
      min_of Irq ex_cpu0_irq_only <= max_of Irq ex_cpu0_irq_only).
Proof.
  apply (monotonic_extremes 2 ex_fresh_table
           (mk_data [ex_cpu0_irq_only; fresh_cpu] 2) ex_samples 2 0 Irq
           ex_cpu0_irq_only); reflexivity.
Defined.

(** The claim C2 as it is stated fails once the sum wraps around: two
    interrupt samples of [2^63] ns leave a count of 2, a sum of 0 and
    a minimum of [2^63], so the average 0 lies below the minimum. *)
Lemma average_bound_fails_on_wrap :
  exists d0 d c,
    timerlat_alloc_top true true 1 = Some d0
    /\ handle_events d0 ex_wrapping_samples = Some d
    /\ cpu_entry d 0 = Some c
    /\ 0 < count_of Irq c
    /\ ~ (min_of Irq c <= avg_of Irq c <= max_of Irq c).
Proof.
  eexists. eexists. eexists.
  split; [reflexivity|]. split; [reflexivity|]. split; [reflexivity|].
  split; [reflexivity|].
  vm_compute. intros [Hle _]. apply Hle. reflexivity.
Qed.

Lemma average_bound_without_overflow_witness :
  min_of Irq ex_cpu0 <= avg_of Irq ex_cpu0 <= max_of Irq ex_cpu0.
Proof.
  eapply (average_bound_without_overflow 2 _ _ ex_samples 0 Irq ex_cpu0).
  - reflexivity.
  - reflexivity.
  - reflexivity.
  - simpl. repeat constructor; lia.
  - reflexivity.
  - vm_compute. discriminate.
  - reflexivity.
Defined.

Lemma unset_to_set_witness :
  (count_of Irq ex_cpu0_thread_only = 0
   /\ min_of Irq ex_cpu0_thread_only = all_ones)
  /\ exists d2 c2,
       timerlat_top_handler ex_table_thread_only (mk_record 0 0 100) = Some d2
       /\ cpu_entry d2 0 = Some c2
       /\ min_of Irq c2 = 100 /\ max_of Irq c2 = 100 /\ cur_of Irq c2 = 100.
Proof.
  apply (unset_to_set 2 ex_fresh_table ex_table_thread_only ex_thread_first
           (mk_record 0 0 100) Irq ex_cpu0_thread_only);
    try reflexivity.
  unfold is_u64, U64_MODULUS. simpl. lia.
Defined.

Lemma order_independence_witness :
  exists d2,
    handle_events ex_fresh_table
      [mk_record 0 0 50; mk_record 0 0 100; mk_record 0 1 200] = Some d2
    /\ forall cpu k c1,
         cpu_entry (mk_data [ex_cpu0; fresh_cpu] 2) cpu = Some c1 ->
         (exists c2, cpu_entry d2 cpu = Some c2 /\ same_aggregates k c1 c2)
         /\ (forall ls L, seen cpu k ex_samples = ls ++ [L] -> cur_of k c1 = L).
Proof.
  apply (order_independence ex_fresh_table (mk_data [ex_cpu0; fresh_cpu] 2)
           ex_samples [mk_record 0 0 50; mk_record 0 0 100; mk_record 0 1 200]).
  - apply perm_swap.
  - reflexivity.
Defined.

Lemma handler_index_unchecked_witness :
  timerlat_top_handler (mk_data [ex_cpu0; fresh_cpu] 2) (mk_record 5 0 10)
    = timerlat_top_update (mk_data [ex_cpu0; fresh_cpu] 2) 5 0 10
  /\ nr_cpus (mk_data [ex_cpu0; fresh_cpu] 2) = 2
  /\ length (cpu_data (mk_data [ex_cpu0; fresh_cpu] 2)) = Z.to_nat 2
  /\ (timerlat_top_handler (mk_data [ex_cpu0; fresh_cpu] 2) (mk_record 5 0 10)
        <> None
      <-> 0 <= 5 < 2).
Proof.
  apply (handler_index_unchecked 2 ex_fresh_table
           (mk_data [ex_cpu0; fresh_cpu] 2) ex_samples (mk_record 5 0 10));
    reflexivity.
Defined.

(** The claim C4 as it is stated fails for the whole render call:
    with a divisor of 0, [timerlat_print_stats] still writes the
    header. *)
Lemma zero_divisor_still_prints_header :
  exists text,
    timerlat_print_stats 2 false "0 00:00:01" ex_zero_divisor_params
      ex_fresh_table = Some text
    /\ text <> EmptyString.
Proof.
  eexists. split; [vm_compute; reflexivity|]. discriminate.
Qed.

Lemma zero_divisor_prints_no_row_witness :
  (forall cpu,
      timerlat_top_print ex_zero_divisor_params ex_fresh_table cpu
      = Some EmptyString)
  /\ (forall n debug duration_text text,
        timerlat_print_stats n debug duration_text ex_zero_divisor_params
          ex_fresh_table = Some text ->
        text = (if quiet ex_zero_divisor_params =? 0 then clear_terminal debug
                else EmptyString)
               +:+ timerlat_top_header ex_zero_divisor_params duration_text).
Proof.
  apply (zero_divisor_prints_no_row ex_zero_divisor_params ex_fresh_table).
  reflexivity.
Defined.

Lemma idle_cpu_prints_nothing_witness :
  timerlat_top_print ex_params (mk_data [ex_cpu0; fresh_cpu] 2) 1
  = Some EmptyString.
Proof.
  apply (idle_cpu_prints_nothing ex_params (mk_data [ex_cpu0; fresh_cpu] 2) 1
           fresh_cpu); reflexivity.
Defined.

(** A quiet run that the stop flag ends: the only render is the final
    one. *)
Lemma final_render_exactly_once_witness :
  exists r,
    timerlat_top_main 2 (ex_world true) ex_quiet_params = Ret r
    /\ renders (draining_events r ++ stopped_events r) = 1%nat
    /\ (quiet ex_quiet_params <> 0 -> renders (running_events r) = 0%nat).
Proof.
  eexists. split; [vm_compute; reflexivity|].
  eapply (final_render_exactly_once 2 (ex_world true) ex_quiet_params).
  - vm_compute. reflexivity.
  - left. reflexivity.
Defined.

(** The claim C7 as it is stated fails: the stop flag ends the loop,
    the tracer is off by the time it is asked after the final render,
    and the recorder is called although the tracer's deactivation did
    not end the loop. *)
Lemma recorder_called_after_stop_request :
  exists r,
    timerlat_top_main 2 (ex_world false) ex_trace_params = Ret r
    /\ left_loop r = Some StopRequested
    /\ save_trace_to_file "timerlat_trace.txt" ∈ trace_of r
    /\ ~ (recorder_calls (trace_of r) = 1%nat
          <-> left_loop r = Some TracerInactive
              /\ trace_output ex_trace_params <> None).
Proof.
  eexists. split; [vm_compute; reflexivity|].
  split; [reflexivity|]. split.
  - vm_compute. repeat (first [left | right]).
  - intros [Hcalled _]. destruct Hcalled as [Hleft _]; [reflexivity|].
    discriminate.
Qed.

Lemma recorder_called_iff_witness :
  exists r,
    timerlat_top_main 2 (ex_world false) ex_trace_params = Ret r
    /\ (recorder_calls (trace_of r) = 1%nat
        <-> (left_loop r = Some StopRequested
             \/ left_loop r = Some TracerInactive)
            /\ trace_is_on_after_loop (ex_world false) = false
            /\ trace_output ex_trace_params <> None)
    /\ (recorder_calls (trace_of r) = 0%nat
        \/ recorder_calls (trace_of r) = 1%nat).
Proof.
  eexists. split; [vm_compute; reflexivity|].
  apply (recorder_called_iff 2 (ex_world false) ex_trace_params).
  vm_compute. reflexivity.
Defined.

End Instances.

(** * Further properties of the code *)

(** ** Allocation and single updates *)

Section Table.

Lemma timerlat_alloc_top_entries (n : Z) (d : timerlat_top_data) (cpu : Z) :
  timerlat_alloc_top true true n = Some d ->
  cpu_entry d cpu = if (0 <=? cpu) && (cpu <? n) then Some fresh_cpu else None.
Proof.
  intros Halloc.
  destruct (timerlat_alloc_top_table _ _ Halloc) as [Htbl Hn].
  unfold cpu_entry. rewrite Htbl.
  destruct (Z.ltb_spec cpu 0) as [Hneg|Hpos].
  - destruct (Z.leb_spec 0 cpu); [lia | reflexivity].
  - destruct (Z.leb_spec 0 cpu); [|lia]. simpl.
    destruct (Z.ltb_spec cpu n).
    + apply lookup_replicate_2. lia.
    + apply lookup_replicate_None. lia.
Qed.

(** [timerlat_alloc_top] returns a table only when both allocations
    succeed; the table then records [n] and holds, for exactly the CPUs
    [0 <= cpu < n], an entry with zero counts, sums and maxima and both
    minima set to [~0]. *)
Theorem alloc_gives_fresh_table (b1 b2 : bool) (n : Z)
    (d : timerlat_top_data) :
  timerlat_alloc_top b1 b2 n = Some d ->
  b1 = true /\ b2 = true /\ nr_cpus d = n
  /\ forall cpu, cpu_entry d cpu =
       if (0 <=? cpu) && (cpu <? n) then Some fresh_cpu else None.
Proof.
  destruct b1, b2; try discriminate. intros Halloc.
  destruct (timerlat_alloc_top_table _ _ Halloc) as [_ Hn].
  repeat split; try assumption. intros cpu.
  apply timerlat_alloc_top_entries. exact Halloc.
Qed.

(** [timerlat_top_update] changes one entry and one context: the
    entries of all other CPUs stay as they are, and in the entry of its
    CPU the count, cur, min, sum and max of the other context stay as
    they are. *)
Theorem update_touches_one_context (d d' : timerlat_top_data)
    (cpu thread latency : Z) :
  timerlat_top_update d cpu thread latency = Some d' ->
  (forall other, other <> cpu -> cpu_entry d' other = cpu_entry d other)
  /\ exists c, cpu_entry d cpu = Some c
       /\ cpu_entry d' cpu = Some (update_cpu c thread latency)
       /\ forall k, k <> context_of thread ->
            count_of k (update_cpu c thread latency) = count_of k c
            /\ cur_of k (update_cpu c thread latency) = cur_of k c
            /\ min_of k (update_cpu c thread latency) = min_of k c
            /\ sum_of k (update_cpu c thread latency) = sum_of k c
            /\ max_of k (update_cpu c thread latency) = max_of k c.
Proof.
  intros Hup. split.
  - intros other Hne.
    rewrite (timerlat_top_update_entry _ _ _ _ _ other Hup).
    destruct (Z.eqb_spec other cpu); [contradiction | reflexivity].
  - pose proof (timerlat_top_update_entry _ _ _ _ _ cpu Hup) as Hent.
    rewrite Z.eqb_refl in Hent.
    unfold timerlat_top_update in Hup.
    destruct (cpu_entry d cpu) as [c|]; [|discriminate].
    exists c. split; [reflexivity|]. split; [exact Hent|].
    intros k Hk.
    pose proof (update_cpu_of c thread latency k) as Hof. simpl in Hof.
    destruct (context_of thread), k; simpl in Hof; try contradiction;
      exact Hof.
Qed.

End Table.

(** ** Exact values of the aggregates *)

Section Exact.

Lemma foldl_sum_modulo (ls : list Z) (s : Z) :
  foldl update_sum (wrap_u64 s) ls = wrap_u64 (s + total ls).
Proof.
  revert s. induction ls as [|l ls IH]; intros s; simpl.
  - f_equal. lia.
  - replace (update_sum (wrap_u64 s) l) with (wrap_u64 (s + l)).
    + rewrite IH. f_equal. lia.
    + unfold update_sum, wrap_u64. rewrite Zplus_mod_idemp_l. reflexivity.
Qed.

Lemma foldl_min_attained (ls : list Z) (m : Z) :
  foldl update_min m ls = m \/ foldl update_min m ls ∈ ls.
Proof.
  revert m. induction ls as [|l ls IH]; intros m; simpl; [auto|].
  destruct (IH (update_min m l)) as [->|Hin].
  - unfold update_min. destruct (Z.min_spec m l) as [[_ ->]|[_ ->]];
      [left; reflexivity | right; left].
  - right. right. exact Hin.
Qed.

Lemma foldl_max_attained (ls : list Z) (m : Z) :
  foldl update_max m ls = m \/ foldl update_max m ls ∈ ls.
Proof.
  revert m. induction ls as [|l ls IH]; intros m; simpl; [auto|].
  destruct (IH (update_max m l)) as [->|Hin].
  - unfold update_max. destruct (Z.max_spec m l) as [[_ ->]|[_ ->]];
      [right; left | left; reflexivity].
  - right. right. exact Hin.
Qed.

Lemma count_after_range (n : nat) (count : Z) :
  - 2 ^ 31 <= count <= INT_MAX -> - 2 ^ 31 <= count_after n count <= INT_MAX.
Proof.
  revert count. induction n as [|n IH]; intros count Hc; simpl; [exact Hc|].
  apply IH. unfold wrap_int, INT_MODULUS, INT_MAX.
  pose proof (Z.mod_pos_bound (count + 1 + 2 ^ 31) (2 ^ 32) ltac:(lia)). lia.
Qed.

Lemma last_or_in (ls : list Z) (cur : Z) :
  last_or cur ls = cur \/ last_or cur ls ∈ ls.
Proof.
  revert cur. induction ls as [|l ls IH]; intros cur; simpl; [auto|].
  right. destruct (IH l) as [->|Hin]; [left | right; exact Hin].
Qed.

(** The count of a context is the number of events seen for the CPU in
    that context, as long as these are at most [INT_MAX]. *)
Theorem count_is_number_seen (n : Z) (d0 d : timerlat_top_data)
    (rs : list tep_record) (cpu : Z) (k : context) (c : timerlat_top_cpu) :
  timerlat_alloc_top true true n = Some d0 ->
  handle_events d0 rs = Some d ->
  cpu_entry d cpu = Some c ->
  Z.of_nat (length (seen cpu k rs)) <= INT_MAX ->
  count_of k c = Z.of_nat (length (seen cpu k rs)).
Proof.
  intros Halloc Hrun Hc Hlen.
  destruct (aggregates_from_fresh _ _ _ _ _ _ Halloc Hrun Hc k) as (-> & _).
  rewrite count_after_small; lia.
Qed.

(** The stored sum of a context is the sum of the latencies seen for
    the CPU in that context, reduced modulo [2^64]. *)
Theorem sum_is_total_modulo (n : Z) (d0 d : timerlat_top_data)
    (rs : list tep_record) (cpu : Z) (k : context) (c : timerlat_top_cpu) :
  timerlat_alloc_top true true n = Some d0 ->
  handle_events d0 rs = Some d ->
  cpu_entry d cpu = Some c ->
  sum_of k c = wrap_u64 (total (seen cpu k rs)).
Proof.
  intros Halloc Hrun Hc.
  destruct (aggregates_from_fresh _ _ _ _ _ _ Halloc Hrun Hc k)
    as (_ & _ & _ & -> & _).
  apply (foldl_sum_modulo (seen cpu k rs) 0).
Qed.

(** Once a 64-bit latency has been seen for a CPU and context, the
    stored minimum and the stored maximum are each one of the latencies
    seen there. *)
Theorem extremes_are_attained (n : Z) (d0 d : timerlat_top_data)
    (rs : list tep_record) (cpu : Z) (k : context) (c : timerlat_top_cpu) :
  timerlat_alloc_top true true n = Some d0 ->
  handle_events d0 rs = Some d ->
  cpu_entry d cpu = Some c ->
  Forall is_u64 (seen cpu k rs) ->
  seen cpu k rs <> [] ->
  min_of k c ∈ seen cpu k rs /\ max_of k c ∈ seen cpu k rs.
Proof.
  intros Halloc Hrun Hc Hrange Hne.
  destruct (aggregates_from_fresh _ _ _ _ _ _ Halloc Hrun Hc k)
    as (_ & _ & -> & _ & ->).
  destruct (seen cpu k rs) as [|L ls] eqn:Hseen; [contradiction|].
  assert (is_u64 L) as HL by (inversion Hrange; assumption).
  split.
  - destruct (foldl_min_attained (L :: ls) all_ones) as [Heq|Hin];
      [|exact Hin].
    pose proof (foldl_min_le (L :: ls) all_ones L ltac:(left)) as Hle.
    rewrite Heq in *. rewrite all_ones_value in *.
    unfold is_u64, U64_MODULUS in HL.
    assert (L = 2 ^ 64 - 1) as -> by lia. left.
  - destruct (foldl_max_attained (L :: ls) 0) as [Heq|Hin]; [|exact Hin].
    pose proof (foldl_max_ge (L :: ls) 0 L ltac:(left)) as Hle.
    rewrite Heq in *. unfold is_u64 in HL.
    assert (L = 0) as -> by lia. left.
Qed.

(** Whatever 64-bit latencies arrive, cur, min, sum and max of a
    context stay 64-bit values and its count stays an [int]. *)
Theorem aggregates_stay_in_range (n : Z) (d0 d : timerlat_top_data)
    (rs : list tep_record) (cpu : Z) (k : context) (c : timerlat_top_cpu) :
  timerlat_alloc_top true true n = Some d0 ->
  handle_events d0 rs = Some d ->
  cpu_entry d cpu = Some c ->
  Forall is_u64 (seen cpu k rs) ->
  is_u64 (cur_of k c) /\ is_u64 (min_of k c) /\ is_u64 (sum_of k c)
  /\ is_u64 (max_of k c) /\ - 2 ^ 31 <= count_of k c <= INT_MAX.
Proof.
  intros Halloc Hrun Hc Hrange.
  destruct (aggregates_from_fresh _ _ _ _ _ _ Halloc Hrun Hc k)
    as (-> & -> & -> & -> & ->).
  rewrite Forall_forall in Hrange.
  assert (is_u64 0) as H0 by (unfold is_u64, U64_MODULUS; lia).
  assert (is_u64 all_ones) as H1
    by (rewrite all_ones_value; unfold is_u64, U64_MODULUS; lia).
  pose proof (foldl_sum_modulo (seen cpu k rs) 0) as Hsum.
  change (wrap_u64 0) with 0 in Hsum.
  repeat split.
  - destruct (last_or_in (seen cpu k rs) 0) as [->|Hin]; [apply H0|].
    apply (Hrange _ Hin).
  - destruct (last_or_in (seen cpu k rs) 0) as [->|Hin]; [apply H0|].
    apply (Hrange _ Hin).
  - destruct (foldl_min_attained (seen cpu k rs) all_ones) as [->|Hin];
      [apply H1 | apply (Hrange _ Hin)].
  - destruct (foldl_min_attained (seen cpu k rs) all_ones) as [->|Hin];
      [apply H1 | apply (Hrange _ Hin)].
  - rewrite Hsum. unfold wrap_u64, U64_MODULUS. apply Z.mod_pos_bound. lia.
  - rewrite Hsum. unfold wrap_u64, U64_MODULUS. apply Z.mod_pos_bound. lia.
  - destruct (foldl_max_attained (seen cpu k rs) 0) as [->|Hin];
      [apply H0 | apply (Hrange _ Hin)].
  - destruct (foldl_max_attained (seen cpu k rs) 0) as [->|Hin];
      [apply H0 | apply (Hrange _ Hin)].
  - apply count_after_range. unfold INT_MAX. lia.
  - apply count_after_range. unfold INT_MAX. lia.
Qed.

End Exact.

(** ** More on the renderer *)

Section Rendering.

(** A table allocated for [n] CPUs can be rendered for [n] CPUs after
    any events it has taken: no entry outside the table is read,
    provided the CPU list, when there is one, has a byte per CPU. *)
Theorem render_after_alloc_defined (n : Z) (d0 d : timerlat_top_data)
    (rs : list tep_record) (debug : bool) (duration_text : string)
    (params : timerlat_top_params) :
  timerlat_alloc_top true true n = Some d0 ->
  handle_events d0 rs = Some d ->
  cpus params = None \/ n <= Z.of_nat (length (monitored_cpus params)) ->
  timerlat_print_stats n debug duration_text params d <> None.
Proof.
  intros Halloc Hrun Hfit.
  destruct (timerlat_print_stats_defined n debug duration_text params d)
    as [text ->]; [|exact Hfit|discriminate].
  destruct (handle_events_shape _ _ _ Hrun) as [-> _].
  eapply timerlat_alloc_top_length. exact Halloc.
Qed.

Lemma print_cpus_with_quiet (q : Z) (params : timerlat_top_params)
    (d : timerlat_top_data) (todo : nat) (from : Z) :
  print_cpus (with_quiet q params) d from todo = print_cpus params d from todo.
Proof.
  revert from. induction todo as [|todo IH]; intros from; simpl; [reflexivity|].
  change (cpu_filtered (with_quiet q params) from)
    with (cpu_filtered params from).
  change (timerlat_top_print (with_quiet q params) d from)
    with (timerlat_top_print params d from).
  rewrite IH. reflexivity.
Qed.

(** The quiet flag changes the rendered text by the screen-clear
    directive only: the text without quiet is the directive followed by
    the text with quiet, and with [config_debug] set the two texts are
    the same. *)
Theorem quiet_only_drops_clear (n : Z) (debug : bool) (duration_text : string)
    (params : timerlat_top_params) (d : timerlat_top_data) (q : Z)
    (text : string) :
  q <> 0 ->
  timerlat_print_stats n debug duration_text (with_quiet q params) d
    = Some text ->
  timerlat_print_stats n debug duration_text (with_quiet 0 params) d
    = Some (clear_terminal debug +:+ text)
  /\ timerlat_print_stats n true duration_text (with_quiet 0 params) d
     = timerlat_print_stats n true duration_text (with_quiet q params) d.
Proof.
  intros Hq. unfold timerlat_print_stats.
  rewrite !print_cpus_with_quiet.
  change (quiet (with_quiet q params)) with q.
  change (quiet (with_quiet 0 params)) with 0.
  change (timerlat_top_header (with_quiet q params) duration_text)
    with (timerlat_top_header params duration_text).
  change (timerlat_top_header (with_quiet 0 params) duration_text)
    with (timerlat_top_header params duration_text).
  destruct (Z.eqb_spec q 0) as [|_]; [contradiction|].
  destruct (print_cpus params d 0 (Z.to_nat n)) as [rows|]; [|discriminate].
  intros [= <-]. split; reflexivity.
Qed.

Lemma print_cpus_monitored_only (params : timerlat_top_params)
    (d d' : timerlat_top_data) (todo : nat) (from : Z) :
  (forall i, cpu_filtered params i = Some false ->
             cpu_entry d i = cpu_entry d' i) ->
  print_cpus params d from todo = print_cpus params d' from todo.
Proof.
  intros Hsame. revert from.
  induction todo as [|todo IH]; intros from; simpl; [reflexivity|].
  destruct (cpu_filtered params from) as [[|]|] eqn:Hf; auto.
  unfold timerlat_top_print. rewrite (Hsame _ Hf), IH. reflexivity.
Qed.

(** The rendered text depends on the entries of the monitored CPUs
    only: two tables that agree on every CPU the CPU list does not
    leave out render the same. *)
Theorem render_reads_monitored_only (n : Z) (debug : bool)
    (duration_text : string) (params : timerlat_top_params)
    (d d' : timerlat_top_data) :
  (forall i, cpu_filtered params i = Some false ->
             cpu_entry d i = cpu_entry d' i) ->
  timerlat_print_stats n debug duration_text params d
  = timerlat_print_stats n debug duration_text params d'.
Proof.
  intros Hsame. unfold timerlat_print_stats.
  rewrite (print_cpus_monitored_only params d d' _ _ Hsame). reflexivity.
Qed.

Lemma print_cpus_idle (params : timerlat_top_params) (d : timerlat_top_data)
    (todo : nat) (from : Z) :
  0 <= from ->
  (forall i, from <= i < from + Z.of_nat todo ->
     exists c, cpu_entry d i = Some c /\ irq_count c = 0 /\ thread_count c = 0) ->
  cpus params = None
    \/ from + Z.of_nat todo <= Z.of_nat (length (monitored_cpus params)) ->
  print_cpus params d from todo = Some EmptyString.
Proof.
  revert from. induction todo as [|todo IH]; intros from Hfrom Hidle Hfit; simpl;
    [reflexivity|].
  destruct (cpu_filtered_defined params from) as [b ->];
    [destruct Hfit; [left; assumption | right; lia] | lia |].
  rewrite IH;
    [| lia | intros i Hi; apply Hidle; lia
     | destruct Hfit; [left; assumption | right; lia]].
  destruct b; [reflexivity|].
  destruct (Hidle from ltac:(lia)) as (c & Hc & Hirq & Hthread).
  unfold timerlat_top_print. rewrite Hc, Hirq, Hthread. simpl.
  destruct (output_divisor params =? 0); reflexivity.
Qed.

(** Before any sample has arrived the render shows the header and no
    CPU: a freshly allocated table renders as the screen-clear
    directive, unless quiet is set, followed by the header, whatever
    the divisor. *)
Theorem fresh_table_renders_header_only (n : Z) (d : timerlat_top_data)
    (debug : bool) (duration_text : string) (params : timerlat_top_params) :
  timerlat_alloc_top true true n = Some d ->
  cpus params = None \/ n <= Z.of_nat (length (monitored_cpus params)) ->
  timerlat_print_stats n debug duration_text params d
  = Some ((if quiet params =? 0 then clear_terminal debug else EmptyString)
          +:+ timerlat_top_header params duration_text).
Proof.
  intros Halloc Hfit. unfold timerlat_print_stats.
  rewrite print_cpus_idle.
  - rewrite append_empty_r. reflexivity.
  - lia.
  - intros i Hi. exists fresh_cpu.
    rewrite (timerlat_alloc_top_entries _ _ i Halloc).
    destruct (Z.leb_spec 0 i); [|lia]. destruct (Z.ltb_spec i n); [|lia].
    auto.
  - destruct Hfit; [left; assumption | right; lia].
Qed.

End Rendering.

(** ** The iterations of the loop *)

Section Iterations.

Lemma count_events_app (f : event -> bool) (a b : list event) :
  count_events f (a ++ b) = (count_events f a + count_events f b)%nat.
Proof.
  induction a as [|e a IH]; simpl; [reflexivity|].
  destruct (f e); simpl; rewrite IH; reflexivity.
Qed.

Lemma count_events_io (f : event -> bool) (evs : list event) :
  (forall e, is_io e = true -> f e = false) ->
  Forall (fun e => is_io e = true) evs ->
  count_events f evs = 0%nat.
Proof.
  intros Hf Hall. induction Hall as [|e evs He Hall IH]; simpl; [reflexivity|].
  rewrite (Hf e He). exact IH.
Qed.

Lemma handle_events_app (rs rs' : list tep_record) (d : timerlat_top_data) :
  handle_events d (rs ++ rs') = handle_events d rs ≫= fun d' => handle_events d' rs'.
Proof.
  revert d. induction rs as [|r rs IH]; intros d; simpl; [reflexivity|].
  destruct (timerlat_top_handler d r); simpl; [apply IH | reflexivity].
Qed.

(** One turn of the loop. *)
Lemma monitor_loop_unfold (fuel : nat) (w : world)
    (params : timerlat_top_params) (k : nat) (d : timerlat_top_data)
    (r : loop_result) :
  monitor_loop (S fuel) w params k d = Ret r ->
  (stop_tracing_at w k = true /\ r = mk_loop [] StopRequested d)
  \/ (stop_tracing_at w k = false
      /\ exists d' shown,
           handle_events d (fst (iterate_raw_events w k)) = Some d'
           /\ ((snd (iterate_raw_events w k) < 0
                /\ r = mk_loop [sleep (sleep_time params);
                                err_msg ("Error iterating on events" +:+ Fmt.NL)]
                               IngestError d')
               \/ (0 <= snd (iterate_raw_events w k)
                   /\ ((quiet params = 0
                        /\ exists text,
                             timerlat_print_stats (nprocessors_conf w)
                               (config_debug w) (duration_in_loop w k) params d'
                               = Some text
                             /\ shown = [print_stats text])
                       \/ (quiet params <> 0 /\ shown = []))
                   /\ ((trace_is_on_in_loop w k = false
                        /\ r = mk_loop (sleep (sleep_time params) :: shown)
                                       TracerInactive d')
                       \/ (trace_is_on_in_loop w k = true
                           /\ exists r',
                                monitor_loop fuel w params (S k) d' = Ret r'
                                /\ r = prepend (sleep (sleep_time params) :: shown)
                                               r'))))).
Proof.
  simpl. destruct (stop_tracing_at w k); [intros [= <-]; left; auto|].
  intros Hrun. right. split; [reflexivity|].
  destruct (iterate_raw_events w k) as [records retval]. simpl fst. simpl snd.
  destruct (handle_events d records) as [d'|]; simpl in Hrun; [|discriminate].
  destruct (Z.ltb_spec retval 0) as [Hneg|Hpos].
  { injection Hrun as <-. exists d', []. split; [reflexivity|]. left. auto. }
  destruct (Z.eqb_spec (quiet params) 0) as [Hq|Hq].
  - destruct (timerlat_print_stats _ _ _ params d') as [text|] eqn:Htext;
      simpl in Hrun; [|discriminate].
    exists d', [print_stats text]. split; [reflexivity|]. right.
    split; [exact Hpos|]. split; [left; eauto|].
    destruct (trace_is_on_in_loop w k); simpl in Hrun.
    + destruct (monitor_loop fuel w params (S k) d') as [r'| |];
        simpl in Hrun; try discriminate.
      injection Hrun as <-. right. eauto.
    + injection Hrun as <-. left. auto.
  - simpl in Hrun. exists d', []. split; [reflexivity|]. right.
    split; [exact Hpos|]. split; [right; auto|].
    destruct (trace_is_on_in_loop w k); simpl in Hrun.
    + destruct (monitor_loop fuel w params (S k) d') as [r'| |];
        simpl in Hrun; try discriminate.
      injection Hrun as <-. right. eauto.
    + injection Hrun as <-. left. auto.
Qed.

End Iterations.

Section LoopFacts.

(** What a finished loop has done, by the number of its sleeps. *)
Lemma monitor_loop_facts (fuel : nat) (w : world)
    (params : timerlat_top_params) (k : nat) (d : timerlat_top_data)
    (r : loop_result) :
  monitor_loop fuel w params k d = Ret r ->
  handle_events d (polled w k (count_events is_sleep (lr_events r)))
    = Some (lr_data r)
  /\ Forall (fun e => is_io e = true) (lr_events r)
  /\ (forall s, sleep s ∈ lr_events r -> s = sleep_time params)
  /\ (quiet params = 0 ->
      (renders (lr_events r)
       + match lr_exit r with IngestError => 1 | _ => 0 end)%nat
      = count_events is_sleep (lr_events r))
  /\ (forall i, (i < count_events is_sleep (lr_events r))%nat ->
                stop_tracing_at w (k + i) = false)
  /\ (forall i, (S i < count_events is_sleep (lr_events r))%nat ->
                trace_is_on_in_loop w (k + i) = true
                /\ 0 <= snd (iterate_raw_events w (k + i)))
  /\ match lr_exit r with
     | StopRequested =>
         stop_tracing_at w (k + count_events is_sleep (lr_events r)) = true
     | TracerInactive =>
         exists j, count_events is_sleep (lr_events r) = S j
                   /\ trace_is_on_in_loop w (k + j) = false
                   /\ 0 <= snd (iterate_raw_events w (k + j))
     | IngestError =>
         exists j, count_events is_sleep (lr_events r) = S j
                   /\ snd (iterate_raw_events w (k + j)) < 0
     end.
Proof.
  revert k d r. induction fuel as [|fuel IH]; intros k d r Hrun;
    [discriminate|].
  apply monitor_loop_unfold in Hrun
    as [[Hstop ->]|(Hstop & d' & shown & Hd' & Hrest)].
  { simpl. rewrite Nat.add_0_r.
    repeat split; auto; try (intros; lia).
    intros s Hs. inversion Hs. }
  destruct Hrest as [[Hneg ->]|(Hpos & Hshown & Hnext)].
  { simpl. rewrite app_nil_r.
    repeat split; auto; try (intros; lia).
    - intros s Hs. apply elem_of_cons in Hs as [[= ->]|Hs]; [reflexivity|].
      apply elem_of_cons in Hs as [Hs|Hs]; [discriminate | inversion Hs].
    - intros i Hi. assert (i = 0%nat) as -> by lia.
      rewrite Nat.add_0_r. exact Hstop.
    - exists 0%nat. rewrite Nat.add_0_r. auto. }
  assert (count_events is_sleep shown = 0%nat
          /\ Forall (fun e => is_io e = true) shown
          /\ (forall s, sleep s ∈ shown -> False)
          /\ (quiet params = 0 -> renders shown = 1%nat))
    as (Hs0 & Hio & Hnos & Hren).
  { destruct Hshown as [(Hq & text & _ & ->)|(Hq & ->)]; simpl.
    - repeat split; auto.
      intros s Hs. apply elem_of_cons in Hs as [Hs|Hs];
        [discriminate | inversion Hs].
    - repeat split; auto; [|contradiction].
      intros s Hs. inversion Hs. }
  destruct Hnext as [[Hoff ->]|(Hon & r' & Hloop & ->)].
  - simpl. rewrite Hs0, app_nil_r.
    split; [|split; [|split; [|split; [|split; [|split]]]]].
    + exact Hd'.
    + constructor; [reflexivity | exact Hio].
    + intros s Hs. apply elem_of_cons in Hs as [[= ->]|Hs]; [reflexivity|].
      destruct (Hnos _ Hs).
    + intros Hq. rewrite (Hren Hq). reflexivity.
    + intros i Hi. assert (i = 0%nat) as -> by lia.
      rewrite Nat.add_0_r. exact Hstop.
    + intros i Hi. lia.
    + exists 0%nat. rewrite Nat.add_0_r. auto.
  - destruct (IH _ _ _ Hloop)
      as (Hdata & Hio' & Hsl & Hren' & Hstops & Hons & Hexit).
    unfold prepend. cbn [lr_events lr_exit lr_data].
    change ((sleep (sleep_time params) :: shown) ++ lr_events r')
      with (sleep (sleep_time params) :: (shown ++ lr_events r')).
    cbn [count_events is_sleep renders].
    rewrite !count_events_app, !renders_app, Hs0. simpl Nat.add.
    set (m := count_events is_sleep (lr_events r')) in *.
    split; [|split; [|split; [|split; [|split; [|split]]]]].
    + simpl. rewrite handle_events_app, Hd'. simpl. exact Hdata.
    + constructor; [reflexivity|]. apply Forall_app. auto.
    + intros s Hs. apply elem_of_cons in Hs as [[= ->]|Hs]; [reflexivity|].
      apply elem_of_app in Hs as [Hs|Hs]; [destruct (Hnos _ Hs) | auto].
    + intros Hq. rewrite (Hren Hq), <- (Hren' Hq). simpl. reflexivity.
    + intros i Hi. destruct i as [|i]; [rewrite Nat.add_0_r; exact Hstop|].
      replace (k + S i)%nat with (S k + i)%nat by lia. apply Hstops. lia.
    + intros i Hi. destruct i as [|i].
      * rewrite Nat.add_0_r. auto.
      * replace (k + S i)%nat with (S k + i)%nat by lia. apply Hons. lia.
    + destruct (lr_exit r').
      * replace (k + S m)%nat with (S k + m)%nat by lia. exact Hexit.
      * destruct Hexit as (j & Hj & Hoff & Hrc). exists (S j).
        replace (k + S j)%nat with (S k + j)%nat by lia. auto.
      * destruct Hexit as (j & Hj & Hrc). exists (S j).
        replace (k + S j)%nat with (S k + j)%nat by lia. auto.
Qed.

End LoopFacts.

(** ** The shape of a run *)

Section Shape.

Lemma timerlat_top_apply_config_msgs (w : world) (params : timerlat_top_params) :
  snd (fst (timerlat_top_apply_config w params)) = []
  \/ exists m, snd (fst (timerlat_top_apply_config w params)) = [err_msg m].
Proof.
  unfold timerlat_top_apply_config.
  repeat match goal with
         | |- context [if ?b then _ else _] => destruct b
         end; simpl; eauto.
Qed.

Lemma timerlat_init_top_some (w : world) (data : timerlat_top_data) :
  snd (timerlat_init_top w) = Some data ->
  fst (timerlat_init_top w) = []
  /\ init_tool_ok w = true
  /\ timerlat_alloc_top true true (nprocessors_conf w) = Some data
  /\ calloc_data_ok w = true /\ calloc_table_ok w = true.
Proof.
  unfold timerlat_init_top. destruct (init_tool_ok w); simpl; [|discriminate].
  destruct (calloc_data_ok w), (calloc_table_ok w); simpl; try discriminate.
  intros [= <-]. auto.
Qed.

Lemma timerlat_init_top_none (w : world) :
  snd (timerlat_init_top w) = None ->
  (init_tool_ok w = false /\ fst (timerlat_init_top w) = [])
  \/ (init_tool_ok w = true
      /\ (calloc_data_ok w = false \/ calloc_table_ok w = false)
      /\ fst (timerlat_init_top w)
         = alloc_cleanup (calloc_data_ok w) (calloc_table_ok w)
           ++ [osnoise_destroy_tool TopTool]).
Proof.
  unfold timerlat_init_top. destruct (init_tool_ok w); simpl; [|auto].
  destruct (calloc_data_ok w), (calloc_table_ok w); simpl;
    try discriminate; intros _; right; auto.
Qed.

(** The four ways [timerlat_top_main] runs: [timerlat_init_top] fails;
    a step before the start of the record tool fails; the record tool
    cannot be set up; the loop is entered. *)
Lemma timerlat_top_main_shape (fuel : nat) (w : world)
    (params0 : timerlat_top_params) (r : run) :
  timerlat_top_main fuel w params0 = Ret r ->
  let params := fst (fst (timerlat_top_apply_config w params0)) in
  (snd (timerlat_init_top w) = None
   /\ exists m,
        r = mk_run (fst (timerlat_init_top w) ++ [err_msg m]) [] None [] [] 1)
  \/ (exists data msgs m,
        snd (timerlat_init_top w) = Some data
        /\ (msgs = [] \/ exists m', msgs = [err_msg m'])
        /\ (snd (timerlat_top_apply_config w params0) <> 0
            \/ enable_timerlat_rc w <> 0
            \/ (set_sched params <> 0 /\ set_comm_sched_attr_rc w <> 0))
        /\ r = mk_run (msgs ++ [err_msg m]) [] None []
                      (out_top params Uninitialised) 1)
  \/ (exists data m,
        snd (timerlat_init_top w) = Some data
        /\ (snd (timerlat_top_apply_config w params0) = 0
            /\ enable_timerlat_rc w = 0
            /\ (set_sched params = 0 \/ set_comm_sched_attr_rc w = 0))
        /\ trace_output params <> None
        /\ init_trace_tool_ok w = false
        /\ r = mk_run [trace_instance_start TopTool; err_msg m] [] None []
                      (out_top params NullTool) 1)
  \/ (exists data lr drained,
        snd (timerlat_init_top w) = Some data
        /\ (snd (timerlat_top_apply_config w params0) = 0
            /\ enable_timerlat_rc w = 0
            /\ (set_sched params = 0 \/ set_comm_sched_attr_rc w = 0))
        /\ monitor_loop fuel w params 0 data = Ret lr
        /\ (lr_exit lr = IngestError -> drained = [])
        /\ (lr_exit lr <> IngestError ->
            after_loop w params (lr_data lr) = Ret drained)
        /\ r = mk_run
                 (trace_instance_start TopTool ::
                  match trace_output params with
                  | Some _ => [trace_instance_start RecordTool]
                  | None => []
                  end ++ timerlat_top_set_signals params)
                 (lr_events lr) (Some (lr_exit lr)) drained
                 (out_top params RecordTool)
                 (match lr_exit lr with IngestError => 1 | _ => 0 end)).
Proof.
  unfold timerlat_top_main.
  pose proof (timerlat_init_top_some w) as Hsome.
  pose proof (timerlat_top_apply_config_msgs w params0) as Hmsgs.
  destruct (timerlat_top_apply_config_quiet w params0) as (_ & _ & Hnil).
  destruct (timerlat_init_top w) as [evs [data|]]; simpl fst in *; simpl snd in *;
    [|intros [= <-]; left; eauto].
  destruct (Hsome data eq_refl) as (-> & _).
  destruct (timerlat_top_apply_config w params0) as [[params msgs] retval].
  simpl fst in *. simpl snd in *. simpl app.
  destruct (Z.eqb_spec retval 0) as [Hrv|Hrv]; simpl negb; cbv iota.
  2:{ intros [= <-]. right. left. exists data, msgs. eauto 10. }
  rewrite (Hnil Hrv). simpl app.
  destruct (Z.eqb_spec (enable_timerlat_rc w) 0) as [Hen|Hen]; simpl negb;
    cbv iota.
  2:{ intros [= <-]. right. left. exists data, []. eauto 10. }
  destruct (Z.eqb_spec (set_sched params) 0) as [Hss|Hss];
    destruct (Z.eqb_spec (set_comm_sched_attr_rc w) 0) as [Hsc|Hsc];
    simpl negb; simpl andb; cbv iota;
    try (intros [= <-]; right; left; exists data, []; eauto 12).
  all: destruct (trace_output params) as [file|] eqn:Hto;
    [rewrite bool_decide_true by discriminate
    |rewrite bool_decide_false by (intros H; apply H; reflexivity)];
    simpl andb; cbv iota.
  all: try (destruct (init_trace_tool_ok w) eqn:Hrec; simpl negb; cbv iota;
            [|intros [= <-]; right; right; left; exists data;
              eexists; repeat split; auto; discriminate]).
  all: destruct (monitor_loop fuel w params 0 data) as [lr| |] eqn:Hloop; simpl;
    try discriminate.
  all: destruct (lr_exit lr) eqn:Hexit;
    [destruct (after_loop w params (lr_data lr)) as [drained| |] eqn:Hafter;
       simpl; try discriminate;
       intros [= <-]; right; right; right; exists data, lr, drained
    |destruct (after_loop w params (lr_data lr)) as [drained| |] eqn:Hafter;
       simpl; try discriminate;
       intros [= <-]; right; right; right; exists data, lr, drained
    |intros [= <-]; right; right; right; exists data, lr, []];
    (split; [reflexivity|]); (split; [auto|]);
    (split; [first [exact Hloop | reflexivity]|]);
    (split; [intros; try reflexivity; congruence|]);
    (split; [intros; try assumption; congruence|]);
    rewrite ?Hexit; reflexivity.
Qed.

End Shape.

(** ** Configuration *)

Section Config.

Lemma timerlat_top_apply_config_params (w : world)
    (params : timerlat_top_params) :
  fst (fst (timerlat_top_apply_config w params))
  = if sleep_time params =? 0 then
      mk_params (cpus params) (monitored_cpus params) (trace_output params)
                (stop_us params) (stop_total_us params)
                (timerlat_period_us params) (print_stack params)
                1 (output_divisor params) (duration params) (quiet params)
                (set_sched params)
    else params.
Proof.
  unfold timerlat_top_apply_config.
  repeat match goal with
         | |- context [if ?b then _ else _] => destruct b
         end; reflexivity.
Qed.

Lemma guard_false_iff (x rc : Z) :
  negb (x =? 0) && negb (rc =? 0) = false <-> (x <> 0 -> rc = 0).
Proof.
  destruct (Z.eqb_spec x 0), (Z.eqb_spec rc 0); simpl;
    intuition (try congruence).
Qed.

(** [timerlat_top_apply_config] returns 0 exactly when every setting
    that was asked for could be applied, a setting that was not asked
    for being left alone whatever its setter would answer; otherwise it
    returns -1 after one message. *)
Theorem apply_config_succeeds_iff (w : world) (params : timerlat_top_params) :
  (snd (timerlat_top_apply_config w params) = 0
   <-> (cpus params <> None -> set_cpus_rc w = 0)
       /\ (stop_us params <> 0 -> set_stop_us_rc w = 0)
       /\ (stop_total_us params <> 0 -> set_stop_total_us_rc w = 0)
       /\ (timerlat_period_us params <> 0 -> set_timerlat_period_us_rc w = 0)
       /\ (print_stack params <> 0 -> set_print_stack_rc w = 0))
  /\ ((snd (timerlat_top_apply_config w params) = 0
       /\ snd (fst (timerlat_top_apply_config w params)) = [])
      \/ (snd (timerlat_top_apply_config w params) = -1
          /\ exists m, snd (fst (timerlat_top_apply_config w params))
                       = [err_msg m])).
Proof.
  rewrite <- !guard_false_iff.
  assert (bool_decide (cpus params <> None) && negb (set_cpus_rc w =? 0) = false
          <-> (cpus params <> None -> set_cpus_rc w = 0)) as <-.
  { destruct (cpus params) as [c|];
      [rewrite bool_decide_true by discriminate
      |rewrite bool_decide_false by (intros H; apply H; reflexivity)];
      destruct (Z.eqb_spec (set_cpus_rc w) 0); simpl;
      intuition (try congruence). }
  unfold timerlat_top_apply_config.
  assert (forall p q : timerlat_top_params,
             cpus p = cpus q -> stop_us p = stop_us q ->
             stop_total_us p = stop_total_us q ->
             timerlat_period_us p = timerlat_period_us q ->
             print_stack p = print_stack q ->
             let g1 := bool_decide (cpus q <> None) && negb (set_cpus_rc w =? 0) in
             let g2 := negb (stop_us q =? 0) && negb (set_stop_us_rc w =? 0) in
             let g3 := negb (stop_total_us q =? 0)
                       && negb (set_stop_total_us_rc w =? 0) in
             let g4 := negb (timerlat_period_us q =? 0)
                       && negb (set_timerlat_period_us_rc w =? 0) in
             let g5 := negb (print_stack q =? 0)
                       && negb (set_print_stack_rc w =? 0) in
             let res :=
               if bool_decide (cpus p <> None) && negb (set_cpus_rc w =? 0)
               then (p, [err_msg ("Failed to apply CPUs config" +:+ Fmt.NL)], -1)
               else if negb (stop_us p =? 0) && negb (set_stop_us_rc w =? 0)
               then (p, [err_msg ("Failed to set stop us" +:+ Fmt.NL)], -1)
               else if negb (stop_total_us p =? 0)
                       && negb (set_stop_total_us_rc w =? 0)
               then (p, [err_msg ("Failed to set stop total us" +:+ Fmt.NL)], -1)
               else if negb (timerlat_period_us p =? 0)
                       && negb (set_timerlat_period_us_rc w =? 0)
               then (p, [err_msg ("Failed to set timerlat period" +:+ Fmt.NL)], -1)
               else if negb (print_stack p =? 0)
                       && negb (set_print_stack_rc w =? 0)
               then (p, [err_msg ("Failed to set print stack" +:+ Fmt.NL)], -1)
               else (p, [], 0) in
             (snd res = 0
              <-> g1 = false /\ g2 = false /\ g3 = false /\ g4 = false
                  /\ g5 = false)
             /\ ((snd res = 0 /\ snd (fst res) = [])
                 \/ (snd res = -1 /\ exists m, snd (fst res) = [err_msg m])))
    as Hchain.
  { intros p q -> -> -> -> ->. cbv zeta.
    destruct (bool_decide (cpus q <> None) && negb (set_cpus_rc w =? 0));
      [simpl; split; [split; [discriminate | intros (? & _); discriminate]
                     | right; eauto]|].
    destruct (negb (stop_us q =? 0) && negb (set_stop_us_rc w =? 0));
      [simpl; split; [split; [discriminate | intros (_ & ? & _); discriminate]
                     | right; eauto]|].
    destruct (negb (stop_total_us q =? 0) && negb (set_stop_total_us_rc w =? 0));
      [simpl; split; [split; [discriminate
                             | intros (_ & _ & ? & _); discriminate]
                     | right; eauto]|].
    destruct (negb (timerlat_period_us q =? 0)
              && negb (set_timerlat_period_us_rc w =? 0));
      [simpl; split; [split; [discriminate
                             | intros (_ & _ & _ & ? & _); discriminate]
                     | right; eauto]|].
    destruct (negb (print_stack q =? 0) && negb (set_print_stack_rc w =? 0));
      [simpl; split; [split; [discriminate
                             | intros (_ & _ & _ & _ & ?); discriminate]
                     | right; eauto]|].
    simpl. split; [split; auto | left; auto]. }
  destruct (sleep_time params =? 0); apply Hchain; reflexivity.
Qed.

End Config.

(** ** More on runs *)

Section RunFacts.

Lemma after_loop_io (w : world) (params : timerlat_top_params)
    (data : timerlat_top_data) (evs : list event) :
  after_loop w params data = Ret evs ->
  Forall (fun e => is_io e = true) evs
  /\ exists text rest,
       timerlat_print_stats (nprocessors_conf w) (config_debug w)
         (duration_after_loop w) params data = Some text
       /\ evs = print_stats text :: rest.
Proof.
  unfold after_loop.
  destruct (timerlat_print_stats _ _ _ params data) as [text|]; simpl;
    [|discriminate].
  intros [= <-]. split; [|eauto].
  destruct (trace_is_on_after_loop w), (trace_output params); simpl;
    repeat constructor.
Qed.

Lemma out_top_counts (params : timerlat_top_params) (t : tool_ptr) :
  t <> TopTool ->
  count_events is_destroy_top (out_top params t) = 1%nat
  /\ count_events is_free_top (out_top params t) = 1%nat
  /\ count_events is_free_params (out_top params t) = 1%nat
  /\ count_events is_start_record (out_top params t) = 0%nat.
Proof.
  intros Ht. unfold out_top.
  destruct (trace_output params), t; simpl; auto; contradiction.
Qed.

Lemma timerlat_top_set_signals_counts (f : event -> bool)
    (params : timerlat_top_params) :
  (forall n, f (signal n) = false) -> (forall s, f (alarm s) = false) ->
  count_events f (timerlat_top_set_signals params) = 0%nat.
Proof.
  intros Hsig Halarm. unfold timerlat_top_set_signals.
  destruct (duration params =? 0); simpl; rewrite ?Hsig, ?Halarm; reflexivity.
Qed.

(** Every sleep of the loop lasts [sleep_time] seconds, or one second
    when no sleep time is set; no sleep is of zero seconds. *)
Theorem sleeps_are_configured (fuel : nat) (w : world)
    (params : timerlat_top_params) (r : run) (s : Z) :
  timerlat_top_main fuel w params = Ret r ->
  sleep s ∈ running_events r ->
  s = (if sleep_time params =? 0 then 1 else sleep_time params) /\ s <> 0.
Proof.
  intros Hmain Hs.
  destruct (timerlat_top_main_shape _ _ _ _ Hmain)
    as [(_ & m & ->)|[(data & msgs & m & _ & _ & _ & ->)
       |[(data & m & _ & _ & _ & _ & ->)
        |(data & lr & drained & _ & _ & Hloop & _ & _ & ->)]]];
    simpl in Hs; try (inversion Hs; fail).
  destruct (monitor_loop_facts _ _ _ _ _ _ Hloop) as (_ & _ & Hsl & _).
  rewrite (Hsl _ Hs), timerlat_top_apply_config_params.
  destruct (Z.eqb_spec (sleep_time params) 0); simpl; split; auto; lia.
Qed.

(** Without quiet every turn of the loop that polls without error
    renders once: the renders of the loop are as many as its sleeps,
    less one when the loop ends on a failed poll. *)
Theorem one_render_per_iteration (fuel : nat) (w : world)
    (params : timerlat_top_params) (r : run) :
  timerlat_top_main fuel w params = Ret r ->
  quiet params = 0 ->
  (renders (running_events r)
   + match left_loop r with Some IngestError => 1 | _ => 0 end)%nat
  = count_events is_sleep (running_events r).
Proof.
  intros Hmain Hq.
  destruct (timerlat_top_main_shape _ _ _ _ Hmain)
    as [(_ & m & ->)|[(data & msgs & m & _ & _ & _ & ->)
       |[(data & m & _ & _ & _ & _ & ->)
        |(data & lr & drained & _ & _ & Hloop & _ & _ & ->)]]];
    simpl; try reflexivity.
  destruct (monitor_loop_facts _ _ _ _ _ _ Hloop) as (_ & _ & _ & Hren & _).
  rewrite <- Hren.
  - destruct (lr_exit lr); reflexivity.
  - rewrite timerlat_top_apply_config_params.
    destruct (sleep_time params =? 0); exact Hq.
Qed.

(** The final snapshot shows every sample of every poll: in a run that
    leaves the loop by the stop flag or by the tracer reporting tracing
    off, the first event after the loop is the render of the freshly
    allocated table after the records of all polls, one poll per sleep,
    applied in arrival order. *)
Theorem final_snapshot_shows_all_polls (fuel : nat) (w : world)
    (params : timerlat_top_params) (r : run) :
  timerlat_top_main fuel w params = Ret r ->
  left_loop r = Some StopRequested \/ left_loop r = Some TracerInactive ->
  exists d0 d text rest,
    timerlat_alloc_top true true (nprocessors_conf w) = Some d0
    /\ handle_events d0
         (polled w 0 (count_events is_sleep (running_events r))) = Some d
    /\ timerlat_print_stats (nprocessors_conf w) (config_debug w)
         (duration_after_loop w)
         (fst (fst (timerlat_top_apply_config w params))) d = Some text
    /\ draining_events r = print_stats text :: rest.
Proof.
  intros Hmain Hleft.
  destruct (timerlat_top_main_shape _ _ _ _ Hmain)
    as [(_ & m & ->)|[(data & msgs & m & _ & _ & _ & ->)
       |[(data & m & _ & _ & _ & _ & ->)
        |(data & lr & drained & Hinit & _ & Hloop & _ & Hafter & ->)]]];
    simpl in Hleft; try (destruct Hleft; discriminate).
  destruct (timerlat_init_top_some _ _ Hinit) as (_ & _ & Halloc & _).
  destruct (monitor_loop_facts _ _ _ _ _ _ Hloop) as (Hdata & _).
  destruct (after_loop_io _ _ _ _ (Hafter ltac:(destruct Hleft; congruence)))
    as (_ & text & rest & Htext & ->).
  exists data, (lr_data lr), text, rest. simpl. auto.
Qed.

(** Why the loop ended, by the number [m] of its sleeps: before each of
    its [m] turns the stop flag was clear, each turn but the last
    polled without error and found the tracer on, and the loop was left
    because test number [m] of the loop condition found the flag set,
    or because the last turn found the tracer off after a poll without
    error, or because the poll of the last turn failed. *)
Theorem loop_exit_reason_sound (fuel : nat) (w : world)
    (params : timerlat_top_params) (r : run) :
  timerlat_top_main fuel w params = Ret r ->
  (forall i, (i < count_events is_sleep (running_events r))%nat ->
             stop_tracing_at w i = false)
  /\ (forall i, (S i < count_events is_sleep (running_events r))%nat ->
                trace_is_on_in_loop w i = true
                /\ 0 <= snd (iterate_raw_events w i))
  /\ match left_loop r with
     | Some StopRequested =>
         stop_tracing_at w (count_events is_sleep (running_events r)) = true
     | Some TracerInactive =>
         exists j, count_events is_sleep (running_events r) = S j
                   /\ trace_is_on_in_loop w j = false
                   /\ 0 <= snd (iterate_raw_events w j)
     | Some IngestError =>
         exists j, count_events is_sleep (running_events r) = S j
                   /\ snd (iterate_raw_events w j) < 0
     | None => running_events r = []
     end.
Proof.
  intros Hmain.
  destruct (timerlat_top_main_shape _ _ _ _ Hmain)
    as [(_ & m & ->)|[(data & msgs & m & _ & _ & _ & ->)
       |[(data & m & _ & _ & _ & _ & ->)
        |(data & lr & drained & _ & _ & Hloop & _ & _ & ->)]]];
    simpl; try (repeat split; intros; (lia || reflexivity)).
  destruct (monitor_loop_facts _ _ _ _ _ _ Hloop)
    as (_ & _ & _ & _ & Hstops & Hons & Hexit).
  simpl in Hstops, Hons, Hexit.
  split; [exact Hstops|]. split; [exact Hons|]. exact Hexit.
Qed.

(** The exit status is 0 or 1, and it is 0 exactly when the loop was
    left by the stop flag or by the tracer reporting tracing off. *)
Theorem exit_status_zero_iff (fuel : nat) (w : world)
    (params : timerlat_top_params) (r : run) :
  timerlat_top_main fuel w params = Ret r ->
  (exit_status r = 0
   <-> left_loop r = Some StopRequested \/ left_loop r = Some TracerInactive)
  /\ (exit_status r = 0 \/ exit_status r = 1).
Proof.
  intros Hmain.
  destruct (timerlat_top_main_shape _ _ _ _ Hmain)
    as [(_ & m & ->)|[(data & msgs & m & _ & _ & _ & ->)
       |[(data & m & _ & _ & _ & _ & ->)
        |(data & lr & drained & _ & _ & Hloop & _ & _ & ->)]]];
    simpl;
    try (split; [split; [discriminate | intros [|]; discriminate] | auto]).
  destruct (lr_exit lr); simpl;
    (split; [split; [auto | reflexivity || (intros [|]; discriminate)] | auto]);
    discriminate.
Qed.

(** What was set up is torn down once, in every run that does not
    hand the unassigned [record] to [osnoise_destroy_tool]: the tool is
    destroyed once when [osnoise_init_tool] had returned one and not at
    all otherwise; [timerlat_free_top] is called once when the first
    [calloc] of [timerlat_alloc_top] had succeeded, be it at the label
    [cleanup] or at [out_top], and not at all otherwise; the parameters
    are freed once when [timerlat_init_top] had succeeded and not at
    all otherwise. *)
Theorem resources_released_once (fuel : nat) (w : world)
    (params : timerlat_top_params) (r : run) :
  timerlat_top_main fuel w params = Ret r ->
  count_events is_destroy_unassigned (trace_of r) = 0%nat ->
  count_events is_destroy_top (trace_of r)
    = (if init_tool_ok w then 1 else 0)%nat
  /\ count_events is_free_top (trace_of r)
     = (if init_tool_ok w && calloc_data_ok w then 1 else 0)%nat
  /\ count_events is_free_params (trace_of r)
     = (if init_tool_ok w && calloc_data_ok w && calloc_table_ok w
        then 1 else 0)%nat.
Proof.
  intros Hmain _. unfold trace_of.
  destruct (timerlat_top_main_shape _ _ _ _ Hmain)
    as [(Hnone & m & ->)|[(data & msgs & m & Hinit & Hmsgs & _ & ->)
       |[(data & m & Hinit & _ & _ & _ & ->)
        |(data & lr & drained & Hinit & _ & Hloop & Herr & Hafter & ->)]]];
    cbn [init_events running_events draining_events stopped_events].
  - destruct (timerlat_init_top_none _ Hnone)
      as [(-> & ->)|(-> & Hfail & ->)]; [simpl; auto|].
    unfold alloc_cleanup.
    destruct (calloc_data_ok w), (calloc_table_ok w); simpl; auto;
      destruct Hfail; discriminate.
  - destruct (timerlat_init_top_some _ _ Hinit) as (_ & -> & _ & -> & ->).
    destruct (out_top_counts (fst (fst (timerlat_top_apply_config w params)))
                Uninitialised ltac:(discriminate)) as (H1 & H2 & H3 & _).
    rewrite !count_events_app, H1, H2, H3.
    destruct Hmsgs as [->|[m' ->]]; simpl; auto.
  - destruct (timerlat_init_top_some _ _ Hinit) as (_ & -> & _ & -> & ->).
    destruct (out_top_counts (fst (fst (timerlat_top_apply_config w params)))
                NullTool ltac:(discriminate)) as (H1 & H2 & H3 & _).
    rewrite !count_events_app, H1, H2, H3. simpl. auto.
  - destruct (timerlat_init_top_some _ _ Hinit) as (_ & -> & _ & -> & ->).
    destruct (out_top_counts (fst (fst (timerlat_top_apply_config w params)))
                RecordTool ltac:(discriminate)) as (H1 & H2 & H3 & _).
    destruct (monitor_loop_facts _ _ _ _ _ _ Hloop) as (_ & Hio & _).
    assert (Forall (fun e => is_io e = true) drained) as Hio'.
    { destruct (lr_exit lr) eqn:Hexit;
        try (rewrite Herr by reflexivity; constructor);
        eapply after_loop_io, Hafter; discriminate. }
    rewrite !count_events_app.
    cbn [count_events is_destroy_top is_free_top is_free_params].
    rewrite !count_events_app, H1, H2, H3.
    rewrite !(count_events_io _ (lr_events lr)), !(count_events_io _ drained),
      !timerlat_top_set_signals_counts;
      try assumption; try reflexivity;
      try (intros [] He; (reflexivity || discriminate)).
    destruct (trace_output _); simpl; auto.
Qed.

End RunFacts.

(** ** The record tool *)

Section RecordTool.

Lemma out_top_record_counts (params : timerlat_top_params) (t : tool_ptr) :
  count_events is_destroy_record (out_top params t)
    = match t, trace_output params with
      | RecordTool, Some _ => 1%nat
      | _, _ => 0%nat
      end
  /\ count_events is_destroy_unassigned (out_top params t)
     = match t, trace_output params with
       | Uninitialised, Some _ => 1%nat
       | _, _ => 0%nat
       end.
Proof. unfold out_top. destruct (trace_output params), t; simpl; auto. Qed.

Lemma timerlat_top_apply_config_same (w : world)
    (params : timerlat_top_params) :
  trace_output (fst (fst (timerlat_top_apply_config w params)))
    = trace_output params
  /\ set_sched (fst (fst (timerlat_top_apply_config w params)))
     = set_sched params.
Proof.
  rewrite timerlat_top_apply_config_params.
  destruct (sleep_time params =? 0); auto.
Qed.

(** The record tool is started exactly in the runs that enter the loop
    with an output file set, once, and in those runs it is destroyed
    once; in all other runs it is neither started nor destroyed. *)
Theorem record_tool_lifecycle (fuel : nat) (w : world)
    (params : timerlat_top_params) (r : run) :
  timerlat_top_main fuel w params = Ret r ->
  count_events is_start_record (trace_of r)
    = count_events is_destroy_record (trace_of r)
  /\ count_events is_start_record (trace_of r)
     = match left_loop r, trace_output params with
       | Some _, Some _ => 1%nat
       | _, _ => 0%nat
       end.
Proof.
  intros Hmain. unfold trace_of.
  destruct (timerlat_top_apply_config_same w params) as [Hto _].
  destruct (timerlat_top_main_shape _ _ _ _ Hmain)
    as [(Hnone & m & ->)|[(data & msgs & m & Hinit & Hmsgs & _ & ->)
       |[(data & m & Hinit & _ & _ & _ & ->)
        |(data & lr & drained & Hinit & _ & Hloop & Herr & Hafter & ->)]]];
    cbn [init_events running_events draining_events stopped_events left_loop].
  - destruct (timerlat_init_top_none _ Hnone) as [(_ & ->)|(_ & _ & ->)];
      unfold alloc_cleanup;
      try destruct (calloc_data_ok w && negb (calloc_table_ok w));
      simpl; auto.
  - destruct (out_top_counts (fst (fst (timerlat_top_apply_config w params)))
                Uninitialised ltac:(discriminate)) as (_ & _ & _ & H4).
    destruct (out_top_record_counts
                (fst (fst (timerlat_top_apply_config w params))) Uninitialised)
      as [H5 _].
    rewrite !count_events_app, H4, H5.
    destruct Hmsgs as [->|[m' ->]]; simpl; auto.
  - destruct (out_top_counts (fst (fst (timerlat_top_apply_config w params)))
                NullTool ltac:(discriminate)) as (_ & _ & _ & H4).
    destruct (out_top_record_counts
                (fst (fst (timerlat_top_apply_config w params))) NullTool)
      as [H5 _].
    rewrite !count_events_app, H4, H5. simpl. auto.
  - destruct (out_top_counts (fst (fst (timerlat_top_apply_config w params)))
                RecordTool ltac:(discriminate)) as (_ & _ & _ & H4).
    destruct (out_top_record_counts
                (fst (fst (timerlat_top_apply_config w params))) RecordTool)
      as [H5 _].
    destruct (monitor_loop_facts _ _ _ _ _ _ Hloop) as (_ & Hio & _).
    assert (Forall (fun e => is_io e = true) drained) as Hio'.
    { destruct (lr_exit lr) eqn:Hexit;
        try (rewrite Herr by reflexivity; constructor);
        eapply after_loop_io, Hafter; discriminate. }
    rewrite !count_events_app.
    cbn [count_events is_start_record is_destroy_record].
    rewrite !count_events_app, H4, H5.
    rewrite !(count_events_io _ (lr_events lr)), !(count_events_io _ drained),
      !timerlat_top_set_signals_counts;
      try assumption; try reflexivity;
      try (intros [] He; (reflexivity || discriminate)).
    rewrite Hto. destruct (trace_output params); simpl; auto.
Qed.

(** [record] is handed to [osnoise_destroy_tool] before it was ever
    assigned exactly in the runs in which an output file is set,
    [timerlat_init_top] succeeded, and the configuration, the enabling
    of the tracer or the scheduling parameters failed: [out_top] is
    then reached before [osnoise_init_trace_tool] was called. *)
Theorem unassigned_record_destroyed (fuel : nat) (w : world)
    (params : timerlat_top_params) (r : run) :
  timerlat_top_main fuel w params = Ret r ->
  (count_events is_destroy_unassigned (trace_of r) = 1%nat
   <-> trace_output params <> None
       /\ snd (timerlat_init_top w) <> None
       /\ (snd (timerlat_top_apply_config w params) <> 0
           \/ enable_timerlat_rc w <> 0
           \/ (set_sched params <> 0 /\ set_comm_sched_attr_rc w <> 0)))
  /\ (count_events is_destroy_unassigned (trace_of r) = 0%nat
      \/ count_events is_destroy_unassigned (trace_of r) = 1%nat).
Proof.
  intros Hmain. unfold trace_of.
  destruct (timerlat_top_apply_config_same w params) as [Hto Hss].
  destruct (timerlat_top_main_shape _ _ _ _ Hmain)
    as [(Hnone & m & ->)|[(data & msgs & m & Hinit & Hmsgs & Hwhy & ->)
       |[(data & m & Hinit & (Hrv & Hen & Hsc) & _ & _ & ->)
        |(data & lr & drained & Hinit & (Hrv & Hen & Hsc) & Hloop & Herr
          & Hafter & ->)]]];
    cbn [init_events running_events draining_events stopped_events].
  - assert (count_events is_destroy_unassigned
              (fst (timerlat_init_top w) ++ [err_msg m]) = 0%nat) as Hzero.
    { destruct (timerlat_init_top_none _ Hnone) as [(_ & ->)|(_ & _ & ->)];
        unfold alloc_cleanup;
        try destruct (calloc_data_ok w && negb (calloc_table_ok w));
        reflexivity. }
    rewrite !count_events_app in *. simpl in *. rewrite Nat.add_0_r.
    rewrite Nat.add_0_r in Hzero. rewrite Hzero.
    split; [|auto]. split; [discriminate|]. intros (_ & H & _). contradiction.
  - destruct (out_top_record_counts
                (fst (fst (timerlat_top_apply_config w params))) Uninitialised)
      as [_ H5].
    rewrite !count_events_app, H5, Hto.
    assert (count_events is_destroy_unassigned msgs = 0%nat)
      as -> by (destruct Hmsgs as [->|[m' ->]]; reflexivity).
    rewrite Hss in Hwhy. rewrite Hinit.
    destruct (trace_output params); simpl; (split; [|auto]); split;
      try discriminate; intros; repeat split; auto; try discriminate.
    destruct H as (H & _). contradiction.
  - destruct (out_top_record_counts
                (fst (fst (timerlat_top_apply_config w params))) NullTool)
      as [_ H5].
    rewrite !count_events_app, H5. simpl.
    split; [|auto]. split; [discriminate|].
    rewrite Hss in Hsc. intros (_ & _ & [H|[H|[H1 H2]]]);
      try contradiction; destruct Hsc; contradiction.
  - destruct (out_top_record_counts
                (fst (fst (timerlat_top_apply_config w params))) RecordTool)
      as [_ H5].
    destruct (monitor_loop_facts _ _ _ _ _ _ Hloop) as (_ & Hio & _).
    assert (Forall (fun e => is_io e = true) drained) as Hio'.
    { destruct (lr_exit lr) eqn:Hexit;
        try (rewrite Herr by reflexivity; constructor);
        eapply after_loop_io, Hafter; discriminate. }
    rewrite !count_events_app.
    cbn [count_events is_destroy_unassigned].
    rewrite !count_events_app, H5.
    rewrite !(count_events_io _ (lr_events lr)), !(count_events_io _ drained),
      !timerlat_top_set_signals_counts;
      try assumption; try reflexivity;
      try (intros [] He; (reflexivity || discriminate)).
    assert (count_events is_destroy_unassigned
              match trace_output (fst (fst (timerlat_top_apply_config w params)))
              with
              | Some _ => [trace_instance_start RecordTool]
              | None => []
              end = 0%nat) as ->
      by (destruct (trace_output _); reflexivity).
    simpl. split; [|auto]. split; [discriminate|].
    rewrite Hss in Hsc. intros (_ & _ & [H|[H|[H1 H2]]]);
      try contradiction; destruct Hsc; contradiction.
Qed.

End RecordTool.

(** ** The command line *)

Section CommandLine.

Lemma parse_option_inv (x : arg_readers) (p p' : timerlat_top_params)
    (debug debug' : bool) (c : getopt_result) :
  parse_option x p debug c = inl (p', debug') ->
  output_divisor p' = (if is_nano c then 1 else output_divisor p)
  /\ (duration p' <> 0 <-> is_duration c = true \/ duration p <> 0)
  /\ (timerlat_period_us p <= 1000000 -> timerlat_period_us p' <= 1000000)
  /\ sleep_time p' = sleep_time p
  /\ (quiet p = 0 \/ quiet p = 1 -> quiet p' = 0 \/ quiet p' = 1)
  /\ (set_sched p = 0 \/ set_sched p = 1 -> set_sched p' = 0 \/ set_sched p' = 1)
  /\ c <> opt_help /\ c <> opt_unknown /\ (forall z, c <> opt_other z).
Proof.
  destruct c; simpl;
    try discriminate;
    try (intros [= <- <-]; simpl;
         repeat split; auto; try discriminate; intuition discriminate).
  - destruct (parse_cpu_list x optarg) as [retval bytes].
    destruct (negb (retval =? 0)); [discriminate|].
    intros [= <- <-]; simpl.
    repeat split; auto; try discriminate; intuition discriminate.
  - destruct (Z.eqb_spec (wrap_int (parse_seconds_duration x optarg)) 0);
      [discriminate|].
    intros [= <- <-]; simpl.
    repeat split; auto; try discriminate.
  - destruct (Z.ltb_spec 1000000 (get_llong_from_str x optarg));
      [discriminate|].
    intros [= <- <-]; simpl.
    repeat split; auto; try discriminate; intuition discriminate.
  - destruct (parse_prio x optarg =? -1); [discriminate|].
    intros [= <- <-]; simpl.
    repeat split; auto; try discriminate; intuition discriminate.
  - destruct optarg as [optarg|];
      intros [= <- <-]; simpl;
      repeat split; auto; try discriminate; intuition discriminate.
Qed.

Lemma parse_options_inv (x : arg_readers) (cs : list getopt_result)
    (p p' : timerlat_top_params) (debug debug' : bool) :
  parse_options x p debug cs = inl (p', debug') ->
  output_divisor p' = (if existsb is_nano cs then 1 else output_divisor p)
  /\ (duration p' <> 0 <-> existsb is_duration cs = true \/ duration p <> 0)
  /\ (timerlat_period_us p <= 1000000 -> timerlat_period_us p' <= 1000000)
  /\ sleep_time p' = sleep_time p
  /\ (quiet p = 0 \/ quiet p = 1 -> quiet p' = 0 \/ quiet p' = 1)
  /\ (set_sched p = 0 \/ set_sched p = 1 -> set_sched p' = 0 \/ set_sched p' = 1)
  /\ forall c, c ∈ cs ->
       c <> opt_help /\ c <> opt_unknown /\ (forall z, c <> opt_other z).
Proof.
  revert p debug. induction cs as [|c cs IH]; intros p debug; simpl.
  - intros [= <- <-].
    split; [reflexivity|]. split; [intuition discriminate|].
    split; [auto|]. split; [reflexivity|]. split; [auto|]. split; [auto|].
    intros c Hc. inversion Hc.
  - destruct (parse_option x p debug c) as [[p1 debug1]|] eqn:Hstep;
      [|discriminate].
    intros Hrest.
    destruct (parse_option_inv _ _ _ _ _ _ Hstep)
      as (Hdiv & Hdur & Hper & Hsl & Hq & Hss & Hc).
    destruct (IH _ _ Hrest)
      as (Hdiv' & Hdur' & Hper' & Hsl' & Hq' & Hss' & Hcs).
    split; [|split; [|split; [|split; [|split; [|split]]]]].
    + rewrite Hdiv', Hdiv. destruct (is_nano c), (existsb is_nano cs);
        reflexivity.
    + rewrite Hdur', Hdur.
      destruct (is_duration c), (existsb is_duration cs); simpl;
        intuition discriminate.
    + auto.
    + congruence.
    + auto.
    + auto.
    + intros c' Hc'. apply elem_of_cons in Hc' as [->|Hc']; auto.
Qed.

Lemma parse_options_exit (x : arg_readers) (cs : list getopt_result)
    (p : timerlat_top_params) (d : bool) (e : parse_result) :
  parse_options x p d cs = inr e -> forall q b, e <> parsed q b.
Proof.
  revert p d. induction cs as [|c cs IH]; intros p d; simpl; [discriminate|].
  destruct (parse_option x p d c) as [[p1 d1]|e1] eqn:Hstep.
  - apply IH.
  - intros [= <-] q b. revert Hstep. destruct c; simpl;
      repeat match goal with
             | |- context [let '(_, _) := ?t in _] => destruct t
             | |- context [if ?b then _ else _] => destruct b
             | |- context [match ?o with Some _ => _ | None => _ end] =>
                 destruct o
             end; intros [= <-]; discriminate.
Qed.

Lemma timerlat_top_parse_args_parsed (calloc_ok : bool) (x : arg_readers)
    (debug debug' : bool) (cs : list getopt_result) (p : timerlat_top_params) :
  timerlat_top_parse_args calloc_ok x debug cs = parsed p debug' ->
  calloc_ok = true /\ geteuid x = 0
  /\ parse_options x initial_params debug cs = inl (p, debug').
Proof.
  unfold timerlat_top_parse_args. destruct calloc_ok; simpl; [|discriminate].
  destruct (parse_options x initial_params debug cs) as [[p1 d1]|e] eqn:Hopts.
  - destruct (Z.eqb_spec (geteuid x) 0); simpl; [|discriminate].
    intros [= <- <-]. auto.
  - intros ->. exfalso.
    eapply parse_options_exit; [exact Hopts | reflexivity].
Qed.

(** After a successful parse the divisor is 1 when [-n] was among the
    options and 1000 otherwise; it is never 0. *)
Theorem parsed_divisor (calloc_ok : bool) (x : arg_readers) (debug debug' : bool)
    (cs : list getopt_result) (p : timerlat_top_params) :
  timerlat_top_parse_args calloc_ok x debug cs = parsed p debug' ->
  output_divisor p = (if existsb is_nano cs then 1 else 1000)
  /\ output_divisor p <> 0.
Proof.
  intros Hparse.
  destruct (timerlat_top_parse_args_parsed _ _ _ _ _ _ Hparse)
    as (_ & _ & Hopts).
  destruct (parse_options_inv _ _ _ _ _ _ Hopts) as (-> & _).
  simpl. destruct (existsb is_nano cs); split; (reflexivity || discriminate).
Qed.

(** After a successful parse the period is at most 1000000 us, the
    duration is non-zero exactly when [-d] was among the options, no
    sleep time is set, and the quiet and scheduling flags are 0 or 1. *)
Theorem parsed_limits (calloc_ok : bool) (x : arg_readers) (debug debug' : bool)
    (cs : list getopt_result) (p : timerlat_top_params) :
  timerlat_top_parse_args calloc_ok x debug cs = parsed p debug' ->
  timerlat_period_us p <= 1000000
  /\ (duration p <> 0 <-> existsb is_duration cs = true)
  /\ sleep_time p = 0
  /\ (quiet p = 0 \/ quiet p = 1)
  /\ (set_sched p = 0 \/ set_sched p = 1).
Proof.
  intros Hparse.
  destruct (timerlat_top_parse_args_parsed _ _ _ _ _ _ Hparse)
    as (_ & _ & Hopts).
  destruct (parse_options_inv _ _ _ _ _ _ Hopts)
    as (_ & Hdur & Hper & Hsl & Hq & Hss & _).
  simpl in *.
  split; [apply Hper; lia|]. split; [|auto].
  rewrite Hdur. intuition.
Qed.

(** The parameters are returned only to root, and only when no option
    was [-h], unknown or without a case of its own: each of those ends
    the process first. *)
Theorem parsed_needs_root_and_known_options (calloc_ok : bool)
    (x : arg_readers) (debug debug' : bool) (cs : list getopt_result)
    (p : timerlat_top_params) :
  timerlat_top_parse_args calloc_ok x debug cs = parsed p debug' ->
  calloc_ok = true /\ geteuid x = 0
  /\ forall c, c ∈ cs ->
       c <> opt_help /\ c <> opt_unknown /\ (forall z, c <> opt_other z).
Proof.
  intros Hparse.
  destruct (timerlat_top_parse_args_parsed _ _ _ _ _ _ Hparse)
    as (Hok & Hroot & Hopts).
  destruct (parse_options_inv _ _ _ _ _ _ Hopts) as (_ & _ & _ & _ & _ & _ & Hcs).
  auto.
Qed.

(** With parameters that come from the command line the loop sleeps
    one second per turn: no option sets the sleep time. *)
Theorem parsed_run_sleeps_one_second (calloc_ok : bool) (x : arg_readers)
    (debug debug' : bool) (cs : list getopt_result) (p : timerlat_top_params)
    (fuel : nat) (w : world) (r : run) (s : Z) :
  timerlat_top_parse_args calloc_ok x debug cs = parsed p debug' ->
  timerlat_top_main fuel w p = Ret r ->
  sleep s ∈ running_events r ->
  s = 1.
Proof.
  intros Hparse Hmain Hs.
  destruct (timerlat_top_parse_args_parsed _ _ _ _ _ _ Hparse)
    as (_ & _ & Hopts).
  destruct (parse_options_inv _ _ _ _ _ _ Hopts) as (_ & _ & _ & Hsl & _).
  simpl in Hsl.
  destruct (timerlat_top_main_shape _ _ _ _ Hmain)
    as [(_ & m & ->)|[(data & msgs & m & _ & _ & _ & ->)
       |[(data & m & _ & _ & _ & _ & ->)
        |(data & lr & drained & _ & _ & Hloop & _ & _ & ->)]]];
    simpl in Hs; try (inversion Hs; fail).
  destruct (monitor_loop_facts _ _ _ _ _ _ Hloop) as (_ & _ & Hsleep & _).
  rewrite (Hsleep _ Hs), timerlat_top_apply_config_params, Hsl. reflexivity.
Qed.

End CommandLine.

(** ** Instances of the further properties *)

Section MoreInstances.

Lemma alloc_gives_fresh_table_witness :
  true = true /\ true = true /\ nr_cpus ex_fresh_table = 2
  /\ forall cpu, cpu_entry ex_fresh_table cpu =
       if (0 <=? cpu) && (cpu <? 2) then Some fresh_cpu else None.
Proof.
  apply (alloc_gives_fresh_table true true 2 ex_fresh_table). reflexivity.
Defined.

Lemma update_touches_one_context_witness :
  (forall other, other <> 0 ->
     cpu_entry (mk_data [ex_cpu0; fresh_cpu] 2) other
     = cpu_entry (mk_data [ex_cpu0_irq_only; fresh_cpu] 2) other)
  /\ exists c, cpu_entry (mk_data [ex_cpu0_irq_only; fresh_cpu] 2) 0 = Some c
       /\ cpu_entry (mk_data [ex_cpu0; fresh_cpu] 2) 0
          = Some (update_cpu c 1 200)
       /\ forall k, k <> context_of 1 ->
            count_of k (update_cpu c 1 200) = count_of k c
            /\ cur_of k (update_cpu c 1 200) = cur_of k c
            /\ min_of k (update_cpu c 1 200) = min_of k c
            /\ sum_of k (update_cpu c 1 200) = sum_of k c
            /\ max_of k (update_cpu c 1 200) = max_of k c.
Proof.
  apply (update_touches_one_context (mk_data [ex_cpu0_irq_only; fresh_cpu] 2)
           (mk_data [ex_cpu0; fresh_cpu] 2) 0 1 200).
  reflexivity.
Defined.

Lemma count_is_number_seen_witness :
  count_of Irq ex_cpu0 = Z.of_nat (length (seen 0 Irq ex_samples)).
Proof.
  apply (count_is_number_seen 2 ex_fresh_table (mk_data [ex_cpu0; fresh_cpu] 2)
           ex_samples 0 Irq ex_cpu0); try reflexivity.
  vm_compute. discriminate.
Defined.

Lemma sum_is_total_modulo_witness :
  sum_of Irq (mk_cpu 2 0 (2 ^ 63) (2 ^ 63) 0 (2 ^ 63) 0 all_ones 0 0)
  = wrap_u64 (total (seen 0 Irq ex_wrapping_samples)).
Proof.
  apply (sum_is_total_modulo 2 ex_fresh_table
           (mk_data [mk_cpu 2 0 (2 ^ 63) (2 ^ 63) 0 (2 ^ 63) 0 all_ones 0 0;
                     fresh_cpu] 2)
           ex_wrapping_samples 0 Irq); reflexivity.
Defined.

Lemma extremes_are_attained_witness :
  min_of Irq ex_cpu0 ∈ seen 0 Irq ex_samples
  /\ max_of Irq ex_cpu0 ∈ seen 0 Irq ex_samples.
Proof.
  apply (extremes_are_attained 2 ex_fresh_table
           (mk_data [ex_cpu0; fresh_cpu] 2) ex_samples 0 Irq ex_cpu0);
    try reflexivity.
  - simpl. repeat constructor; unfold U64_MODULUS; lia.
  - discriminate.
Defined.

Lemma aggregates_stay_in_range_witness :
  is_u64 (cur_of Thread ex_cpu0) /\ is_u64 (min_of Thread ex_cpu0)
  /\ is_u64 (sum_of Thread ex_cpu0) /\ is_u64 (max_of Thread ex_cpu0)
  /\ - 2 ^ 31 <= count_of Thread ex_cpu0 <= INT_MAX.
Proof.
  apply (aggregates_stay_in_range 2 ex_fresh_table
           (mk_data [ex_cpu0; fresh_cpu] 2) ex_samples 0 Thread ex_cpu0);
    try reflexivity.
  simpl. repeat constructor; unfold U64_MODULUS; lia.
Defined.

Lemma render_after_alloc_defined_witness :
  timerlat_print_stats 2 false "0 00:00:01" ex_cpu_list_params
    (mk_data [ex_cpu0; fresh_cpu] 2) <> None.
Proof.
  apply (render_after_alloc_defined 2 ex_fresh_table
           (mk_data [ex_cpu0; fresh_cpu] 2) ex_samples).
  - reflexivity.
  - reflexivity.
  - right. simpl. lia.
Defined.

Lemma quiet_only_drops_clear_witness :
  exists text,
    timerlat_print_stats 2 false "0 00:00:01" (with_quiet 1 ex_params)
      ex_table_both = Some text
    /\ timerlat_print_stats 2 false "0 00:00:01" (with_quiet 0 ex_params)
         ex_table_both = Some (clear_terminal false +:+ text)
    /\ timerlat_print_stats 2 true "0 00:00:01" (with_quiet 0 ex_params)
         ex_table_both
       = timerlat_print_stats 2 true "0 00:00:01" (with_quiet 1 ex_params)
           ex_table_both.
Proof.
  eexists. split; [vm_compute; reflexivity|].
  apply (quiet_only_drops_clear 2 false "0 00:00:01" ex_params ex_table_both 1).
  - discriminate.
  - vm_compute. reflexivity.
Defined.

Lemma render_reads_monitored_only_witness :
  timerlat_print_stats 2 false "0 00:00:01" ex_cpu_list_params ex_table_both
  = timerlat_print_stats 2 false "0 00:00:01" ex_cpu_list_params
      (mk_data [ex_cpu0; fresh_cpu] 2).
Proof.
  apply (render_reads_monitored_only 2 false "0 00:00:01" ex_cpu_list_params
           ex_table_both (mk_data [ex_cpu0; fresh_cpu] 2)).
  intros i Hi. unfold cpu_filtered in Hi. simpl in Hi.
  destruct (Z.ltb_spec i 0) as [|Hpos]; [discriminate|].
  destruct (Z.to_nat i) as [|[|n]] eqn:Hn; simpl in Hi; try discriminate.
  assert (i = 0) as -> by lia. reflexivity.
Defined.

Lemma fresh_table_renders_header_only_witness :
  timerlat_print_stats 2 false "0 00:00:01" ex_cpu_list_params ex_fresh_table
  = Some ((if quiet ex_cpu_list_params =? 0 then clear_terminal false
           else EmptyString)
          +:+ timerlat_top_header ex_cpu_list_params "0 00:00:01").
Proof.
  apply (fresh_table_renders_header_only 2 ex_fresh_table false "0 00:00:01"
           ex_cpu_list_params).
  - reflexivity.
  - right. simpl. lia.
Defined.

Lemma apply_config_succeeds_iff_witness :
  (snd (timerlat_top_apply_config ex_enable_failing_world ex_cpu_list_params) = 0
   <-> (cpus ex_cpu_list_params <> None ->
        set_cpus_rc ex_enable_failing_world = 0)
       /\ (stop_us ex_cpu_list_params <> 0 ->
           set_stop_us_rc ex_enable_failing_world = 0)
       /\ (stop_total_us ex_cpu_list_params <> 0 ->
           set_stop_total_us_rc ex_enable_failing_world = 0)
       /\ (timerlat_period_us ex_cpu_list_params <> 0 ->
           set_timerlat_period_us_rc ex_enable_failing_world = 0)
       /\ (print_stack ex_cpu_list_params <> 0 ->
           set_print_stack_rc ex_enable_failing_world = 0))
  /\ ((snd (timerlat_top_apply_config ex_enable_failing_world
              ex_cpu_list_params) = 0
       /\ snd (fst (timerlat_top_apply_config ex_enable_failing_world
                      ex_cpu_list_params)) = [])
      \/ (snd (timerlat_top_apply_config ex_enable_failing_world
                 ex_cpu_list_params) = -1
          /\ exists m,
               snd (fst (timerlat_top_apply_config ex_enable_failing_world
                           ex_cpu_list_params)) = [err_msg m])).
Proof.
  exact (apply_config_succeeds_iff ex_enable_failing_world ex_cpu_list_params).
Defined.

Lemma sleeps_are_configured_witness :
  exists r,
    timerlat_top_main 2 (ex_world true) ex_params = Ret r
    /\ sleep 1 ∈ running_events r
    /\ 1 = (if sleep_time ex_params =? 0 then 1 else sleep_time ex_params)
    /\ 1 <> 0.
Proof.
  eexists. split; [vm_compute; reflexivity|].
  split; [vm_compute; left|].
  eapply (sleeps_are_configured 2 (ex_world true) ex_params).
  - vm_compute. reflexivity.
  - vm_compute. left.
Defined.

Lemma one_render_per_iteration_witness :
  exists r,
    timerlat_top_main 5 ex_failing_world ex_params = Ret r
    /\ (renders (running_events r)
        + match left_loop r with Some IngestError => 1 | _ => 0 end)%nat
       = count_events is_sleep (running_events r).
Proof.
  eexists. split; [vm_compute; reflexivity|].
  apply (one_render_per_iteration 5 ex_failing_world ex_params).
  - vm_compute. reflexivity.
  - reflexivity.
Defined.

Lemma final_snapshot_shows_all_polls_witness :
  exists r,
    timerlat_top_main 2 (ex_world true) ex_params = Ret r
    /\ exists d0 d text rest,
         timerlat_alloc_top true true (nprocessors_conf (ex_world true))
           = Some d0
         /\ handle_events d0
              (polled (ex_world true) 0
                 (count_events is_sleep (running_events r))) = Some d
         /\ timerlat_print_stats (nprocessors_conf (ex_world true))
              (config_debug (ex_world true))
              (duration_after_loop (ex_world true))
              (fst (fst (timerlat_top_apply_config (ex_world true) ex_params)))
              d = Some text
         /\ draining_events r = print_stats text :: rest.
Proof.
  eexists. split; [vm_compute; reflexivity|].
  apply (final_snapshot_shows_all_polls 2 (ex_world true) ex_params).
  - vm_compute. reflexivity.
  - left. reflexivity.
Defined.

Lemma loop_exit_reason_sound_witness :
  exists r,
    timerlat_top_main 2 (ex_world true) ex_params = Ret r
    /\ (forall i, (i < count_events is_sleep (running_events r))%nat ->
                  stop_tracing_at (ex_world true) i = false)
    /\ (forall i, (S i < count_events is_sleep (running_events r))%nat ->
                  trace_is_on_in_loop (ex_world true) i = true
                  /\ 0 <= snd (iterate_raw_events (ex_world true) i))
    /\ match left_loop r with
       | Some StopRequested =>
           stop_tracing_at (ex_world true)
             (count_events is_sleep (running_events r)) = true
       | Some TracerInactive =>
           exists j, count_events is_sleep (running_events r) = S j
                     /\ trace_is_on_in_loop (ex_world true) j = false
                     /\ 0 <= snd (iterate_raw_events (ex_world true) j)
       | Some IngestError =>
           exists j, count_events is_sleep (running_events r) = S j
                     /\ snd (iterate_raw_events (ex_world true) j) < 0
       | None => running_events r = []
       end.
Proof.
  eexists. split; [vm_compute; reflexivity|].
  apply (loop_exit_reason_sound 2 (ex_world true) ex_params).
  vm_compute. reflexivity.
Defined.

Lemma exit_status_zero_iff_witness :
  exists r,
    timerlat_top_main 5 ex_failing_world ex_params = Ret r
    /\ (exit_status r = 0
        <-> left_loop r = Some StopRequested
            \/ left_loop r = Some TracerInactive)
    /\ (exit_status r = 0 \/ exit_status r = 1).
Proof.
  eexists. split; [vm_compute; reflexivity|].
  apply (exit_status_zero_iff 5 ex_failing_world ex_params).
  vm_compute. reflexivity.
Defined.

(** The table cannot be allocated: the block of the statistics is
    released at the label [cleanup], the tool is destroyed, and the
    parameters are not freed. *)
Lemma resources_released_once_witness :
  exists r,
    timerlat_top_main 2 ex_alloc_failing_world ex_params = Ret r
    /\ count_events is_destroy_top (trace_of r) = 1%nat
    /\ count_events is_free_top (trace_of r) = 1%nat
    /\ count_events is_free_params (trace_of r) = 0%nat.
Proof.
  eexists. split; [vm_compute; reflexivity|].
  apply (resources_released_once 2 ex_alloc_failing_world ex_params).
  - vm_compute. reflexivity.
  - vm_compute. reflexivity.
Defined.

Lemma record_tool_lifecycle_witness :
  exists r,
    timerlat_top_main 2 (ex_world false) ex_trace_params = Ret r
    /\ count_events is_start_record (trace_of r)
       = count_events is_destroy_record (trace_of r)
    /\ count_events is_start_record (trace_of r) = 1%nat.
Proof.
  eexists. split; [vm_compute; reflexivity|].
  apply (record_tool_lifecycle 2 (ex_world false) ex_trace_params).
  vm_compute. reflexivity.
Defined.

Lemma unassigned_record_destroyed_witness :
  exists r,
    timerlat_top_main 2 ex_enable_failing_world ex_trace_params = Ret r
    /\ (count_events is_destroy_unassigned (trace_of r) = 1%nat
        <-> trace_output ex_trace_params <> None
            /\ snd (timerlat_init_top ex_enable_failing_world) <> None
            /\ (snd (timerlat_top_apply_config ex_enable_failing_world
                       ex_trace_params) <> 0
                \/ enable_timerlat_rc ex_enable_failing_world <> 0
                \/ (set_sched ex_trace_params <> 0
                    /\ set_comm_sched_attr_rc ex_enable_failing_world <> 0)))
    /\ (count_events is_destroy_unassigned (trace_of r) = 0%nat
        \/ count_events is_destroy_unassigned (trace_of r) = 1%nat).
Proof.
  eexists. split; [vm_compute; reflexivity|].
  apply (unassigned_record_destroyed 2 ex_enable_failing_world ex_trace_params).
  vm_compute. reflexivity.
Defined.

Lemma timerlat_top_main_returns_witness :
  exists r, timerlat_top_main 2 (ex_world true) ex_params = Ret r.
Proof.
  apply (timerlat_top_main_returns (ex_world true) ex_params 1 2).
  - intros k. destruct k; simpl; unfold ex_samples;
      repeat (apply List.Forall_cons; [simpl; lia|]); apply List.Forall_nil.
  - left. reflexivity.
  - reflexivity.
  - lia.
Defined.

Lemma parsed_divisor_witness :
  output_divisor ex_empty_trace_params
    = (if existsb is_nano ex_empty_trace_options then 1 else 1000)
  /\ output_divisor ex_empty_trace_params <> 0.
Proof.
  apply (parsed_divisor true ex_readers false false ex_empty_trace_options
           ex_empty_trace_params).
  reflexivity.
Defined.

Lemma parsed_limits_witness :
  timerlat_period_us ex_parsed_params <= 1000000
  /\ (duration ex_parsed_params <> 0 <-> existsb is_duration ex_options = true)
  /\ sleep_time ex_parsed_params = 0
  /\ (quiet ex_parsed_params = 0 \/ quiet ex_parsed_params = 1)
  /\ (set_sched ex_parsed_params = 0 \/ set_sched ex_parsed_params = 1).
Proof.
  apply (parsed_limits true ex_readers false false ex_options ex_parsed_params).
  reflexivity.
Defined.

(** An empty argument of [--trace] does not end the parse: the output
    file is the text found after the terminator of the argument. *)
Example parse_empty_trace_returns :
  timerlat_top_parse_args true ex_readers false ex_empty_trace_options
  = parsed ex_empty_trace_params false.
Proof. reflexivity. Qed.

Lemma parsed_needs_root_and_known_options_witness :
  true = true /\ geteuid ex_readers = 0
  /\ forall c, c ∈ ex_empty_trace_options ->
       c <> opt_help /\ c <> opt_unknown /\ (forall z, c <> opt_other z).
Proof.
  apply (parsed_needs_root_and_known_options true ex_readers false false
           ex_empty_trace_options ex_empty_trace_params).
  reflexivity.
Defined.

Lemma parsed_run_sleeps_one_second_witness :
  exists r,
    timerlat_top_main 2 (ex_world true) ex_empty_trace_params = Ret r
    /\ sleep 1 ∈ running_events r
    /\ 1 = 1.
Proof.
  eexists. split; [vm_compute; reflexivity|].
  split; [vm_compute; left|].
  eapply (parsed_run_sleeps_one_second true ex_readers false false
            ex_empty_trace_options ex_empty_trace_params 2 (ex_world true)).
  - reflexivity.
  - vm_compute. reflexivity.
  - vm_compute. left.
Defined.

End MoreInstances.

(** ** From the answers of the surroundings to the exit *)

Section Forward.

(** The loop run forward: when every turn before turn [j] goes on and
    turn [j] ends the loop, the loop returns, and how it was left is
    decided by what turn [j] finds first. *)
Lemma monitor_loop_forward (w : world) (params : timerlat_top_params) :
  records_in_table w ->
  cpu_list_fits w params ->
  forall (j k fuel : nat) (d : timerlat_top_data),
    length (cpu_data d) = Z.to_nat (nprocessors_conf w) ->
    (forall i, (i < j)%nat -> turn_continues w (k + i)) ->
    stop_tracing_at w (k + j) = true
      \/ snd (iterate_raw_events w (k + j)) < 0
      \/ trace_is_on_in_loop w (k + j) = false ->
    (j < fuel)%nat ->
    exists r,
      monitor_loop fuel w params k d = Ret r
      /\ lr_exit r =
           if stop_tracing_at w (k + j) then StopRequested
           else if snd (iterate_raw_events w (k + j)) <? 0 then IngestError
           else TracerInactive.
Proof.
  intros Hrec Hfit.
  induction j as [|j IH]; intros k fuel d Hlen Hturns Hend Hfuel;
    (destruct fuel as [|fuel]; [lia|]); simpl.
  - rewrite Nat.add_0_r in *.
    destruct (stop_tracing_at w k) eqn:Hstop; [eauto|].
    specialize (Hrec k).
    destruct (iterate_raw_events w k) as [records retval]. simpl in *.
    assert (is_Some (handle_events d records)) as [d' Hd'].
    { apply handle_events_defined. eapply Forall_impl; [exact Hrec|].
      simpl. intros r Hr. rewrite Hlen. lia. }
    rewrite Hd'. simpl.
    destruct (handle_events_shape _ _ _ Hd') as [Hlen' _].
    destruct (Z.ltb_spec retval 0) as [Hneg|Hpos]; [eauto|].
    assert (exists shown,
               (if quiet params =? 0
                then text ← of_option
                       (timerlat_print_stats (nprocessors_conf w)
                          (config_debug w) (duration_in_loop w k) params d');
                     Ret [print_stats text]
                else Ret []) = Ret shown) as [shown ->].
    { destruct (quiet params =? 0); [|eauto].
      destruct (timerlat_print_stats_defined (nprocessors_conf w)
                  (config_debug w) (duration_in_loop w k) params d')
        as [text ->]; [congruence | exact Hfit | simpl; eauto]. }
    simpl. destruct Hend as [Hend|[Hend|Hend]]; [discriminate | lia |].
    rewrite Hend. simpl. eauto.
  - destruct (Hturns 0%nat ltac:(lia)) as (Hstop & Hrc & Hon).
    rewrite Nat.add_0_r in Hstop, Hrc, Hon. rewrite Hstop.
    specialize (Hrec k).
    destruct (iterate_raw_events w k) as [records retval]. simpl in *.
    assert (is_Some (handle_events d records)) as [d' Hd'].
    { apply handle_events_defined. eapply Forall_impl; [exact Hrec|].
      simpl. intros r Hr. rewrite Hlen. lia. }
    rewrite Hd'. simpl.
    destruct (handle_events_shape _ _ _ Hd') as [Hlen' _].
    destruct (Z.ltb_spec retval 0) as [Hneg|_]; [lia|].
    assert (exists shown,
               (if quiet params =? 0
                then text ← of_option
                       (timerlat_print_stats (nprocessors_conf w)
                          (config_debug w) (duration_in_loop w k) params d');
                     Ret [print_stats text]
                else Ret []) = Ret shown) as [shown ->].
    { destruct (quiet params =? 0); [|eauto].
      destruct (timerlat_print_stats_defined (nprocessors_conf w)
                  (config_debug w) (duration_in_loop w k) params d')
        as [text ->]; [congruence | exact Hfit | simpl; eauto]. }
    simpl. rewrite Hon. simpl.
    replace (k + S j)%nat with (S k + j)%nat in * by lia.
    destruct (IH (S k) fuel d') as (r & -> & Hexit);
      [congruence | | exact Hend | lia |].
    { intros i Hi. replace (S k + i)%nat with (k + S i)%nat by lia.
      apply Hturns. lia. }
    simpl. eexists. split; [reflexivity|]. exact Hexit.
Qed.

(** [timerlat_top_main] returns when some turn ends the loop. *)
Lemma timerlat_top_main_ends (w : world) (params : timerlat_top_params)
    (j fuel : nat) :
  records_in_table w ->
  cpu_list_fits w params ->
  (forall i, (i < j)%nat -> turn_continues w i) ->
  stop_tracing_at w j = true
    \/ snd (iterate_raw_events w j) < 0
    \/ trace_is_on_in_loop w j = false ->
  (j < fuel)%nat ->
  exists r, timerlat_top_main fuel w params = Ret r.
Proof.
  intros Hrec Hfit Hturns Hend Hfuel. unfold timerlat_top_main.
  pose proof (timerlat_top_apply_config_keeps w params)
    as (_ & _ & Hcpus & Hmon & _).
  destruct (timerlat_init_top w) as [evs [data|]] eqn:Hinit;
    [|eexists; reflexivity].
  destruct (timerlat_top_apply_config w params) as [[params' msgs] retval].
  simpl in Hcpus, Hmon.
  assert (cpu_list_fits w params') as Hfit'.
  { unfold cpu_list_fits in *. rewrite Hcpus, Hmon. exact Hfit. }
  assert (length (cpu_data data) = Z.to_nat (nprocessors_conf w)) as Hlen.
  { unfold timerlat_init_top in Hinit.
    destruct (negb (init_tool_ok w)); [discriminate|].
    destruct (timerlat_alloc_top _ _ _) as [d|] eqn:Halloc; [|discriminate].
    injection Hinit as _ <-.
    eapply timerlat_alloc_top_length. exact Halloc. }
  repeat match goal with
         | |- context [if ?b then _ else _] =>
             destruct b; [eexists; reflexivity|]
         end.
  destruct (monitor_loop_forward w params' Hrec Hfit' j 0%nat fuel data Hlen
              Hturns Hend Hfuel) as (r & Hloop & _).
  rewrite Hloop. simpl.
  destruct (monitor_loop_facts _ _ _ _ _ _ Hloop) as (Hdata & _).
  destruct (handle_events_shape _ _ _ Hdata) as [Hr _].
  destruct (timerlat_print_stats_defined (nprocessors_conf w) (config_debug w)
              (duration_after_loop w) params' (lr_data r))
    as [text Htext]; [congruence | exact Hfit' |].
  unfold after_loop. rewrite Htext. simpl.
  destruct (lr_exit r); simpl; eauto.
Qed.

End Forward.

(** ** Exit status *)

Section ExitStatus.

(** A run whose steps before the loop succeed enters the loop: it has
    the shape of the loop followed by the statements after it. *)
Lemma timerlat_top_main_entered (fuel : nat) (w : world)
    (params0 : timerlat_top_params) (r : run) :
  reaches_loop w params0 ->
  timerlat_top_main fuel w params0 = Ret r ->
  let params := fst (fst (timerlat_top_apply_config w params0)) in
  exists data lr,
    timerlat_alloc_top true true (nprocessors_conf w) = Some data
    /\ monitor_loop fuel w params 0 data = Ret lr
    /\ running_events r = lr_events lr
    /\ left_loop r = Some (lr_exit lr)
    /\ stopped_events r = out_top params RecordTool
    /\ exit_status r = match lr_exit lr with IngestError => 1 | _ => 0 end
    /\ (lr_exit lr = IngestError -> draining_events r = []).
Proof.
  intros (Htool & Hc1 & Hc2 & Hrv & Hen & Hsched & Hrec) Hmain.
  destruct (timerlat_top_apply_config_same w params0) as [Hto Hss].
  destruct (timerlat_top_main_shape _ _ _ _ Hmain)
    as [(Hnone & _)|[(data & msgs & m & _ & _ & Hwhy & _)
       |[(data & m & _ & _ & Hout & Hfail & _)
        |(data & lr & drained & Hinit & _ & Hloop & Herr & _ & ->)]]].
  - exfalso. destruct (timerlat_init_top_none _ Hnone)
      as [(H & _)|(_ & [H|H] & _)]; congruence.
  - exfalso. rewrite Hss in Hwhy.
    destruct Hwhy as [H|[H|[H1 H2]]]; try contradiction.
    destruct Hsched; contradiction.
  - exfalso. rewrite Hto in Hout. destruct Hrec; congruence.
  - destruct (timerlat_init_top_some _ _ Hinit) as (_ & _ & Halloc & _).
    exists data, lr. simpl. repeat split; auto.
Qed.

(** C8, exit status: let the steps before the loop succeed and every
    turn of the loop before turn [j] go on.  If turn [j] finds the stop
    flag set, or polls without error and finds the tracer off, the
    process exits with status 0.  If the poll of turn [j] fails, the
    process exits with a non-zero status; that turn is the last thing
    the loop does, after [j + 1] sleeps, nothing is rendered after it,
    and the statistics are freed, the tool is destroyed and the
    parameters are freed before the exit. *)
Theorem exit_status_and_release (fuel : nat) (w : world)
    (params : timerlat_top_params) (j : nat) :
  records_in_table w ->
  cpu_list_fits w params ->
  reaches_loop w params ->
  (forall i, (i < j)%nat -> turn_continues w i) ->
  (j < fuel)%nat ->
  (stop_tracing_at w j = true
   \/ (0 <= snd (iterate_raw_events w j) /\ trace_is_on_in_loop w j = false) ->
   exists r, timerlat_top_main fuel w params = Ret r /\ exit_status r = 0)
  /\ (stop_tracing_at w j = false ->
      snd (iterate_raw_events w j) < 0 ->
      exists r,
        timerlat_top_main fuel w params = Ret r
        /\ exit_status r <> 0
        /\ count_events is_sleep (running_events r) = S j
        /\ (exists evs s, running_events r =
              evs ++ [sleep s; err_msg ("Error iterating on events" +:+ Fmt.NL)])
        /\ draining_events r = []
        /\ renders (stopped_events r) = 0%nat
        /\ timerlat_free_top ∈ stopped_events r
        /\ osnoise_destroy_tool TopTool ∈ stopped_events r
        /\ free_params ∈ stopped_events r).
Proof.
  intros Hrec Hfit Hreach Hturns Hfuel.
  pose proof (timerlat_top_apply_config_keeps w params)
    as (_ & _ & Hcpus & Hmon & _). simpl in Hcpus, Hmon.
  assert (cpu_list_fits w (fst (fst (timerlat_top_apply_config w params))))
    as Hfit'.
  { unfold cpu_list_fits in *. rewrite Hcpus, Hmon. exact Hfit. }
  assert (forall Hend : stop_tracing_at w j = true
                        \/ snd (iterate_raw_events w j) < 0
                        \/ trace_is_on_in_loop w j = false,
             exists r data lr,
               timerlat_top_main fuel w params = Ret r
               /\ monitor_loop fuel w
                    (fst (fst (timerlat_top_apply_config w params))) 0 data
                  = Ret lr
               /\ running_events r = lr_events lr
               /\ stopped_events r
                  = out_top (fst (fst (timerlat_top_apply_config w params)))
                            RecordTool
               /\ exit_status r
                  = match lr_exit lr with IngestError => 1 | _ => 0 end
               /\ (lr_exit lr = IngestError -> draining_events r = [])
               /\ lr_exit lr =
                    if stop_tracing_at w j then StopRequested
                    else if snd (iterate_raw_events w j) <? 0 then IngestError
                    else TracerInactive) as Hrun.
  { intros Hend.
    destruct (timerlat_top_main_ends w params j fuel Hrec Hfit Hturns Hend Hfuel)
      as [r Hmain].
    destruct (timerlat_top_main_entered _ _ _ _ Hreach Hmain)
      as (data & lr & Halloc & Hloop & Hrunning & _ & Hstopped & Hstatus & Hdrain).
    destruct (monitor_loop_forward w _ Hrec Hfit' j 0%nat fuel data
                (timerlat_alloc_top_length _ _ _ _ Halloc) Hturns Hend Hfuel)
      as (lr' & Hloop' & Hexit).
    rewrite Hloop in Hloop'. injection Hloop' as <-.
    exists r, data, lr. auto 10. }
  split.
  - intros Hnormal.
    destruct (Hrun ltac:(destruct Hnormal as [H|[_ H]]; auto))
      as (r & data & lr & Hmain & _ & _ & _ & Hstatus & _ & Hexit).
    exists r. split; [exact Hmain|]. rewrite Hstatus, Hexit.
    destruct Hnormal as [->|[Hrc _]]; [reflexivity|].
    destruct (stop_tracing_at w j); [reflexivity|].
    destruct (Z.ltb_spec (snd (iterate_raw_events w j)) 0); [lia | reflexivity].
  - intros Hstop Hneg.
    destruct (Hrun ltac:(auto))
      as (r & data & lr & Hmain & Hloop & Hrunning & Hstopped & Hstatus
          & Hdrain & Hexit).
    rewrite Hstop in Hexit.
    destruct (Z.ltb_spec (snd (iterate_raw_events w j)) 0) as [_|]; [|lia].
    exists r. split; [exact Hmain|].
    rewrite Hstatus, Hexit, Hrunning, Hstopped, (Hdrain Hexit).
    destruct (monitor_loop_events _ _ _ _ _ _ Hloop) as (_ & _ & Hlast).
    destruct (Hlast Hexit) as [evs Hevs].
    destruct (monitor_loop_facts _ _ _ _ _ _ Hloop)
      as (_ & _ & _ & _ & _ & Hons & Hwhy).
    rewrite Hexit in Hwhy. destruct Hwhy as (j' & Hcount & Hrc').
    simpl in Hrc', Hons.
    destruct (out_top_quiet (fst (fst (timerlat_top_apply_config w params)))
                RecordTool) as [-> _].
    split; [lia|]. split.
    { rewrite Hcount. f_equal.
      destruct (Nat.lt_trichotomy j' j) as [Hlt|[Heq|Hgt]]; [|exact Heq|].
      - destruct (Hturns j' Hlt) as (_ & Hok & _). lia.
      - destruct (Hons j ltac:(lia)) as [_ Hok]. lia. }
    split; [eauto|]. split; [reflexivity|]. split; [reflexivity|].
    unfold out_top. rewrite !elem_of_app, !elem_of_cons.
    repeat split; auto.
Qed.

End ExitStatus.

Section ExitStatusInstances.

Lemma ex_world_records_in_table (still_on : bool) :
  records_in_table (ex_world still_on).
Proof.
  intros k. destruct k; simpl; unfold ex_samples;
    repeat (apply List.Forall_cons; [simpl; lia|]); apply List.Forall_nil.
Defined.

Lemma ex_failing_world_records_in_table : records_in_table ex_failing_world.
Proof.
  intros k. destruct k; simpl; unfold ex_samples;
    repeat (apply List.Forall_cons; [simpl; lia|]); apply List.Forall_nil.
Defined.

(** A run that the stop flag ends at the second test of the loop
    condition exits with status 0; a run whose second poll fails exits
    with status 1 after two sleeps, renders nothing after the failed
    poll and releases what it holds. *)
Lemma exit_status_and_release_witness :
  (exists r,
      timerlat_top_main 2 (ex_world true) ex_params = Ret r
      /\ exit_status r = 0)
  /\ (exists r,
        timerlat_top_main 5 ex_failing_world ex_params = Ret r
        /\ exit_status r <> 0
        /\ count_events is_sleep (running_events r) = 2%nat
        /\ (exists evs s, running_events r =
              evs ++ [sleep s; err_msg ("Error iterating on events" +:+ Fmt.NL)])
        /\ draining_events r = []
        /\ renders (stopped_events r) = 0%nat
        /\ timerlat_free_top ∈ stopped_events r
        /\ osnoise_destroy_tool TopTool ∈ stopped_events r
        /\ free_params ∈ stopped_events r).
Proof.
  split.
  - refine (proj1 (exit_status_and_release 2 (ex_world true) ex_params 1
                     (ex_world_records_in_table true) _ _ _ _) _).
    + left. reflexivity.
    + unfold reaches_loop. repeat split; try reflexivity; left; reflexivity.
    + intros i Hi. assert (i = 0%nat) as -> by lia.
      unfold turn_continues. simpl. repeat split; lia.
    + lia.
    + left. reflexivity.
  - refine (proj2 (exit_status_and_release 5 ex_failing_world ex_params 1
                     ex_failing_world_records_in_table _ _ _ _) _ _).
    + left. reflexivity.
    + unfold reaches_loop. repeat split; try reflexivity; left; reflexivity.
    + intros i Hi. assert (i = 0%nat) as -> by lia.
      unfold turn_continues. simpl. repeat split; lia.
    + lia.
    + reflexivity.
    + simpl. lia.
Defined.

End ExitStatusInstances.
